(** * AutoStream: the stream accrual and lifecycle engine

    A shallow embedding of the StreamManager contract and of
    [processStreamPayment] of its demonstration sibling
    SimpleStreamManager, followed by the properties of the ledger:
    conservation of the escrowed total, payout monotonicity, terminal
    finality, authorization and the frame of every guard.

    Conventions of the embedding.
    - A [u64] is a [Z] in [0, 2^64); the AssemblyScript operators [+], [-]
      and [*] wrap around modulo [2^64] and [/] truncates.  They are
      written [U64.add], [U64.sub], [U64.mul] and [U64.div]; an arithmetic
      expression of the contract is always read with these operators.
    - [Storage] holds typed values: [serialize] and [fromBytes] are taken
      to be inverse to each other, the key [STREAM_KEY_PREFIX + id] is
      identified with [id], and a missing key (an empty byte array) is
      [None].
    - [Context], [Time] and the coins sent with a call are the fields of
      an [Env] that every entry point receives; the arguments of a call
      arrive decoded ([Args.next*().unwrap()] succeeds).
    - [transferCoins], [call] and [generateEvent] append to a list of
      effects; [assert] throws its message, keeping the storage and the
      effects reached so far. *)

From Stdlib Require Import ZArith Lia.
From stdpp Require Import gmap strings.

Local Open Scope string_scope.
Local Open Scope Z_scope.

(** ** 64-bit unsigned arithmetic *)

Module U64.

Definition modulus : Z := 2 ^ 64.

Definition in_range (z : Z) : Prop := 0 <= z < modulus.

Definition wrap (z : Z) : Z := z mod modulus.

Definition add (a b : Z) : Z := wrap (a + b).

Definition sub (a b : Z) : Z := wrap (a - b).

Definition mul (a b : Z) : Z := wrap (a * b).

(** Unsigned division truncates; every divisor of the contract is
    non-zero where the division is reached. *)
Definition div (a b : Z) : Z := a / b.

End U64.

(** ** The host: addresses, context, effects *)

Definition Address : Type := string.

(** [Address.equals] compares the wrapped values. *)
Definition Address_equals (a b : Address) : bool := String.eqb a b.

Record Env : Type := mkEnv {
  Context_caller : Address;
  Context_callee : Address;
  Context_transferredCoins : Z;
  Time_timestamp : Z
}.

(** An event parameter: a string, or [n.toString()] of a number. *)
Inductive Param : Type :=
| PStr (s : string)
| PNum (n : Z).

Inductive Effect : Type :=
| TransferCoins (to : Address) (amount : Z)
| Call (target : Address) (function_name : string) (arg : Z) (coins : Z) (delay : Z)
| GenerateEvent (name : string) (params : list Param).

Inductive Result (A : Type) : Type :=
| Ok (value : A)
| Err (message : string).

Arguments Ok {A} value.
Arguments Err {A} message.

Definition isOk {A : Type} (r : Result A) : bool :=
  match r with Ok _ => true | Err _ => false end.

(** ** StreamManager *)

Module StreamManager.

Record StreamData : Type := mkStreamData {
  sender : Address;
  recipient : Address;
  startTime : Z;
  endTime : Z;
  ratePerSecond : Z;
  lastPaymentTime : Z;
  totalAmount : Z;
  withdrawnAmount : Z;
  isPaused : bool;
  isCancelled : bool;
  streamType : Z;
  intervalSeconds : Z
}.

Definition set_withdrawnAmount (v : Z) (s : StreamData) : StreamData :=
  mkStreamData (sender s) (recipient s) (startTime s) (endTime s)
    (ratePerSecond s) (lastPaymentTime s) (totalAmount s) v
    (isPaused s) (isCancelled s) (streamType s) (intervalSeconds s).

Definition set_lastPaymentTime (v : Z) (s : StreamData) : StreamData :=
  mkStreamData (sender s) (recipient s) (startTime s) (endTime s)
    (ratePerSecond s) v (totalAmount s) (withdrawnAmount s)
    (isPaused s) (isCancelled s) (streamType s) (intervalSeconds s).

Definition set_isPaused (v : bool) (s : StreamData) : StreamData :=
  mkStreamData (sender s) (recipient s) (startTime s) (endTime s)
    (ratePerSecond s) (lastPaymentTime s) (totalAmount s) (withdrawnAmount s)
    v (isCancelled s) (streamType s) (intervalSeconds s).

Definition set_isCancelled (v : bool) (s : StreamData) : StreamData :=
  mkStreamData (sender s) (recipient s) (startTime s) (endTime s)
    (ratePerSecond s) (lastPaymentTime s) (totalAmount s) (withdrawnAmount s)
    (isPaused s) v (streamType s) (intervalSeconds s).

(** The three kinds of keys of the contract: [stream_<id>],
    [stream_counter] and [owner]. *)
Record Storage : Type := mkStorage {
  streams : gmap Z StreamData;
  stream_counter : option Z;
  owner : option Address
}.

(** Events *)
Definition STREAM_CREATED_EVENT : string := "StreamCreated".
Definition STREAM_PAYMENT_EVENT : string := "StreamPayment".
Definition STREAM_CANCELLED_EVENT : string := "StreamCancelled".
Definition STREAM_PAUSED_EVENT : string := "StreamPaused".
Definition STREAM_RESUMED_EVENT : string := "StreamResumed".

(** *** The monad of an entry point: storage, effects, exceptions *)

Definition M (A : Type) : Type := Storage -> Result A * Storage * list Effect.

Definition ret {A : Type} (a : A) : M A := fun st => (Ok a, st, []).

Definition bind {A B : Type} (m : M A) (k : A -> M B) : M B := fun st =>
  match m st with
  | (Ok a, st1, e1) =>
      match k a st1 with
      | (r, st2, e2) => (r, st2, (e1 ++ e2)%list)
      end
  | (Err msg, st1, e1) => (Err msg, st1, e1)
  end.

Declare Scope contract_scope.
Delimit Scope contract_scope with contract.
Notation "x <- m ;; k" := (bind m (fun x => k))
  (at level 20, m at level 99, k at level 200, only parsing) : contract_scope.
Notation "m ;; k" := (bind m (fun _ => k))
  (at level 100, k at level 200, only parsing, right associativity) : contract_scope.
Local Open Scope contract_scope.

(** [throw new Error(message)] *)
Definition throw {A : Type} (message : string) : M A := fun st =>
  (Err message, st, []).

Definition assert (condition : bool) (message : string) : M unit :=
  if condition then ret tt else throw message.

Definition emit (e : Effect) : M unit := fun st => (Ok tt, st, [e]).

Definition transferCoins (to : Address) (amount : Z) : M unit :=
  emit (TransferCoins to amount).

Definition call (target : Address) (function_name : string) (arg coins delay : Z) : M unit :=
  emit (Call target function_name arg coins delay).

Definition generateEvent (name : string) (params : list Param) : M unit :=
  emit (GenerateEvent name params).

Definition Storage_get_stream (streamId : Z) : M (option StreamData) := fun st =>
  (Ok (streams st !! streamId), st, []).

Definition Storage_set_stream (streamId : Z) (s : StreamData) : M unit := fun st =>
  (Ok tt, mkStorage (<[streamId := s]> (streams st)) (stream_counter st) (owner st), []).

Definition Storage_get_counter : M (option Z) := fun st =>
  (Ok (stream_counter st), st, []).

Definition Storage_set_counter (n : Z) : M unit := fun st =>
  (Ok tt, mkStorage (streams st) (Some n) (owner st), []).

Definition Storage_set_owner (a : Address) : M unit := fun st =>
  (Ok tt, mkStorage (streams st) (stream_counter st) (Some a), []).

(** [Storage.get], [assert(streamData.length > 0, 'Stream not found')] and
    [StreamData.fromBytes]. *)
Definition load_stream (streamId : Z) : M StreamData :=
  streamData <- Storage_get_stream streamId ;;
  match streamData with
  | None => throw "Stream not found"
  | Some stream => ret stream
  end.

(** *** Entry points *)

Definition constructor (env : Env) (owner_arg : Address) : M unit :=
  Storage_set_owner owner_arg ;;
  Storage_set_counter 0 ;;
  generateEvent "StreamManagerInitialized" [PStr owner_arg] ;;
  ret tt.

(** Helper function to schedule next payment using deferred calls. *)
Definition scheduleNextPayment (env : Env) (streamId intervalSeconds : Z) : M unit :=
  call (Context_callee env) "processStreamPayment" streamId 0
       (U64.mul intervalSeconds 1000).

Definition createStream (env : Env) (recipient_arg : Address)
    (duration streamType_arg intervalSeconds_arg : Z) : M Z :=
  let totalAmount_ := Context_transferredCoins env in
  assert (0 <? totalAmount_) "Must send coins to create stream" ;;
  assert (0 <? duration) "Duration must be positive" ;;
  assert (0 <? intervalSeconds_arg) "Interval must be positive" ;;
  let ratePerSecond_ := U64.div totalAmount_ duration in
  assert (0 <? ratePerSecond_) "Rate per second must be positive" ;;
  counterData <- Storage_get_counter ;;
  let streamId := match counterData with Some c => c | None => 0 end in
  let newStreamId := U64.add streamId 1 in
  Storage_set_counter newStreamId ;;
  let currentTime := Time_timestamp env in
  let stream :=
    mkStreamData (Context_caller env) recipient_arg currentTime
      (U64.add currentTime (U64.mul duration 1000))
      ratePerSecond_ currentTime totalAmount_ 0 false false
      streamType_arg intervalSeconds_arg in
  Storage_set_stream newStreamId stream ;;
  scheduleNextPayment env newStreamId intervalSeconds_arg ;;
  generateEvent STREAM_CREATED_EVENT
    [PNum newStreamId; PStr (Context_caller env); PStr recipient_arg;
     PNum totalAmount_; PNum duration] ;;
  ret newStreamId.

Definition processStreamPayment (env : Env) (streamId : Z) : M unit :=
  stream <- load_stream streamId ;;
  assert (negb (isCancelled stream)) "Stream is cancelled" ;;
  assert (negb (isPaused stream)) "Stream is paused" ;;
  let currentTime := Time_timestamp env in
  if endTime stream <=? currentTime then
    let remainingAmount := U64.sub (totalAmount stream) (withdrawnAmount stream) in
    stream1 <-
      (if 0 <? remainingAmount then
         transferCoins (recipient stream) remainingAmount ;;
         generateEvent STREAM_PAYMENT_EVENT
           [PNum streamId; PStr (recipient stream); PNum remainingAmount; PStr "final"] ;;
         ret (set_withdrawnAmount (totalAmount stream) stream)
       else ret stream) ;;
    Storage_set_stream streamId (set_isCancelled true stream1) ;;
    ret tt
  else
    let timeSinceLastPayment := U64.sub currentTime (lastPaymentTime stream) in
    let paymentAmount :=
      U64.div (U64.mul timeSinceLastPayment (ratePerSecond stream)) 1000 in
    stream1 <-
      (if (0 <? paymentAmount)
          && (U64.add (withdrawnAmount stream) paymentAmount <=? totalAmount stream) then
         transferCoins (recipient stream) paymentAmount ;;
         let stream' :=
           set_lastPaymentTime currentTime
             (set_withdrawnAmount (U64.add (withdrawnAmount stream) paymentAmount) stream) in
         Storage_set_stream streamId stream' ;;
         generateEvent STREAM_PAYMENT_EVENT
           [PNum streamId; PStr (recipient stream); PNum paymentAmount; PStr "regular"] ;;
         ret stream'
       else ret stream) ;;
    (if (currentTime <? endTime stream1)
        && negb (isCancelled stream1) && negb (isPaused stream1) then
       scheduleNextPayment env streamId (intervalSeconds stream1)
     else ret tt) ;;
    ret tt.

Definition cancelStream (env : Env) (streamId : Z) : M unit :=
  stream <- load_stream streamId ;;
  assert (Address_equals (sender stream) (Context_caller env))
    "Only stream creator can cancel" ;;
  assert (negb (isCancelled stream)) "Stream already cancelled" ;;
  let remainingAmount := U64.sub (totalAmount stream) (withdrawnAmount stream) in
  let stream1 := set_isCancelled true stream in
  Storage_set_stream streamId stream1 ;;
  (if 0 <? remainingAmount then transferCoins (sender stream1) remainingAmount
   else ret tt) ;;
  generateEvent STREAM_CANCELLED_EVENT
    [PNum streamId; PStr (sender stream1); PNum remainingAmount] ;;
  ret tt.

Definition pauseStream (env : Env) (streamId : Z) : M unit :=
  stream <- load_stream streamId ;;
  assert (Address_equals (sender stream) (Context_caller env))
    "Only stream creator can pause" ;;
  assert (negb (isCancelled stream)) "Stream is cancelled" ;;
  assert (negb (isPaused stream)) "Stream already paused" ;;
  Storage_set_stream streamId (set_isPaused true stream) ;;
  generateEvent STREAM_PAUSED_EVENT [PNum streamId] ;;
  ret tt.

Definition resumeStream (env : Env) (streamId : Z) : M unit :=
  stream <- load_stream streamId ;;
  assert (Address_equals (sender stream) (Context_caller env))
    "Only stream creator can resume" ;;
  assert (negb (isCancelled stream)) "Stream is cancelled" ;;
  assert (isPaused stream) "Stream is not paused" ;;
  let stream1 := set_lastPaymentTime (Time_timestamp env) (set_isPaused false stream) in
  Storage_set_stream streamId stream1 ;;
  scheduleNextPayment env streamId (intervalSeconds stream1) ;;
  generateEvent STREAM_RESUMED_EVENT [PNum streamId] ;;
  ret tt.

(** [getStream] returns a serialized [Result]: an error value, not a throw. *)
Definition getStream (env : Env) (streamId : Z) : M (Result StreamData) :=
  streamData <- Storage_get_stream streamId ;;
  match streamData with
  | None => ret (Err "Stream not found")
  | Some stream => ret (Ok stream)
  end.

Definition getStreamCount (env : Env) : M Z :=
  counterData <- Storage_get_counter ;;
  match counterData with
  | None => ret 0
  | Some c => ret c
  end.

Definition getWithdrawableAmount (env : Env) (streamId : Z) : M Z :=
  stream <- load_stream streamId ;;
  if isCancelled stream || isPaused stream then ret 0
  else
    let currentTime := Time_timestamp env in
    let elapsedTime := U64.sub currentTime (lastPaymentTime stream) in
    let earnedAmount := U64.div (U64.mul elapsedTime (ratePerSecond stream)) 1000 in
    let maxWithdrawable := U64.sub (totalAmount stream) (withdrawnAmount stream) in
    let withdrawableAmount :=
      if maxWithdrawable <? earnedAmount then maxWithdrawable else earnedAmount in
    ret withdrawableAmount.

End StreamManager.

(** ** SimpleStreamManager: the demonstration sibling

    The numbers of this contract are JavaScript [number]s.  Their
    arithmetic and comparisons are parameters of the section: nothing
    below depends on how they round. [a >= b] is written [leb b a] and
    [a > b] is written [ltb b a]. *)

Module SimpleStreamManager.

Section Numbers.

Context {number : Type} `{Countable number}.
Variables (zero thousand : number).
Variables (num_add num_sub num_mul num_div : number -> number -> number).
Variables (num_ltb num_leb : number -> number -> bool).

Record StreamData : Type := mkStreamData {
  sender : string;
  recipient : string;
  startTime : number;
  endTime : number;
  ratePerSecond : number;
  lastPaymentTime : number;
  totalAmount : number;
  withdrawnAmount : number;
  isPaused : bool;
  isCancelled : bool;
  streamType : number;
  intervalSeconds : number
}.

(** The module-level variables [streams], [streamCounter], [contractOwner]. *)
Record Globals : Type := mkGlobals {
  streams : gmap number StreamData;
  streamCounter : number;
  contractOwner : string
}.

Inductive LogPart : Type :=
| LStr (s : string)
| LNum (n : number).

Inductive Effect : Type :=
| SetTimeout (streamId : number) (delay : number)
| ConsoleLog (parts : list LogPart).

Definition set_streams (m : gmap number StreamData) (g : Globals) : Globals :=
  mkGlobals m (streamCounter g) (contractOwner g).

(** Mock transfer: only logs. *)
Definition transferTokens (to : string) (amount : number) : list Effect :=
  [ConsoleLog [LStr "Transferred "; LNum amount; LStr " tokens to "; LStr to]].

Definition scheduleNextPayment (streamId : number) (g : Globals) : list Effect :=
  match streams g !! streamId with
  | None => []
  | Some stream =>
      [SetTimeout streamId (num_mul (intervalSeconds stream) thousand);
       ConsoleLog [LStr "Next payment scheduled for stream "; LNum streamId;
                   LStr " in "; LNum (intervalSeconds stream); LStr "s"]]
  end.

(** [Date.now()] is the argument [now]. The result is [Ok tt] on a normal
    return and [Err message] on [throw new Error(message)]. *)
Definition processStreamPayment (now : number) (streamId : number) (g : Globals)
    : Result unit * Globals * list Effect :=
  match streams g !! streamId with
  | None => (Err "Stream not found", g, [])
  | Some stream =>
      if isCancelled stream || isPaused stream then (Ok tt, g, [])
      else
        let currentTime := now in
        if num_leb (endTime stream) currentTime then
          let remainingAmount := num_sub (totalAmount stream) (withdrawnAmount stream) in
          let '(stream1, eff) :=
            if num_ltb zero remainingAmount then
              (mkStreamData (sender stream) (recipient stream) (startTime stream)
                 (endTime stream) (ratePerSecond stream) (lastPaymentTime stream)
                 (totalAmount stream) (totalAmount stream) (isPaused stream)
                 (isCancelled stream) (streamType stream) (intervalSeconds stream),
               (transferTokens (recipient stream) remainingAmount ++
                [ConsoleLog [LStr "Final payment: "; LNum remainingAmount;
                             LStr " to "; LStr (recipient stream)]])%list)
            else (stream, []) in
          let stream2 :=
            mkStreamData (sender stream1) (recipient stream1) (startTime stream1)
              (endTime stream1) (ratePerSecond stream1) (lastPaymentTime stream1)
              (totalAmount stream1) (withdrawnAmount stream1) (isPaused stream1)
              true (streamType stream1) (intervalSeconds stream1) in
          (Ok tt, set_streams (<[streamId := stream2]> (streams g)) g, eff)
        else
          let timeSinceLastPayment := num_sub currentTime (lastPaymentTime stream) in
          let paymentAmount :=
            num_div (num_mul timeSinceLastPayment (ratePerSecond stream)) thousand in
          let '(stream1, g1, eff) :=
            if num_ltb zero paymentAmount
               && num_leb (num_add (withdrawnAmount stream) paymentAmount) (totalAmount stream) then
              let stream' :=
                mkStreamData (sender stream) (recipient stream) (startTime stream)
                  (endTime stream) (ratePerSecond stream) currentTime
                  (totalAmount stream) (num_add (withdrawnAmount stream) paymentAmount)
                  (isPaused stream) (isCancelled stream) (streamType stream)
                  (intervalSeconds stream) in
              (stream', set_streams (<[streamId := stream']> (streams g)) g,
               (transferTokens (recipient stream) paymentAmount ++
                [ConsoleLog [LStr "Payment: "; LNum paymentAmount;
                             LStr " to "; LStr (recipient stream)]])%list)
            else (stream, g, []) in
          let eff2 :=
            if num_ltb currentTime (endTime stream1)
               && negb (isCancelled stream1) && negb (isPaused stream1) then
              scheduleNextPayment streamId g1
            else [] in
          (Ok tt, g1, (eff ++ eff2)%list)
  end.

(** *** The other entry points of SimpleStreamManager

    [one] is the increment of [++streamCounter] and [num_min] is
    [Math.min]. *)

Variables (one : number) (num_min : number -> number -> number).

Definition set_isPaused (v : bool) (s : StreamData) : StreamData :=
  mkStreamData (sender s) (recipient s) (startTime s) (endTime s)
    (ratePerSecond s) (lastPaymentTime s) (totalAmount s) (withdrawnAmount s)
    v (isCancelled s) (streamType s) (intervalSeconds s).

Definition set_isCancelled (v : bool) (s : StreamData) : StreamData :=
  mkStreamData (sender s) (recipient s) (startTime s) (endTime s)
    (ratePerSecond s) (lastPaymentTime s) (totalAmount s) (withdrawnAmount s)
    (isPaused s) v (streamType s) (intervalSeconds s).

Definition set_lastPaymentTime (v : number) (s : StreamData) : StreamData :=
  mkStreamData (sender s) (recipient s) (startTime s) (endTime s)
    (ratePerSecond s) v (totalAmount s) (withdrawnAmount s)
    (isPaused s) (isCancelled s) (streamType s) (intervalSeconds s).

Definition constructor (owner_arg : string) (g : Globals)
    : Result unit * Globals * list Effect :=
  (Ok tt, mkGlobals (streams g) zero owner_arg,
   [ConsoleLog [LStr "StreamManager initialized by "; LStr owner_arg]]).

Definition createStream (now : number) (recipient_arg : string)
    (duration streamType_arg intervalSeconds_arg totalAmount_arg : number)
    (g : Globals) : Result number * Globals * list Effect :=
  if num_leb totalAmount_arg zero then (Err "Total amount must be positive", g, [])
  else if num_leb duration zero then (Err "Duration must be positive", g, [])
  else if num_leb intervalSeconds_arg zero then (Err "Interval must be positive", g, [])
  else
    let ratePerSecond_ := num_div totalAmount_arg duration in
    let streamId := num_add (streamCounter g) one in
    let g1 := mkGlobals (streams g) streamId (contractOwner g) in
    let currentTime := now in
    let stream :=
      mkStreamData "mock_sender" recipient_arg currentTime
        (num_add currentTime (num_mul duration thousand))
        ratePerSecond_ currentTime totalAmount_arg zero false false
        streamType_arg intervalSeconds_arg in
    let g2 := set_streams (<[streamId := stream]> (streams g1)) g1 in
    (Ok streamId, g2,
     (scheduleNextPayment streamId g2 ++
      [ConsoleLog [LStr "Stream "; LNum streamId; LStr " created: ";
                   LNum totalAmount_arg; LStr " tokens over "; LNum duration;
                   LStr "s"]])%list).

Definition cancelStream (streamId : number) (g : Globals)
    : Result unit * Globals * list Effect :=
  match streams g !! streamId with
  | None => (Err "Stream not found", g, [])
  | Some stream =>
      if isCancelled stream then (Err "Stream already cancelled", g, [])
      else
        let remainingAmount := num_sub (totalAmount stream) (withdrawnAmount stream) in
        let stream1 := set_isCancelled true stream in
        let g1 := set_streams (<[streamId := stream1]> (streams g)) g in
        (Ok tt, g1,
         if num_ltb zero remainingAmount then
           (transferTokens (sender stream1) remainingAmount ++
            [ConsoleLog [LStr "Stream "; LNum streamId; LStr " cancelled, refunded ";
                         LNum remainingAmount; LStr " to "; LStr (sender stream1)]])%list
         else [])
  end.

Definition pauseStream (streamId : number) (g : Globals)
    : Result unit * Globals * list Effect :=
  match streams g !! streamId with
  | None => (Err "Stream not found", g, [])
  | Some stream =>
      if isCancelled stream then (Err "Stream is cancelled", g, [])
      else if isPaused stream then (Err "Stream already paused", g, [])
      else
        (Ok tt,
         set_streams (<[streamId := set_isPaused true stream]> (streams g)) g,
         [ConsoleLog [LStr "Stream "; LNum streamId; LStr " paused"]])
  end.

Definition resumeStream (now : number) (streamId : number) (g : Globals)
    : Result unit * Globals * list Effect :=
  match streams g !! streamId with
  | None => (Err "Stream not found", g, [])
  | Some stream =>
      if isCancelled stream then (Err "Stream is cancelled", g, [])
      else if negb (isPaused stream) then (Err "Stream is not paused", g, [])
      else
        let stream1 := set_lastPaymentTime now (set_isPaused false stream) in
        let g1 := set_streams (<[streamId := stream1]> (streams g)) g in
        (Ok tt, g1,
         (scheduleNextPayment streamId g1 ++
          [ConsoleLog [LStr "Stream "; LNum streamId; LStr " resumed"]])%list)
  end.

(** [streams.get(streamId) || null] *)
Definition getStream (streamId : number) (g : Globals) : option StreamData :=
  streams g !! streamId.

Definition getStreamCount (g : Globals) : number := streamCounter g.

Definition getWithdrawableAmount (now : number) (streamId : number) (g : Globals)
    : Result number :=
  match streams g !! streamId with
  | None => Err "Stream not found"
  | Some stream =>
      if isCancelled stream || isPaused stream then Ok zero
      else
        let currentTime := now in
        let elapsedTime := num_sub currentTime (lastPaymentTime stream) in
        let earnedAmount :=
          num_div (num_mul elapsedTime (ratePerSecond stream)) thousand in
        let maxWithdrawable := num_sub (totalAmount stream) (withdrawnAmount stream) in
        Ok (num_min earnedAmount maxWithdrawable)
  end.

End Numbers.

End SimpleStreamManager.

(** ** StreamManagerClean: the contract the demos load

    The same twelve-field record and the same three module variables as
    SimpleStreamManager, whose types are reused.  Every guard logs and
    returns instead of throwing, [logEvent] and [mockTransfer] write to
    the console, and no entry point schedules anything. *)

Module StreamManagerClean.

Import SimpleStreamManager.

Section Numbers.

Context {number : Type} `{Countable number}.
Variables (zero thousand : number).
Variables (num_add num_sub num_mul num_div : number -> number -> number).
Variables (num_ltb num_leb : number -> number -> bool).

Local Abbreviation Globals := (@SimpleStreamManager.Globals number _ _).
Local Abbreviation Effect := (@SimpleStreamManager.Effect number).
Local Abbreviation LogPart := (@SimpleStreamManager.LogPart number).

(** [data.join(", ")] *)
Fixpoint join_comma (data : list LogPart) : list LogPart :=
  match data with
  | [] => []
  | [x] => [x]
  | x :: rest => x :: LStr ", " :: join_comma rest
  end.

Definition logEvent (eventName : string) (data : list LogPart) : list Effect :=
  [ConsoleLog (LStr "Event: " :: LStr eventName :: LStr " - " :: join_comma data)].

Definition mockTransfer (to : string) (amount : number) : list Effect :=
  [ConsoleLog [LStr "Transferred "; LNum amount; LStr " tokens to "; LStr to]].

Definition not_found (streamId : number) : list Effect :=
  [ConsoleLog [LStr "Stream not found: "; LNum streamId]].

Definition processStreamPayment (now : number) (streamId : number) (g : Globals)
    : Result unit * Globals * list Effect :=
  match streams g !! streamId with
  | None => (Ok tt, g, not_found streamId)
  | Some stream =>
      if isCancelled stream || isPaused stream then (Ok tt, g, [])
      else
        let currentTime := now in
        if num_leb (endTime stream) currentTime then
          let remainingAmount := num_sub (totalAmount stream) (withdrawnAmount stream) in
          let '(stream1, eff) :=
            if num_ltb zero remainingAmount then
              (mkStreamData (sender stream) (recipient stream) (startTime stream)
                 (endTime stream) (ratePerSecond stream) (lastPaymentTime stream)
                 (totalAmount stream) (totalAmount stream) (isPaused stream)
                 (isCancelled stream) (streamType stream) (intervalSeconds stream),
               (mockTransfer (recipient stream) remainingAmount ++
                logEvent "StreamPayment"
                  [LNum streamId; LStr (recipient stream); LNum remainingAmount;
                   LStr "final"])%list)
            else (stream, []) in
          (Ok tt,
           set_streams (<[streamId := set_isCancelled true stream1]> (streams g)) g,
           eff)
        else
          let timeSinceLastPayment := num_sub currentTime (lastPaymentTime stream) in
          let paymentAmount :=
            num_div (num_mul timeSinceLastPayment (ratePerSecond stream)) thousand in
          if num_ltb zero paymentAmount
             && num_leb (num_add (withdrawnAmount stream) paymentAmount) (totalAmount stream)
          then
            let stream' :=
              mkStreamData (sender stream) (recipient stream) (startTime stream)
                (endTime stream) (ratePerSecond stream) currentTime
                (totalAmount stream) (num_add (withdrawnAmount stream) paymentAmount)
                (isPaused stream) (isCancelled stream) (streamType stream)
                (intervalSeconds stream) in
            (Ok tt, set_streams (<[streamId := stream']> (streams g)) g,
             (mockTransfer (recipient stream) paymentAmount ++
              logEvent "StreamPayment"
                [LNum streamId; LStr (recipient stream); LNum paymentAmount;
                 LStr "regular"])%list)
          else (Ok tt, g, [])
  end.

Definition cancelStream (streamId : number) (g : Globals)
    : Result unit * Globals * list Effect :=
  match streams g !! streamId with
  | None => (Ok tt, g, not_found streamId)
  | Some stream =>
      if isCancelled stream then
        (Ok tt, g, [ConsoleLog [LStr "Stream already cancelled"]])
      else
        let remainingAmount := num_sub (totalAmount stream) (withdrawnAmount stream) in
        let stream1 := set_isCancelled true stream in
        (Ok tt, set_streams (<[streamId := stream1]> (streams g)) g,
         ((if num_ltb zero remainingAmount
           then mockTransfer (sender stream1) remainingAmount else []) ++
          logEvent "StreamCancelled"
            [LNum streamId; LStr (sender stream1); LNum remainingAmount])%list)
  end.

Definition pauseStream (streamId : number) (g : Globals)
    : Result unit * Globals * list Effect :=
  match streams g !! streamId with
  | None => (Ok tt, g, not_found streamId)
  | Some stream =>
      if isCancelled stream then
        (Ok tt, g, [ConsoleLog [LStr "Stream is cancelled"]])
      else if isPaused stream then
        (Ok tt, g, [ConsoleLog [LStr "Stream already paused"]])
      else
        (Ok tt,
         set_streams (<[streamId := set_isPaused true stream]> (streams g)) g,
         logEvent "StreamPaused" [LNum streamId])
  end.

Definition resumeStream (now : number) (streamId : number) (g : Globals)
    : Result unit * Globals * list Effect :=
  match streams g !! streamId with
  | None => (Ok tt, g, not_found streamId)
  | Some stream =>
      if isCancelled stream then
        (Ok tt, g, [ConsoleLog [LStr "Stream is cancelled"]])
      else if negb (isPaused stream) then
        (Ok tt, g, [ConsoleLog [LStr "Stream is not paused"]])
      else
        (Ok tt,
         set_streams
           (<[streamId := set_lastPaymentTime now (set_isPaused false stream)]>
              (streams g)) g,
         logEvent "StreamResumed" [LNum streamId])
  end.

End Numbers.

End StreamManagerClean.

(** ** Sequences of calls on the StreamManager *)

Import StreamManager.
Local Open Scope contract_scope.

Inductive Op : Type :=
| OpCreateStream (recipient_arg : Address) (duration streamType_arg intervalSeconds_arg : Z)
| OpProcessStreamPayment (streamId : Z)
| OpCancelStream (streamId : Z)
| OpPauseStream (streamId : Z)
| OpResumeStream (streamId : Z)
| OpGetStream (streamId : Z)
| OpGetStreamCount
| OpGetWithdrawableAmount (streamId : Z).

(** What an entry point returns: [[]], a serialized [Result<u64>] or a
    serialized [Result<StreamData>]. *)
Inductive RetVal : Type :=
| RetEmpty
| RetU64 (n : Z)
| RetStream (r : Result StreamData).

Definition exec (env : Env) (op : Op) : M RetVal :=
  match op with
  | OpCreateStream r d t i => n <- createStream env r d t i ;; ret (RetU64 n)
  | OpProcessStreamPayment id => processStreamPayment env id ;; ret RetEmpty
  | OpCancelStream id => cancelStream env id ;; ret RetEmpty
  | OpPauseStream id => pauseStream env id ;; ret RetEmpty
  | OpResumeStream id => resumeStream env id ;; ret RetEmpty
  | OpGetStream id => r <- getStream env id ;; ret (RetStream r)
  | OpGetStreamCount => n <- getStreamCount env ;; ret (RetU64 n)
  | OpGetWithdrawableAmount id => n <- getWithdrawableAmount env id ;; ret (RetU64 n)
  end.

(** One line of the log of a run: the call, what it returned or threw,
    and the effects it had. *)
Record Entry : Type := mkEntry {
  entry_env : Env;
  entry_op : Op;
  entry_result : Result RetVal;
  entry_effects : list Effect
}.

Fixpoint run (calls : list (Env * Op)) (st : Storage) : Storage * list Entry :=
  match calls with
  | [] => (st, [])
  | (env, op) :: rest =>
      match exec env op st with
      | (r, st1, eff) =>
          match run rest st1 with
          | (st2, log) => (st2, mkEntry env op r eff :: log)
          end
      end
  end.

Definition log_effects (log : list Entry) : list Effect :=
  concat (map entry_effects log).

(** The coins moved by [transferCoins] in a list of effects. *)
Fixpoint total_transferred (effs : list Effect) : Z :=
  match effs with
  | [] => 0
  | TransferCoins _ amount :: rest => amount + total_transferred rest
  | _ :: rest => total_transferred rest
  end.

Definition transfer_targets (effs : list Effect) : list Address :=
  omap (fun e => match e with TransferCoins to _ => Some to | _ => None end) effs.

(** The deferred calls armed in a list of effects. *)
Definition scheduled_calls (effs : list Effect) : list Effect :=
  omap (fun e => match e with Call _ _ _ _ _ => Some e | _ => None end) effs.

(** The readings of the clock never decrease, starting from [t]. *)
Fixpoint clock_monotone (t : Z) (calls : list (Env * Op)) : Prop :=
  match calls with
  | [] => True
  | (env, _) :: rest => t <= Time_timestamp env /\ clock_monotone (Time_timestamp env) rest
  end.

(** The stream a lifecycle call is about. *)
Definition op_target (op : Op) : option Z :=
  match op with
  | OpProcessStreamPayment id | OpCancelStream id | OpPauseStream id
  | OpResumeStream id | OpGetStream id | OpGetWithdrawableAmount id => Some id
  | OpCreateStream _ _ _ _ | OpGetStreamCount => None
  end.

Definition counter_value (st : Storage) : Z :=
  match stream_counter st with Some c => c | None => 0 end.

(** ** Auxiliary definitions of the proofs *)

(** [Storage.set(streamKey, stream.serialize())] as a state transformer. *)
Definition store (id : Z) (s : StreamData) (st : Storage) : Storage :=
  mkStorage (<[id := s]> (streams st)) (stream_counter st) (owner st).

(** [totalAmount - withdrawnAmount], as the contract computes it. *)
Definition remaining (s : StreamData) : Z :=
  U64.sub (totalAmount s) (withdrawnAmount s).

(** [(now - lastPaymentTime) * ratePerSecond / 1000], as the contract
    computes it. *)
Definition accrued (now : Z) (s : StreamData) : Z :=
  U64.div (U64.mul (U64.sub now (lastPaymentTime s)) (ratePerSecond s)) 1000.

(** The record after a regular payment at [now]. *)
Definition paid_regular (now : Z) (s : StreamData) : StreamData :=
  set_lastPaymentTime now
    (set_withdrawnAmount (U64.add (withdrawnAmount s) (accrued now s)) s).

(** The deferred call that [scheduleNextPayment] arms. *)
Definition rearm (env : Env) (id : Z) (s : StreamData) : Effect :=
  Call (Context_callee env) "processStreamPayment" id 0
       (U64.mul (intervalSeconds s) 1000).

Definition payment_event (id : Z) (s : StreamData) (amount : Z) (kind : string) : Effect :=
  GenerateEvent STREAM_PAYMENT_EVENT
    [PNum id; PStr (recipient s); PNum amount; PStr kind].

(** The record [createStream] persists. *)
Definition fresh_stream (env : Env) (recipient_arg : Address)
    (duration streamType_arg intervalSeconds_arg : Z) : StreamData :=
  mkStreamData (Context_caller env) recipient_arg (Time_timestamp env)
    (U64.add (Time_timestamp env) (U64.mul duration 1000))
    (U64.div (Context_transferredCoins env) duration) (Time_timestamp env)
    (Context_transferredCoins env) 0 false false streamType_arg intervalSeconds_arg.

(** ** The error taxonomy of the ledger, as the messages the contract throws *)

Definition InvalidAmount : string := "Must send coins to create stream".
Definition InvalidDuration : string := "Duration must be positive".
Definition InvalidInterval : string := "Interval must be positive".
Definition DegenerateRate : string := "Rate per second must be positive".
Definition Unauthorized (verb : string) : string := "Only stream creator can " ++ verb.
Definition Cancelled : string := "Stream is cancelled".
Definition Paused : string := "Stream is paused".

(** ** Invariants and predicates on runs *)

(** What has been paid never runs ahead of the time that has passed:
    [withdrawnAmount * 1000 <= (lastPaymentTime - startTime) * ratePerSecond],
    and the rate pays at most [totalAmount] over the whole window (or the
    window is empty because [endTime] wrapped around). [t] is the latest
    reading of the clock. *)
Definition accrual_bound (t : Z) (s : StreamData) : Prop :=
  0 <= startTime s /\ startTime s <= lastPaymentTime s /\ lastPaymentTime s <= t /\
  0 <= ratePerSecond s /\
  1000 * withdrawnAmount s <= (lastPaymentTime s - startTime s) * ratePerSecond s /\
  (endTime s < startTime s \/
   (endTime s - startTime s) * ratePerSecond s <= 1000 * totalAmount s).

Definition Inv (t : Z) (s : StreamData) : Prop :=
  0 <= withdrawnAmount s <= totalAmount s /\ totalAmount s < U64.modulus /\
  (isCancelled s = false -> accrual_bound t s).

(** What the escrow has released for a stream: everything once it is
    cancelled or completed, [withdrawnAmount] before. *)
Definition settled (s : StreamData) : Z :=
  if isCancelled s then totalAmount s else withdrawnAmount s.

(** What one call on stream [id] guarantees, from a record [s] to the
    storage [st'] and the effects [eff] it leaves. *)
Definition step_post (now id : Z) (s : StreamData) (st' : Storage) (eff : list Effect) : Prop :=
  exists s',
    streams st' !! id = Some s' /\
    Inv now s' /\
    withdrawnAmount s <= withdrawnAmount s' /\
    lastPaymentTime s <= lastPaymentTime s' /\
    totalAmount s' = totalAmount s /\
    sender s' = sender s /\ recipient s' = recipient s /\
    (isCancelled s = true -> s' = s) /\
    total_transferred eff = settled s' - settled s /\
    Forall (fun a => a = recipient s \/ a = sender s) (transfer_targets eff).

(** [createStream] does not hand out the id of the stream under study. *)
Definition allocates_other (id : Z) (st : Storage) (op : Op) : Prop :=
  match op with
  | OpCreateStream _ _ _ _ => U64.add (counter_value st) 1 <> id
  | _ => True
  end.

Fixpoint never_reallocates (id : Z) (calls : list (Env * Op)) (st : Storage) : Prop :=
  match calls with
  | [] => True
  | (env, op) :: rest =>
      allocates_other id st op /\
      never_reallocates id rest (snd (fst (exec env op st)))
  end.

(** The reading of the clock at the last call of a sequence. *)
Fixpoint last_time (t : Z) (calls : list (Env * Op)) : Z :=
  match calls with
  | [] => t
  | (env, _) :: rest => last_time (Time_timestamp env) rest
  end.

(** The coins moved to one address. *)
Fixpoint transferred_to (a : Address) (effs : list Effect) : Z :=
  match effs with
  | [] => 0
  | TransferCoins to amount :: rest =>
      (if Address_equals to a then amount else 0) + transferred_to a rest
  | _ :: rest => transferred_to a rest
  end.

Definition is_mutation_of (id : Z) (op : Op) : Prop :=
  op = OpProcessStreamPayment id \/ op = OpPauseStream id \/
  op = OpResumeStream id \/ op = OpCancelStream id.

Definition not_create (op : Op) : Prop :=
  forall r d ty i, op <> OpCreateStream r d ty i.

(** ** Further predicates: terms of a stream, creations in a log *)

(** The fields that only [createStream] assigns. *)
Definition terms_of (s : StreamData)
    : Address * Address * Z * Z * Z * Z * Z * Z :=
  (sender s, recipient s, startTime s, endTime s, ratePerSecond s,
   totalAmount s, streamType s, intervalSeconds s).

(** The transfers of a list of effects, in order: who received how much. *)
Definition transfers_of (effs : list Effect) : list (Address * Z) :=
  omap (fun e => match e with TransferCoins to a => Some (to, a) | _ => None end) effs.

(** The ids that the calls of [createStream] returned, in order. *)
Definition created_ids (log : list Entry) : list Z :=
  omap (fun e => match entry_op e, entry_result e with
                 | OpCreateStream _ _ _ _, Ok (RetU64 n) => Some n
                 | _, _ => None
                 end) log.

(** The calls of [createStream] that returned an id. *)
Fixpoint successful_creates (log : list Entry) : Z :=
  match log with
  | [] => 0
  | e :: rest =>
      match entry_op e, entry_result e with
      | OpCreateStream _ _ _ _, Ok _ => 1 + successful_creates rest
      | _, _ => successful_creates rest
      end
  end.

(** ** The entry points, branch by branch *)

Ltac run_monad :=
  cbv beta iota delta
    [bind ret throw assert emit transferCoins call generateEvent
     Storage_get_stream Storage_set_stream Storage_get_counter
     Storage_set_counter Storage_set_owner load_stream scheduleNextPayment].

Ltac split_all := repeat match goal with |- _ /\ _ => split end.

Ltac finish_post :=
  split_all; try lia; try reflexivity; try discriminate;
  try (repeat (constructor; [solve [auto]|]); constructor).

Ltac solve_validation :=
  repeat match goal with |- _ /\ _ => split end;
  try (intros; lia); try (intros; reflexivity);
  try (intros msg st' eff Heq; cbn in Heq; inversion Heq; subst;
       repeat match goal with |- _ /\ _ => split end; auto 6).

Lemma processStreamPayment_eq env id st s :
  streams st !! id = Some s ->
  processStreamPayment env id st =
    if isCancelled s then (Err "Stream is cancelled", st, [])
    else if isPaused s then (Err "Stream is paused", st, [])
    else if endTime s <=? Time_timestamp env then
      if 0 <? remaining s then
        (Ok tt,
         store id (set_isCancelled true (set_withdrawnAmount (totalAmount s) s)) st,
         [TransferCoins (recipient s) (remaining s);
          payment_event id s (remaining s) "final"])
      else (Ok tt, store id (set_isCancelled true s) st, [])
    else
      if (0 <? accrued (Time_timestamp env) s)
         && (U64.add (withdrawnAmount s) (accrued (Time_timestamp env) s) <=? totalAmount s)
      then
        (Ok tt, store id (paid_regular (Time_timestamp env) s) st,
         [TransferCoins (recipient s) (accrued (Time_timestamp env) s);
          payment_event id s (accrued (Time_timestamp env) s) "regular";
          rearm env id s])
      else (Ok tt, st, [rearm env id s]).
Proof.
  intros Hs. unfold processStreamPayment. run_monad. rewrite Hs. cbn beta iota.
  destruct (isCancelled s) eqn:Hc; cbn; [reflexivity|].
  destruct (isPaused s) eqn:Hp; cbn; [reflexivity|].
  destruct (endTime s <=? Time_timestamp env) eqn:He.
  - fold (remaining s). destruct (0 <? remaining s); reflexivity.
  - fold (accrued (Time_timestamp env) s).
    assert (Hlt : (Time_timestamp env <? endTime s) = true)
      by (apply Z.ltb_lt; apply Z.leb_gt in He; lia).
    destruct ((0 <? accrued (Time_timestamp env) s)
              && (U64.add (withdrawnAmount s) (accrued (Time_timestamp env) s)
                  <=? totalAmount s)); cbn.
    + rewrite Hlt, Hc, Hp. reflexivity.
    + rewrite Hlt, Hc, Hp. reflexivity.
Qed.

Lemma processStreamPayment_missing env id st :
  streams st !! id = None ->
  processStreamPayment env id st = (Err "Stream not found", st, []).
Proof. intros Hs. unfold processStreamPayment. run_monad. rewrite Hs. reflexivity. Qed.

Lemma cancelStream_eq env id st s :
  streams st !! id = Some s ->
  cancelStream env id st =
    if negb (Address_equals (sender s) (Context_caller env)) then
      (Err "Only stream creator can cancel", st, [])
    else if isCancelled s then (Err "Stream already cancelled", st, [])
    else
      (Ok tt, store id (set_isCancelled true s) st,
       ((if 0 <? remaining s then [TransferCoins (sender s) (remaining s)] else []) ++
        [GenerateEvent STREAM_CANCELLED_EVENT
           [PNum id; PStr (sender s); PNum (remaining s)]])%list).
Proof.
  intros Hs. unfold cancelStream. run_monad. rewrite Hs. cbn beta iota.
  destruct (Address_equals (sender s) (Context_caller env)); cbn; [|reflexivity].
  destruct (isCancelled s); cbn; [reflexivity|].
  fold (remaining s). destruct (0 <? remaining s); reflexivity.
Qed.

Lemma cancelStream_missing env id st :
  streams st !! id = None ->
  cancelStream env id st = (Err "Stream not found", st, []).
Proof. intros Hs. unfold cancelStream. run_monad. rewrite Hs. reflexivity. Qed.

Lemma pauseStream_eq env id st s :
  streams st !! id = Some s ->
  pauseStream env id st =
    if negb (Address_equals (sender s) (Context_caller env)) then
      (Err "Only stream creator can pause", st, [])
    else if isCancelled s then (Err "Stream is cancelled", st, [])
    else if isPaused s then (Err "Stream already paused", st, [])
    else (Ok tt, store id (set_isPaused true s) st,
          [GenerateEvent STREAM_PAUSED_EVENT [PNum id]]).
Proof.
  intros Hs. unfold pauseStream. run_monad. rewrite Hs. cbn beta iota.
  destruct (Address_equals (sender s) (Context_caller env)); cbn; [|reflexivity].
  destruct (isCancelled s); cbn; [reflexivity|].
  destruct (isPaused s); reflexivity.
Qed.

Lemma pauseStream_missing env id st :
  streams st !! id = None ->
  pauseStream env id st = (Err "Stream not found", st, []).
Proof. intros Hs. unfold pauseStream. run_monad. rewrite Hs. reflexivity. Qed.

Lemma resumeStream_eq env id st s :
  streams st !! id = Some s ->
  resumeStream env id st =
    if negb (Address_equals (sender s) (Context_caller env)) then
      (Err "Only stream creator can resume", st, [])
    else if isCancelled s then (Err "Stream is cancelled", st, [])
    else if negb (isPaused s) then (Err "Stream is not paused", st, [])
    else (Ok tt,
          store id (set_lastPaymentTime (Time_timestamp env) (set_isPaused false s)) st,
          [rearm env id s; GenerateEvent STREAM_RESUMED_EVENT [PNum id]]).
Proof.
  intros Hs. unfold resumeStream. run_monad. rewrite Hs. cbn beta iota.
  destruct (Address_equals (sender s) (Context_caller env)); cbn; [|reflexivity].
  destruct (isCancelled s); cbn; [reflexivity|].
  destruct (isPaused s); reflexivity.
Qed.

Lemma resumeStream_missing env id st :
  streams st !! id = None ->
  resumeStream env id st = (Err "Stream not found", st, []).
Proof. intros Hs. unfold resumeStream. run_monad. rewrite Hs. reflexivity. Qed.

Lemma getWithdrawableAmount_eq env id st s :
  streams st !! id = Some s ->
  getWithdrawableAmount env id st =
    (Ok (if isCancelled s || isPaused s then 0
         else Z.min (remaining s) (accrued (Time_timestamp env) s)), st, []).
Proof.
  intros Hs. unfold getWithdrawableAmount. run_monad. rewrite Hs. cbn beta iota.
  destruct (isCancelled s || isPaused s); [reflexivity|].
  fold (remaining s). fold (accrued (Time_timestamp env) s).
  destruct (remaining s <? accrued (Time_timestamp env) s) eqn:Hlt; cbn.
  - apply Z.ltb_lt in Hlt. rewrite Z.min_l by lia. reflexivity.
  - apply Z.ltb_ge in Hlt. rewrite Z.min_r by lia. reflexivity.
Qed.

Lemma getWithdrawableAmount_missing env id st :
  streams st !! id = None ->
  getWithdrawableAmount env id st = (Err "Stream not found", st, []).
Proof. intros Hs. unfold getWithdrawableAmount. run_monad. rewrite Hs. reflexivity. Qed.

Lemma getStream_eq env id st :
  getStream env id st =
    (Ok (match streams st !! id with
         | Some s => Ok s
         | None => Err "Stream not found"
         end), st, []).
Proof. unfold getStream. run_monad. destruct (streams st !! id); reflexivity. Qed.

Lemma getStreamCount_eq env st :
  getStreamCount env st = (Ok (counter_value st), st, []).
Proof.
  unfold getStreamCount, counter_value. run_monad.
  destruct (stream_counter st); reflexivity.
Qed.

Lemma createStream_eq env r d ty i st :
  createStream env r d ty i st =
    if negb (0 <? Context_transferredCoins env) then
      (Err "Must send coins to create stream", st, [])
    else if negb (0 <? d) then (Err "Duration must be positive", st, [])
    else if negb (0 <? i) then (Err "Interval must be positive", st, [])
    else if negb (0 <? U64.div (Context_transferredCoins env) d) then
      (Err "Rate per second must be positive", st, [])
    else
      let newStreamId := U64.add (counter_value st) 1 in
      (Ok newStreamId,
       mkStorage (<[newStreamId := fresh_stream env r d ty i]> (streams st))
         (Some newStreamId) (owner st),
       [rearm env newStreamId (fresh_stream env r d ty i);
        GenerateEvent STREAM_CREATED_EVENT
          [PNum newStreamId; PStr (Context_caller env); PStr r;
           PNum (Context_transferredCoins env); PNum d]]).
Proof.
  unfold createStream. run_monad.
  destruct (0 <? Context_transferredCoins env); cbn; [|reflexivity].
  destruct (0 <? d); cbn; [|reflexivity].
  destruct (0 <? i); cbn; [|reflexivity].
  destruct (0 <? U64.div (Context_transferredCoins env) d); cbn; reflexivity.
Qed.

(** ** Facts on the 64-bit operators *)

Lemma wrap_small z : U64.in_range z -> U64.wrap z = z.
Proof. unfold U64.in_range, U64.wrap. intros Hz. apply Z.mod_small. exact Hz. Qed.

Lemma wrap_in_range z : U64.in_range (U64.wrap z).
Proof.
  unfold U64.in_range, U64.wrap, U64.modulus.
  apply Z.mod_pos_bound. reflexivity.
Qed.

Lemma wrap_le z : 0 <= z -> U64.wrap z <= z.
Proof.
  unfold U64.wrap, U64.modulus. intros Hz.
  apply Z.mod_le; [exact Hz | reflexivity].
Qed.

Lemma modulus_pos : 0 < U64.modulus.
Proof. reflexivity. Qed.

Lemma sub_no_borrow a b : 0 <= b <= a -> a < U64.modulus -> U64.sub a b = a - b.
Proof. intros Hb Ha. unfold U64.sub. apply wrap_small. unfold U64.in_range. lia. Qed.

Lemma add_no_carry a b : 0 <= a -> 0 <= b -> a + b < U64.modulus -> U64.add a b = a + b.
Proof. intros Ha Hb Hab. unfold U64.add. apply wrap_small. unfold U64.in_range. lia. Qed.

Lemma mul_no_overflow a b : 0 <= a -> 0 <= b -> a * b < U64.modulus -> U64.mul a b = a * b.
Proof. intros Ha Hb Hab. unfold U64.mul. apply wrap_small. unfold U64.in_range. nia. Qed.

Lemma div_1000_bound z : 0 <= z -> 0 <= U64.div z 1000 /\ 1000 * U64.div z 1000 <= z.
Proof.
  intros Hz. unfold U64.div. split.
  - apply Z.div_pos; lia.
  - apply Z.mul_div_le. lia.
Qed.

(** Without wrap-around the accrued amount is the plain quotient. *)
Lemma accrued_plain now s :
  0 <= lastPaymentTime s <= now -> now < U64.modulus ->
  0 <= ratePerSecond s ->
  (now - lastPaymentTime s) * ratePerSecond s < U64.modulus ->
  accrued now s = (now - lastPaymentTime s) * ratePerSecond s / 1000.
Proof.
  intros Hl Hn Hr Hp. unfold accrued.
  rewrite sub_no_borrow by lia.
  rewrite mul_no_overflow by lia. reflexivity.
Qed.

(** With or without wrap-around of the product, the accrued amount never
    exceeds the plain quotient. *)
Lemma accrued_bound now s :
  0 <= lastPaymentTime s <= now -> now < U64.modulus ->
  0 <= ratePerSecond s ->
  0 <= accrued now s /\
  1000 * accrued now s <= (now - lastPaymentTime s) * ratePerSecond s.
Proof.
  intros Hl Hn Hr. unfold accrued.
  rewrite sub_no_borrow by lia.
  assert (Hp : 0 <= (now - lastPaymentTime s) * ratePerSecond s) by nia.
  pose proof (wrap_le _ Hp) as Hw.
  pose proof (wrap_in_range ((now - lastPaymentTime s) * ratePerSecond s)) as [Hw0 _].
  fold (U64.mul (now - lastPaymentTime s) (ratePerSecond s)) in Hw, Hw0.
  destruct (div_1000_bound _ Hw0) as [Hd0 Hd]. split; lia.
Qed.

Lemma remaining_plain s :
  0 <= withdrawnAmount s <= totalAmount s -> totalAmount s < U64.modulus ->
  remaining s = totalAmount s - withdrawnAmount s.
Proof. intros Hw Ht. unfold remaining. apply sub_no_borrow; lia. Qed.

Lemma remaining_zero_inv s :
  U64.in_range (totalAmount s) -> U64.in_range (withdrawnAmount s) ->
  remaining s = 0 -> withdrawnAmount s = totalAmount s.
Proof.
  unfold remaining, U64.sub, U64.wrap, U64.in_range. intros Ht Hw H0.
  pose proof modulus_pos as Hm.
  destruct (Z_le_gt_dec (withdrawnAmount s) (totalAmount s)) as [Hle|Hgt].
  - rewrite Z.mod_small in H0 by lia. lia.
  - replace (totalAmount s - withdrawnAmount s)
      with ((totalAmount s - withdrawnAmount s + U64.modulus) + (-1) * U64.modulus) in H0 by ring.
    rewrite Z.mod_add in H0 by lia.
    rewrite Z.mod_small in H0 by lia. lia.
Qed.

Lemma remaining_nonneg s : 0 <= remaining s.
Proof. unfold remaining, U64.sub. apply wrap_in_range. Qed.

(** ** Final payment *)

Lemma store_lookup id s st : streams (store id s st) !! id = Some s.
Proof. unfold store. cbn. apply lookup_insert_eq. Qed.

Lemma store_lookup_ne id id' s st :
  id <> id' -> streams (store id s st) !! id' = streams st !! id'.
Proof. intros Hne. unfold store. cbn. apply lookup_insert_ne. exact Hne. Qed.

Lemma set_withdrawnAmount_same s :
  set_withdrawnAmount (withdrawnAmount s) s = s.
Proof. destruct s. reflexivity. Qed.

(** C2. At or after [endTime], [processStreamPayment] on a stream that is
    neither cancelled nor paused moves exactly the remainder
    [totalAmount - withdrawnAmount] to the recipient (no [transferCoins] is
    issued when the remainder is zero), sets [withdrawnAmount] to
    [totalAmount], marks the stream cancelled, leaves every other field as
    it was and arms no deferred call. *)
Theorem C2_final_payment (env : Env) (id : Z) (st : Storage) (s : StreamData) :
  streams st !! id = Some s ->
  U64.in_range (totalAmount s) -> U64.in_range (withdrawnAmount s) ->
  isCancelled s = false -> isPaused s = false ->
  endTime s <= Time_timestamp env ->
  exists st' eff,
    processStreamPayment env id st = (Ok tt, st', eff) /\
    total_transferred eff = U64.sub (totalAmount s) (withdrawnAmount s) /\
    (withdrawnAmount s <= totalAmount s ->
     total_transferred eff = totalAmount s - withdrawnAmount s) /\
    Forall (fun a => a = recipient s) (transfer_targets eff) /\
    streams st' !! id =
      Some (set_isCancelled true (set_withdrawnAmount (totalAmount s) s)) /\
    scheduled_calls eff = [] /\
    (exists s',
       streams st' !! id = Some s' /\
       withdrawnAmount s' = totalAmount s /\
       isCancelled s' = true /\
       isPaused s' = false /\
       sender s' = sender s /\ recipient s' = recipient s /\
       startTime s' = startTime s /\ endTime s' = endTime s /\
       ratePerSecond s' = ratePerSecond s /\
       lastPaymentTime s' = lastPaymentTime s /\
       totalAmount s' = totalAmount s /\
       streamType s' = streamType s /\
       intervalSeconds s' = intervalSeconds s).
Proof.
  intros Hs Ht Hw Hc Hp He.
  rewrite (processStreamPayment_eq env id st s Hs), Hc, Hp.
  apply Z.leb_le in He. rewrite He.
  assert (Hplain : withdrawnAmount s <= totalAmount s ->
                   remaining s = totalAmount s - withdrawnAmount s).
  { intros Hle. apply remaining_plain; unfold U64.in_range in *; lia. }
  destruct (0 <? remaining s) eqn:Hr.
  - eexists _, _. split; [reflexivity|]. cbn.
    fold (remaining s). split_all.
    + lia.
    + intros Hle. rewrite (Hplain Hle). lia.
    + repeat constructor.
    + apply store_lookup.
    + reflexivity.
    + eexists. split; [apply store_lookup|].
      destruct s; cbn in *. split_all; try reflexivity. exact Hp.
  - apply Z.ltb_ge in Hr. pose proof (remaining_nonneg s) as Hr0.
    assert (Hz : remaining s = 0) by lia.
    pose proof (remaining_zero_inv s Ht Hw Hz) as Heq.
    eexists _, _. split; [reflexivity|]. cbn.
    fold (remaining s). split_all.
    + lia.
    + intros Hle. lia.
    + constructor.
    + assert (Hrec : set_withdrawnAmount (totalAmount s) s = s)
        by (rewrite <- Heq; apply set_withdrawnAmount_same).
      rewrite Hrec. apply store_lookup.
    + reflexivity.
    + eexists. split; [apply store_lookup|].
      destruct s; cbn in *. split_all; try reflexivity; congruence.
Qed.

Lemma C2_final_payment_witness :
  let s := mkStreamData "alice" "bob" 1000 3601000 1 61000 3600 60 false false 0 60 in
  let st := mkStorage (<[1 := s]> ∅) (Some 1) (Some "owner") in
  let env := mkEnv "scheduler" "contract" 0 7201000 in
  exists st' eff,
    processStreamPayment env 1 st = (Ok tt, st', eff) /\
    total_transferred eff = U64.sub 3600 60 /\
    (60 <= 3600 -> total_transferred eff = 3600 - 60) /\
    Forall (fun a => a = "bob") (transfer_targets eff) /\
    streams st' !! 1 =
      Some (set_isCancelled true (set_withdrawnAmount 3600 s)) /\
    scheduled_calls eff = [] /\
    (exists s',
       streams st' !! 1 = Some s' /\
       withdrawnAmount s' = 3600 /\
       isCancelled s' = true /\
       isPaused s' = false /\
       sender s' = "alice" /\ recipient s' = "bob" /\
       startTime s' = 1000 /\ endTime s' = 3601000 /\
       ratePerSecond s' = 1 /\
       lastPaymentTime s' = 61000 /\
       totalAmount s' = 3600 /\
       streamType s' = 0 /\
       intervalSeconds s' = 60).
Proof.
  intros s st env.
  apply (C2_final_payment env 1 st s).
  - apply lookup_insert_eq.
  - unfold U64.in_range, U64.modulus; cbn; lia.
  - unfold U64.in_range, U64.modulus; cbn; lia.
  - reflexivity.
  - reflexivity.
  - cbn; lia.
Defined.

(** ** Paused and cancelled streams *)

(** C4, the claim as stated fails: on a paused stream whose record exists,
    [processStreamPayment] of StreamManager does not return, it throws
    'Stream is paused' to its invoker. *)
Lemma C4_counterexample :
  let s := mkStreamData "alice" "bob" 1000 3601000 1 1000 3600 0 true false 0 60 in
  let st := mkStorage (<[1 := s]> ∅) (Some 1) (Some "owner") in
  let env := mkEnv "scheduler" "contract" 0 61000 in
  streams st !! 1 = Some s /\ isPaused s = true /\
  processStreamPayment env 1 st = (Err "Stream is paused", st, []) /\
  isOk (fst (fst (processStreamPayment env 1 st))) = false.
Proof.
  intros s st env.
  assert (Hs : streams st !! 1 = Some s) by apply lookup_insert_eq.
  split; [exact Hs|]. split; [reflexivity|].
  rewrite (processStreamPayment_eq env 1 st s Hs). split; reflexivity.
Qed.

(** C4, amended. On a paused or cancelled stream whose record exists,
    [processStreamPayment] transfers nothing, leaves the whole storage (so
    [withdrawnAmount] and [lastPaymentTime]) unchanged and arms no deferred
    call.  In StreamManager the call is rejected by an assertion, which
    throws 'Stream is cancelled' (checked first) or 'Stream is paused';
    in SimpleStreamManager, whatever the arithmetic of its numbers, the
    call returns normally. *)
Theorem C4_paused_or_cancelled_no_payment :
  (forall (env : Env) (id : Z) (st : Storage) (s : StreamData),
     streams st !! id = Some s ->
     isCancelled s = true \/ isPaused s = true ->
     processStreamPayment env id st =
       (Err (if isCancelled s then Cancelled else Paused), st, [])) /\
  (forall (number : Type) (EqD : EqDecision number) (Cnt : Countable number)
          (zero thousand : number)
          (num_add num_sub num_mul num_div : number -> number -> number)
          (num_ltb num_leb : number -> number -> bool)
          (now id : number) (g : SimpleStreamManager.Globals)
          (s : SimpleStreamManager.StreamData),
     SimpleStreamManager.streams g !! id = Some s ->
     SimpleStreamManager.isCancelled s = true \/ SimpleStreamManager.isPaused s = true ->
     SimpleStreamManager.processStreamPayment zero thousand
       num_add num_sub num_mul num_div num_ltb num_leb now id g = (Ok tt, g, [])).
Proof.
  split.
  - intros env id st s Hs Hcp.
    rewrite (processStreamPayment_eq env id st s Hs).
    destruct (isCancelled s); [reflexivity|].
    destruct Hcp as [Hc|Hp]; [discriminate|]. rewrite Hp. reflexivity.
  - intros number EqD Cnt zero thousand num_add num_sub num_mul num_div
      num_ltb num_leb now id g s Hs Hcp.
    unfold SimpleStreamManager.processStreamPayment. rewrite Hs.
    destruct Hcp as [Hc|Hp].
    + rewrite Hc. reflexivity.
    + rewrite Hp, orb_true_r. reflexivity.
Qed.

Lemma C4_paused_or_cancelled_no_payment_witness :
  (let s := mkStreamData "alice" "bob" 1000 3601000 1 1000 3600 0 false true 0 60 in
   let st := mkStorage (<[1 := s]> ∅) (Some 1) (Some "owner") in
   let env := mkEnv "scheduler" "contract" 0 61000 in
   processStreamPayment env 1 st = (Err Cancelled, st, [])) /\
  (let s := SimpleStreamManager.mkStreamData
              "mock_sender" "bob" 1000 3601000 1 1000 3600 0 true false 0 60 in
   let g := SimpleStreamManager.mkGlobals (<[1 := s]> ∅) 1 "owner" in
   SimpleStreamManager.processStreamPayment 0 1000
     Z.add Z.sub Z.mul Z.div Z.ltb Z.leb 61000 1 g = (Ok tt, g, [])).
Proof.
  split.
  - intros s st env.
    apply (proj1 C4_paused_or_cancelled_no_payment env 1 st s).
    + apply lookup_insert_eq.
    + left; reflexivity.
  - intros s g.
    apply (proj2 C4_paused_or_cancelled_no_payment Z _ _ 0 1000
             Z.add Z.sub Z.mul Z.div Z.ltb Z.leb 61000 1 g s).
    + apply lookup_insert_eq.
    + right; reflexivity.
Defined.

(** ** Validation of [createStream] *)

(** C5. [createStream] rejects, in this order, an amount that is not
    positive (InvalidAmount), a duration that is not positive
    (InvalidDuration), an interval that is not positive (InvalidInterval)
    and a rate [totalAmount / duration] that truncates to zero
    (DegenerateRate); a call with any of the four defects fails, and every
    failing call leaves the storage as it was (counter included, no record
    added) and has no effect. *)
Theorem C5_createStream_validation
    (env : Env) (r : Address) (d ty i : Z) (st : Storage) :
  let total := Context_transferredCoins env in
  (total <= 0 -> createStream env r d ty i st = (Err InvalidAmount, st, [])) /\
  (0 < total -> d <= 0 ->
   createStream env r d ty i st = (Err InvalidDuration, st, [])) /\
  (0 < total -> 0 < d -> i <= 0 ->
   createStream env r d ty i st = (Err InvalidInterval, st, [])) /\
  (0 < total -> 0 < d -> 0 < i -> U64.div total d = 0 ->
   createStream env r d ty i st = (Err DegenerateRate, st, [])) /\
  (total <= 0 \/ d <= 0 \/ i <= 0 \/ U64.div total d = 0 ->
   isOk (fst (fst (createStream env r d ty i st))) = false) /\
  (forall msg st' eff,
     createStream env r d ty i st = (Err msg, st', eff) ->
     st' = st /\ eff = [] /\
     stream_counter st' = stream_counter st /\ streams st' = streams st /\
     (msg = InvalidAmount \/ msg = InvalidDuration \/
      msg = InvalidInterval \/ msg = DegenerateRate)).
Proof.
  intros total. subst total. rewrite createStream_eq.
  destruct (0 <? Context_transferredCoins env) eqn:Ha;
    [apply Z.ltb_lt in Ha | apply Z.ltb_ge in Ha]; cbn [negb];
    [|solve_validation].
  destruct (0 <? d) eqn:Hd;
    [apply Z.ltb_lt in Hd | apply Z.ltb_ge in Hd]; cbn [negb];
    [|solve_validation].
  destruct (0 <? i) eqn:Hi;
    [apply Z.ltb_lt in Hi | apply Z.ltb_ge in Hi]; cbn [negb];
    [|solve_validation].
  destruct (0 <? U64.div (Context_transferredCoins env) d) eqn:Hr;
    [apply Z.ltb_lt in Hr | apply Z.ltb_ge in Hr]; cbn [negb];
    solve_validation.
Qed.

Lemma C5_createStream_validation_witness :
  let st := mkStorage ∅ (Some 0) (Some "owner") in
  createStream (mkEnv "alice" "contract" 0 1000) "bob" 3600 0 60 st
    = (Err InvalidAmount, st, []) /\
  createStream (mkEnv "alice" "contract" 3600 1000) "bob" 0 0 60 st
    = (Err InvalidDuration, st, []) /\
  createStream (mkEnv "alice" "contract" 3600 1000) "bob" 3600 0 0 st
    = (Err InvalidInterval, st, []) /\
  createStream (mkEnv "alice" "contract" 100 1000) "bob" 3600 0 60 st
    = (Err DegenerateRate, st, []).
Proof.
  intros st. split; [|split; [|split]].
  - apply (proj1 (C5_createStream_validation
                    (mkEnv "alice" "contract" 0 1000) "bob" 3600 0 60 st)).
    cbn; lia.
  - apply (proj1 (proj2 (C5_createStream_validation
                    (mkEnv "alice" "contract" 3600 1000) "bob" 0 0 60 st))).
    + cbn; lia.
    + lia.
  - apply (proj1 (proj2 (proj2 (C5_createStream_validation
                    (mkEnv "alice" "contract" 3600 1000) "bob" 3600 0 0 st)))).
    + cbn; lia.
    + lia.
    + lia.
  - apply (proj1 (proj2 (proj2 (proj2 (C5_createStream_validation
                    (mkEnv "alice" "contract" 100 1000) "bob" 3600 0 60 st))))).
    + cbn; lia.
    + lia.
    + lia.
    + reflexivity.
Defined.

(** ** Authorization *)

Lemma Address_equals_false a b : a <> b -> Address_equals a b = false.
Proof. intros Hne. unfold Address_equals. apply String.eqb_neq. exact Hne. Qed.

(** C8. On an existing stream, [pauseStream], [resumeStream] and
    [cancelStream] called by anyone but the sender throw the Unauthorized
    message of the operation, whatever the flags of the stream, and leave
    the storage (hence every field of the record) as it was, with no
    transfer, no deferred call and no event. *)
Theorem C8_unauthorized_rejected (env : Env) (id : Z) (st : Storage) (s : StreamData) :
  streams st !! id = Some s ->
  Context_caller env <> sender s ->
  pauseStream env id st = (Err (Unauthorized "pause"), st, []) /\
  resumeStream env id st = (Err (Unauthorized "resume"), st, []) /\
  cancelStream env id st = (Err (Unauthorized "cancel"), st, []) /\
  (forall op, op = OpPauseStream id \/ op = OpResumeStream id \/ op = OpCancelStream id ->
     streams (snd (fst (exec env op st))) !! id = Some s).
Proof.
  intros Hs Hne.
  assert (Hf : Address_equals (sender s) (Context_caller env) = false)
    by (apply Address_equals_false; congruence).
  assert (Hpa : pauseStream env id st = (Err (Unauthorized "pause"), st, []))
    by (rewrite (pauseStream_eq env id st s Hs), Hf; reflexivity).
  assert (Hre : resumeStream env id st = (Err (Unauthorized "resume"), st, []))
    by (rewrite (resumeStream_eq env id st s Hs), Hf; reflexivity).
  assert (Hca : cancelStream env id st = (Err (Unauthorized "cancel"), st, []))
    by (rewrite (cancelStream_eq env id st s Hs), Hf; reflexivity).
  split; [exact Hpa|]. split; [exact Hre|]. split; [exact Hca|].
  intros op [Hop|[Hop|Hop]]; subst op; cbn [exec]; unfold bind;
    rewrite ?Hpa, ?Hre, ?Hca; exact Hs.
Qed.

Lemma C8_unauthorized_rejected_witness :
  let s := mkStreamData "alice" "bob" 1000 3601000 1 1000 3600 0 false false 0 60 in
  let st := mkStorage (<[1 := s]> ∅) (Some 1) (Some "owner") in
  let env := mkEnv "mallory" "contract" 0 61000 in
  pauseStream env 1 st = (Err "Only stream creator can pause", st, []) /\
  resumeStream env 1 st = (Err "Only stream creator can resume", st, []) /\
  cancelStream env 1 st = (Err "Only stream creator can cancel", st, []) /\
  (forall op, op = OpPauseStream 1 \/ op = OpResumeStream 1 \/ op = OpCancelStream 1 ->
     streams (snd (fst (exec env op st))) !! 1 = Some s).
Proof.
  intros s st env.
  apply (C8_unauthorized_rejected env 1 st s).
  - apply lookup_insert_eq.
  - cbn. discriminate.
Defined.

(** ** The cap on a regular payment *)

(** C10. Before [endTime], on a stream that is neither paused nor
    cancelled, when the computed amount is positive and
    [withdrawnAmount + amount] (as the contract computes it) exceeds
    [totalAmount], [processStreamPayment] returns normally, transfers
    nothing, leaves the storage (hence every field of the record) exactly
    as it was, and arms one deferred call of itself for this stream,
    [intervalSeconds * 1000] milliseconds later. *)
Theorem C10_overshoot_frame (env : Env) (id : Z) (st : Storage) (s : StreamData) :
  streams st !! id = Some s ->
  isCancelled s = false -> isPaused s = false ->
  Time_timestamp env < endTime s ->
  let amount :=
    U64.div (U64.mul (U64.sub (Time_timestamp env) (lastPaymentTime s))
                     (ratePerSecond s)) 1000 in
  0 < amount ->
  totalAmount s < U64.add (withdrawnAmount s) amount ->
  processStreamPayment env id st =
    (Ok tt, st,
     [Call (Context_callee env) "processStreamPayment" id 0
           (U64.mul (intervalSeconds s) 1000)]) /\
  streams (snd (fst (processStreamPayment env id st))) !! id = Some s /\
  total_transferred (snd (processStreamPayment env id st)) = 0 /\
  transfer_targets (snd (processStreamPayment env id st)) = [].
Proof.
  intros Hs Hc Hp He amount Hpos Hover.
  assert (Heq : processStreamPayment env id st =
                (Ok tt, st, [rearm env id s])).
  { rewrite (processStreamPayment_eq env id st s Hs), Hc, Hp.
    apply Z.leb_gt in He. rewrite He.
    fold (accrued (Time_timestamp env) s) in amount. subst amount.
    apply Z.leb_gt in Hover. rewrite Hover, andb_false_r. reflexivity. }
  rewrite Heq. cbn. auto.
Qed.

Lemma C10_overshoot_frame_witness :
  let s := mkStreamData "alice" "bob" 0 100000 1 0 100 90 false false 0 60 in
  let st := mkStorage (<[1 := s]> ∅) (Some 1) (Some "owner") in
  let env := mkEnv "scheduler" "contract" 0 20000 in
  processStreamPayment env 1 st =
    (Ok tt, st, [Call "contract" "processStreamPayment" 1 0 (U64.mul 60 1000)]) /\
  streams (snd (fst (processStreamPayment env 1 st))) !! 1 = Some s /\
  total_transferred (snd (processStreamPayment env 1 st)) = 0 /\
  transfer_targets (snd (processStreamPayment env 1 st)) = [].
Proof.
  intros s st env.
  apply (C10_overshoot_frame env 1 st s).
  - apply lookup_insert_eq.
  - reflexivity.
  - reflexivity.
  - cbn; lia.
  - vm_compute; reflexivity.
  - vm_compute; reflexivity.
Defined.

(** ** Rate and regular payment *)

Lemma createStream_ok env r d ty i st id st' eff :
  createStream env r d ty i st = (Ok id, st', eff) ->
  0 < Context_transferredCoins env /\ 0 < d /\ 0 < i /\
  0 < U64.div (Context_transferredCoins env) d /\
  id = U64.add (counter_value st) 1 /\
  st' = mkStorage (<[id := fresh_stream env r d ty i]> (streams st)) (Some id) (owner st) /\
  eff = [rearm env id (fresh_stream env r d ty i);
         GenerateEvent STREAM_CREATED_EVENT
           [PNum id; PStr (Context_caller env); PStr r;
            PNum (Context_transferredCoins env); PNum d]].
Proof.
  rewrite createStream_eq.
  destruct (0 <? Context_transferredCoins env) eqn:Ha; cbn [negb]; [|discriminate].
  destruct (0 <? d) eqn:Hd; cbn [negb]; [|discriminate].
  destruct (0 <? i) eqn:Hi; cbn [negb]; [|discriminate].
  destruct (0 <? U64.div (Context_transferredCoins env) d) eqn:Hr; cbn [negb];
    [|discriminate].
  cbn zeta. intros Heq. inversion Heq; subst.
  apply Z.ltb_lt in Ha, Hd, Hi, Hr. repeat split; assumption.
Qed.

Lemma createStream_ok_lookup env r d ty i st id st' eff :
  createStream env r d ty i st = (Ok id, st', eff) ->
  streams st' !! id = Some (fresh_stream env r d ty i).
Proof.
  intros Hc. destruct (createStream_ok _ _ _ _ _ _ _ _ _ Hc)
    as (_ & _ & _ & _ & _ & -> & _).
  cbn. apply lookup_insert_eq.
Qed.



(** ** The withdrawable amount *)

Lemma getWithdrawableAmount_pure env id st :
  snd (fst (getWithdrawableAmount env id st)) = st /\
  snd (getWithdrawableAmount env id st) = [].
Proof.
  destruct (streams st !! id) as [s|] eqn:Hs.
  - rewrite (getWithdrawableAmount_eq env id st s Hs). split; reflexivity.
  - rewrite (getWithdrawableAmount_missing env id st Hs). split; reflexivity.
Qed.

(** *** Unfolding a run *)

Lemma bind_ret_state {A B : Type} (m : M A) (f : A -> B) st :
  snd (fst (bind m (fun x => ret (f x)) st)) = snd (fst (m st)) /\
  snd (bind m (fun x => ret (f x)) st) = snd (m st) /\
  isOk (fst (fst (bind m (fun x => ret (f x)) st))) = isOk (fst (fst (m st))).
Proof.
  unfold bind, ret. destruct (m st) as [[[a|msg] st1] e1]; cbn.
  - rewrite app_nil_r. auto.
  - auto.
Qed.

Lemma fst_run_cons env op rest st :
  fst (run ((env, op) :: rest) st) = fst (run rest (snd (fst (exec env op st)))).
Proof.
  cbn [run]. destruct (exec env op st) as [[r st1] eff]. cbn [fst snd].
  destruct (run rest st1) as [st2 log]. reflexivity.
Qed.

Lemma snd_run_cons env op rest st :
  snd (run ((env, op) :: rest) st) =
    mkEntry env op (fst (fst (exec env op st))) (snd (exec env op st))
      :: snd (run rest (snd (fst (exec env op st)))).
Proof.
  cbn [run]. destruct (exec env op st) as [[r st1] eff]. cbn [fst snd].
  destruct (run rest st1) as [st2 log]. reflexivity.
Qed.

Lemma log_effects_cons e log :
  log_effects (e :: log) = (entry_effects e ++ log_effects log)%list.
Proof. reflexivity. Qed.

Lemma run_app pre post st :
  fst (run (pre ++ post) st) = fst (run post (fst (run pre st))) /\
  snd (run (pre ++ post) st) =
    (snd (run pre st) ++ snd (run post (fst (run pre st))))%list.
Proof.
  revert st. induction pre as [|[env op] rest IH]; intros st.
  - split; reflexivity.
  - cbn [app]. rewrite !fst_run_cons, !snd_run_cons.
    destruct (IH (snd (fst (exec env op st)))) as [IH1 IH2].
    rewrite IH1, IH2. split; reflexivity.
Qed.




(** ** The accrual invariant *)

Lemma Inv_later t t' s : Inv t s -> t <= t' -> Inv t' s.
Proof.
  intros (Hw & Ht & Hb) Hle. split; [exact Hw|]. split; [exact Ht|].
  intros Hc. destruct (Hb Hc) as (H1 & H2 & H3 & H4 & H5 & H6).
  unfold accrual_bound. repeat split; try assumption; lia.
Qed.

(** Before [endTime] a payment stays within the cap and its sum does not
    wrap around. *)
Lemma regular_within_cap t now s :
  Inv t s -> isCancelled s = false ->
  t <= now -> now < U64.modulus -> now < endTime s ->
  0 <= accrued now s /\
  withdrawnAmount s + accrued now s <= totalAmount s /\
  U64.add (withdrawnAmount s) (accrued now s) = withdrawnAmount s + accrued now s /\
  1000 * (withdrawnAmount s + accrued now s)
    <= (now - startTime s) * ratePerSecond s.
Proof.
  intros (Hw & Ht & Hb) Hc Hle Hn He.
  destruct (Hb Hc) as (H1 & H2 & H3 & H4 & H5 & H6).
  destruct (accrued_bound now s) as [Ha0 Ha]; [lia|lia|lia|].
  assert (Hsum : 1000 * (withdrawnAmount s + accrued now s)
                 <= (now - startTime s) * ratePerSecond s).
  { replace ((now - startTime s) * ratePerSecond s)
      with ((lastPaymentTime s - startTime s) * ratePerSecond s
            + (now - lastPaymentTime s) * ratePerSecond s) by ring.
    lia. }
  assert (Hwin : (endTime s - startTime s) * ratePerSecond s <= 1000 * totalAmount s)
    by (destruct H6 as [H6|H6]; [lia|exact H6]).
  assert (Hmono : (now - startTime s) * ratePerSecond s
                  <= (endTime s - startTime s) * ratePerSecond s)
    by (apply Z.mul_le_mono_nonneg_r; lia).
  assert (Hcap : withdrawnAmount s + accrued now s <= totalAmount s) by lia.
  split; [exact Ha0|]. split; [exact Hcap|]. split; [|exact Hsum].
  apply add_no_carry; lia.
Qed.

Lemma step_post_silent t now id s st eff :
  streams st !! id = Some s -> Inv t s -> t <= now ->
  total_transferred eff = 0 -> transfer_targets eff = [] ->
  step_post now id s st eff.
Proof.
  intros Hs Hinv Hle He Ht. exists s.
  split; [exact Hs|]. split; [eapply Inv_later; eassumption|].
  rewrite He, Ht.
  repeat match goal with |- _ /\ _ => split end;
    try lia; try reflexivity; try constructor.
Qed.

Lemma processStreamPayment_step env id st s t :
  streams st !! id = Some s -> Inv t s ->
  t <= Time_timestamp env -> Time_timestamp env < U64.modulus ->
  step_post (Time_timestamp env) id s
    (snd (fst (processStreamPayment env id st)))
    (snd (processStreamPayment env id st)).
Proof.
  intros Hs Hinv Hle Hn.
  rewrite (processStreamPayment_eq env id st s Hs).
  destruct (isCancelled s) eqn:Hc;
    [eapply step_post_silent; eauto|].
  destruct (isPaused s) eqn:Hp;
    [eapply step_post_silent; eauto|].
  pose proof Hinv as (Hw & Ht & Hb).
  pose proof (remaining_plain s Hw Ht) as Hrem.
  destruct (endTime s <=? Time_timestamp env) eqn:He.
  - destruct (0 <? remaining s) eqn:Hr; cbn [fst snd];
      [apply Z.ltb_lt in Hr | apply Z.ltb_ge in Hr];
      (eexists; split; [apply store_lookup|]);
      unfold Inv, settled; cbn; rewrite Hc; finish_post.
  - apply Z.leb_gt in He.
    destruct (regular_within_cap t (Time_timestamp env) s Hinv Hc Hle Hn He)
      as (Ha0 & Hcap & Hadd & Hacc).
    destruct (Hb Hc) as (H1 & H2 & H3 & H4 & H5 & H6).
    destruct ((0 <? accrued (Time_timestamp env) s)
              && (U64.add (withdrawnAmount s) (accrued (Time_timestamp env) s)
                  <=? totalAmount s)) eqn:Hpay; cbn [fst snd].
    + eexists. split; [apply store_lookup|].
      unfold Inv, accrual_bound, settled, paid_regular. cbn. rewrite Hc, Hadd.
      finish_post.
    + eapply step_post_silent; eauto.
Qed.

Lemma cancelStream_step env id st s t :
  streams st !! id = Some s -> Inv t s ->
  t <= Time_timestamp env ->
  step_post (Time_timestamp env) id s
    (snd (fst (cancelStream env id st))) (snd (cancelStream env id st)).
Proof.
  intros Hs Hinv Hle.
  rewrite (cancelStream_eq env id st s Hs).
  destruct (negb (Address_equals (sender s) (Context_caller env)));
    [eapply step_post_silent; eauto|].
  destruct (isCancelled s) eqn:Hc;
    [eapply step_post_silent; eauto|].
  pose proof Hinv as (Hw & Ht & Hb).
  pose proof (remaining_plain s Hw Ht) as Hrem.
  cbn [fst snd]. eexists. split; [apply store_lookup|].
  unfold Inv, settled. cbn [isCancelled set_isCancelled withdrawnAmount
    totalAmount lastPaymentTime sender recipient]. rewrite Hc.
  destruct (0 <? remaining s) eqn:Hr;
    [apply Z.ltb_lt in Hr | apply Z.ltb_ge in Hr]; cbn; finish_post.
Qed.

Lemma pauseStream_step env id st s t :
  streams st !! id = Some s -> Inv t s ->
  t <= Time_timestamp env ->
  step_post (Time_timestamp env) id s
    (snd (fst (pauseStream env id st))) (snd (pauseStream env id st)).
Proof.
  intros Hs Hinv Hle.
  rewrite (pauseStream_eq env id st s Hs).
  destruct (negb (Address_equals (sender s) (Context_caller env)));
    [eapply step_post_silent; eauto|].
  destruct (isCancelled s) eqn:Hc;
    [eapply step_post_silent; eauto|].
  destruct (isPaused s) eqn:Hp;
    [eapply step_post_silent; eauto|].
  pose proof (Inv_later _ _ _ Hinv Hle) as (Hw & Ht & Hb).
  destruct (Hb Hc) as (H1 & H2 & H3 & H4 & H5 & H6).
  cbn [fst snd]. eexists. split; [apply store_lookup|].
  unfold Inv, accrual_bound, settled. cbn. rewrite Hc.
  finish_post.
  all: try (intros _; finish_post; tauto).
Qed.

Lemma resumeStream_step env id st s t :
  streams st !! id = Some s -> Inv t s ->
  t <= Time_timestamp env ->
  step_post (Time_timestamp env) id s
    (snd (fst (resumeStream env id st))) (snd (resumeStream env id st)).
Proof.
  intros Hs Hinv Hle.
  rewrite (resumeStream_eq env id st s Hs).
  destruct (negb (Address_equals (sender s) (Context_caller env)));
    [eapply step_post_silent; eauto|].
  destruct (isCancelled s) eqn:Hc;
    [eapply step_post_silent; eauto|].
  destruct (negb (isPaused s)) eqn:Hp;
    [eapply step_post_silent; eauto|].
  pose proof Hinv as (Hw & Ht & Hb).
  destruct (Hb Hc) as (H1 & H2 & H3 & H4 & H5 & H6).
  cbn [fst snd]. eexists. split; [apply store_lookup|].
  unfold Inv, accrual_bound, settled. cbn. rewrite Hc.
  assert (Hmono : (lastPaymentTime s - startTime s) * ratePerSecond s
                  <= (Time_timestamp env - startTime s) * ratePerSecond s)
    by (apply Z.mul_le_mono_nonneg_r; lia).
  finish_post.
  all: try (intros _; finish_post; tauto).
Qed.

(** ** Frame: what a call can write *)

(** A call leaves the storage as it was, or writes the record of its
    target, or ([createStream]) writes the counter and the record of the
    id it allocates. *)
Lemma exec_writes env op st :
  let st' := snd (fst (exec env op st)) in
  st' = st \/
  (exists id s', op_target op = Some id /\ is_Some (streams st !! id) /\
                 st' = store id s' st) \/
  (exists r d ty i, op = OpCreateStream r d ty i /\
     st' = mkStorage (<[U64.add (counter_value st) 1 := fresh_stream env r d ty i]> (streams st))
             (Some (U64.add (counter_value st) 1)) (owner st)).
Proof.
  destruct op as [r d ty i|id|id|id|id|id| |id]; cbn [exec op_target].
  - destruct (bind_ret_state (createStream env r d ty i) RetU64 st) as (-> & _ & _).
    rewrite createStream_eq.
    repeat match goal with
           | |- context [if ?b then _ else _] => destruct b; [left; reflexivity|]
           end.
    right; right. exists r, d, ty, i. split; reflexivity.
  - destruct (bind_ret_state (processStreamPayment env id) (fun _ => RetEmpty) st)
      as (-> & _ & _).
    destruct (streams st !! id) as [s|] eqn:Hs.
    + rewrite (processStreamPayment_eq env id st s Hs).
      repeat match goal with
             | |- context [if ?b then _ else _] => destruct b
             end; cbn [fst snd]; try (left; reflexivity);
        right; left; eexists id, _; (split; [reflexivity|]);
        (split; [rewrite Hs; eexists; reflexivity | reflexivity]).
    + rewrite (processStreamPayment_missing env id st Hs). left; reflexivity.
  - destruct (bind_ret_state (cancelStream env id) (fun _ => RetEmpty) st)
      as (-> & _ & _).
    destruct (streams st !! id) as [s|] eqn:Hs.
    + rewrite (cancelStream_eq env id st s Hs).
      repeat match goal with
             | |- context [if negb ?b then _ else _] => destruct b; cbn [negb]
             | |- context [if isCancelled ?b then _ else _] => destruct (isCancelled b)
             end; cbn [fst snd]; try (left; reflexivity);
        right; left; eexists id, _; (split; [reflexivity|]);
        (split; [rewrite Hs; eexists; reflexivity | reflexivity]).
    + rewrite (cancelStream_missing env id st Hs). left; reflexivity.
  - destruct (bind_ret_state (pauseStream env id) (fun _ => RetEmpty) st)
      as (-> & _ & _).
    destruct (streams st !! id) as [s|] eqn:Hs.
    + rewrite (pauseStream_eq env id st s Hs).
      repeat match goal with
             | |- context [if ?b then _ else _] => destruct b
             end; cbn [fst snd]; try (left; reflexivity);
        right; left; eexists id, _; (split; [reflexivity|]);
        (split; [rewrite Hs; eexists; reflexivity | reflexivity]).
    + rewrite (pauseStream_missing env id st Hs). left; reflexivity.
  - destruct (bind_ret_state (resumeStream env id) (fun _ => RetEmpty) st)
      as (-> & _ & _).
    destruct (streams st !! id) as [s|] eqn:Hs.
    + rewrite (resumeStream_eq env id st s Hs).
      repeat match goal with
             | |- context [if ?b then _ else _] => destruct b
             end; cbn [fst snd]; try (left; reflexivity);
        right; left; eexists id, _; (split; [reflexivity|]);
        (split; [rewrite Hs; eexists; reflexivity | reflexivity]).
    + rewrite (resumeStream_missing env id st Hs). left; reflexivity.
  - destruct (bind_ret_state (getStream env id) RetStream st) as (-> & _ & _).
    rewrite getStream_eq. left; reflexivity.
  - destruct (bind_ret_state (getStreamCount env) RetU64 st) as (-> & _ & _).
    rewrite getStreamCount_eq. left; reflexivity.
  - destruct (bind_ret_state (getWithdrawableAmount env id) RetU64 st) as (-> & _ & _).
    destruct (getWithdrawableAmount_pure env id st) as [-> _]. left; reflexivity.
Qed.

Lemma exec_frame env op st id :
  op_target op <> Some id -> allocates_other id st op ->
  streams (snd (fst (exec env op st))) !! id = streams st !! id.
Proof.
  intros Hne Halloc.
  destruct (exec_writes env op st) as [->|[(id' & s' & Ht & _ & ->)|(r & d & ty & i & -> & ->)]].
  - reflexivity.
  - apply store_lookup_ne. congruence.
  - cbn in Halloc. cbn. apply lookup_insert_ne. exact Halloc.
Qed.

Lemma exec_counter env op st :
  counter_value (snd (fst (exec env op st))) = counter_value st \/
  counter_value (snd (fst (exec env op st))) = U64.add (counter_value st) 1.
Proof.
  destruct (exec_writes env op st) as [->|[(id' & s' & Ht & _ & ->)|(r & d & ty & i & -> & ->)]].
  - left; reflexivity.
  - left; reflexivity.
  - right; reflexivity.
Qed.

Lemma exec_on_stream env op st id s t :
  streams st !! id = Some s -> Inv t s ->
  t <= Time_timestamp env -> Time_timestamp env < U64.modulus ->
  op_target op = Some id ->
  step_post (Time_timestamp env) id s
    (snd (fst (exec env op st))) (snd (exec env op st)).
Proof.
  intros Hs Hinv Hle Hn Ht.
  destruct op as [r d ty i|id'|id'|id'|id'|id'| |id']; cbn in Ht;
    try discriminate; injection Ht as ->; cbn [exec].
  - destruct (bind_ret_state (processStreamPayment env id) (fun _ => RetEmpty) st)
      as (-> & -> & _).
    eapply processStreamPayment_step; eassumption.
  - destruct (bind_ret_state (cancelStream env id) (fun _ => RetEmpty) st)
      as (-> & -> & _).
    eapply cancelStream_step; eassumption.
  - destruct (bind_ret_state (pauseStream env id) (fun _ => RetEmpty) st)
      as (-> & -> & _).
    eapply pauseStream_step; eassumption.
  - destruct (bind_ret_state (resumeStream env id) (fun _ => RetEmpty) st)
      as (-> & -> & _).
    eapply resumeStream_step; eassumption.
  - destruct (bind_ret_state (getStream env id) RetStream st) as (-> & -> & _).
    rewrite getStream_eq. eapply step_post_silent; eauto.
  - destruct (bind_ret_state (getWithdrawableAmount env id) RetU64 st)
      as (-> & -> & _).
    destruct (getWithdrawableAmount_pure env id st) as [-> ->].
    eapply step_post_silent; eauto.
Qed.

(** The record of a stream over one call of any kind. *)
Lemma exec_any env op st id s t :
  streams st !! id = Some s -> Inv t s ->
  t <= Time_timestamp env -> Time_timestamp env < U64.modulus ->
  allocates_other id st op ->
  exists s',
    streams (snd (fst (exec env op st))) !! id = Some s' /\
    Inv (Time_timestamp env) s' /\
    withdrawnAmount s <= withdrawnAmount s' /\
    lastPaymentTime s <= lastPaymentTime s' /\
    totalAmount s' = totalAmount s /\
    sender s' = sender s /\ recipient s' = recipient s /\
    (isCancelled s = true -> s' = s).
Proof.
  intros Hs Hinv Hle Hn Halloc.
  destruct (decide (op_target op = Some id)) as [Ht|Ht].
  - destruct (exec_on_stream env op st id s t Hs Hinv Hle Hn Ht)
      as (s' & H1 & H2 & H3 & H4 & H5 & H6 & H7 & H8 & _).
    exists s'. split_all; assumption.
  - exists s. rewrite (exec_frame env op st id Ht Halloc).
    split; [exact Hs|]. split; [eapply Inv_later; eassumption|].
    split_all; try lia; reflexivity.
Qed.

(** ** Runs *)

Lemma total_transferred_app e1 e2 :
  total_transferred (e1 ++ e2) = total_transferred e1 + total_transferred e2.
Proof.
  induction e1 as [|[to amount|? ? ? ? ?|? ?] e1 IH]; cbn; lia.
Qed.

Lemma transfer_targets_app e1 e2 :
  transfer_targets (e1 ++ e2) = (transfer_targets e1 ++ transfer_targets e2)%list.
Proof. unfold transfer_targets. apply omap_app. Qed.

Lemma clock_monotone_app t pre post :
  clock_monotone t (pre ++ post) <->
  clock_monotone t pre /\ clock_monotone (last_time t pre) post.
Proof.
  revert t. induction pre as [|[env op] rest IH]; intros t; cbn.
  - tauto.
  - rewrite IH. tauto.
Qed.

Lemma never_reallocates_app id pre post st :
  never_reallocates id (pre ++ post) st <->
  never_reallocates id pre st /\ never_reallocates id post (fst (run pre st)).
Proof.
  revert st. induction pre as [|[env op] rest IH]; intros st.
  - cbn. tauto.
  - cbn [app never_reallocates]. rewrite fst_run_cons, IH. tauto.
Qed.

(** While fewer than [2^64] ids have been handed out, [createStream]
    never hands out an id again. *)
Lemma counter_never_reallocates id calls st :
  0 <= id <= counter_value st ->
  counter_value st + Z.of_nat (length calls) < U64.modulus ->
  never_reallocates id calls st.
Proof.
  revert st. induction calls as [|[env op] rest IH]; intros st Hid Hlen; cbn.
  - exact I.
  - cbn [length] in Hlen.
    assert (Hnext : U64.add (counter_value st) 1 = counter_value st + 1)
      by (apply add_no_carry; lia).
    split.
    + destruct op; cbn; try exact I. lia.
    + apply IH.
      * destruct (exec_counter env op st) as [->| ->]; lia.
      * destruct (exec_counter env op st) as [->| ->]; lia.
Qed.

(** The record of a stream over a run of calls of any kind, under a
    clock that never goes back. *)
Lemma run_any calls : forall st id s t,
  streams st !! id = Some s -> Inv t s ->
  clock_monotone t calls ->
  Forall (fun c : Env * Op => Time_timestamp (fst c) < U64.modulus) calls ->
  never_reallocates id calls st ->
  exists s',
    streams (fst (run calls st)) !! id = Some s' /\
    Inv (last_time t calls) s' /\
    withdrawnAmount s <= withdrawnAmount s' /\
    lastPaymentTime s <= lastPaymentTime s' /\
    totalAmount s' = totalAmount s /\
    sender s' = sender s /\ recipient s' = recipient s /\
    (isCancelled s = true -> s' = s).
Proof.
  induction calls as [|[env op] rest IH]; intros st id s t Hs Hinv Hclk Hrng Hsafe.
  - exists s. cbn. split_all; try assumption; try lia; reflexivity.
  - cbn in Hclk. destruct Hclk as [Hle Hclk].
    inversion Hrng as [|c l Hn Hrng']; subst. cbn in Hn.
    cbn in Hsafe. destruct Hsafe as [Halloc Hsafe].
    destruct (exec_any env op st id s t Hs Hinv Hle Hn Halloc)
      as (s1 & Hs1 & Hinv1 & Hw1 & Hl1 & Ht1 & Hse1 & Hre1 & Hc1).
    destruct (IH _ id s1 _ Hs1 Hinv1 Hclk Hrng' Hsafe)
      as (s2 & Hs2 & Hinv2 & Hw2 & Hl2 & Ht2 & Hse2 & Hre2 & Hc2).
    exists s2. rewrite fst_run_cons. cbn [last_time].
    split_all; try assumption; try lia; try congruence.
    intros Hc. specialize (Hc1 Hc). subst s1. apply Hc2. exact Hc.
Qed.

(** The same over a run of calls on the stream itself, with the coins the
    run has moved. *)
Lemma run_on_stream calls : forall st id s t,
  streams st !! id = Some s -> Inv t s ->
  clock_monotone t calls ->
  Forall (fun c : Env * Op => Time_timestamp (fst c) < U64.modulus) calls ->
  Forall (fun c : Env * Op => op_target (snd c) = Some id) calls ->
  exists s',
    streams (fst (run calls st)) !! id = Some s' /\
    Inv (last_time t calls) s' /\
    totalAmount s' = totalAmount s /\
    sender s' = sender s /\ recipient s' = recipient s /\
    total_transferred (log_effects (snd (run calls st))) = settled s' - settled s /\
    Forall (fun a => a = recipient s \/ a = sender s)
      (transfer_targets (log_effects (snd (run calls st)))).
Proof.
  induction calls as [|[env op] rest IH]; intros st id s t Hs Hinv Hclk Hrng Hon.
  - exists s. cbn. split_all; try assumption; try lia; try reflexivity. constructor.
  - cbn in Hclk. destruct Hclk as [Hle Hclk].
    inversion Hrng as [|c l Hn Hrng']; subst. cbn in Hn.
    inversion Hon as [|c l Hop Hon']; subst. cbn in Hop.
    destruct (exec_on_stream env op st id s t Hs Hinv Hle Hn Hop)
      as (s1 & Hs1 & Hinv1 & Hw1 & Hl1 & Ht1 & Hse1 & Hre1 & Hc1 & Hsum1 & Htg1).
    destruct (IH _ id s1 _ Hs1 Hinv1 Hclk Hrng' Hon')
      as (s2 & Hs2 & Hinv2 & Ht2 & Hse2 & Hre2 & Hsum2 & Htg2).
    exists s2. rewrite fst_run_cons, snd_run_cons, log_effects_cons.
    cbn [last_time entry_effects].
    rewrite total_transferred_app, transfer_targets_app.
    split_all; try assumption; try lia; try congruence.
    apply Forall_app. split; [exact Htg1|].
    rewrite <- Hse1, <- Hre1. exact Htg2.
Qed.

(** ** The stream [createStream] persists *)

Lemma wrap_carry z :
  U64.modulus <= z < 2 * U64.modulus -> U64.wrap z = z - U64.modulus.
Proof.
  intros Hz. unfold U64.wrap.
  replace z with ((z - U64.modulus) + 1 * U64.modulus) at 1 by ring.
  rewrite Z.mod_add by (pose proof modulus_pos; lia).
  apply Z.mod_small. lia.
Qed.

Lemma fresh_stream_Inv env r d ty i :
  U64.in_range (Context_transferredCoins env) ->
  U64.in_range (Time_timestamp env) ->
  0 < d ->
  Inv (Time_timestamp env) (fresh_stream env r d ty i).
Proof.
  intros [Hc0 Hc1] [Ht0 Ht1] Hd.
  unfold Inv, accrual_bound. cbn.
  assert (Hrate : 0 <= U64.div (Context_transferredCoins env) d)
    by (unfold U64.div; apply Z.div_pos; lia).
  assert (Hquot : d * U64.div (Context_transferredCoins env) d
                  <= Context_transferredCoins env)
    by (unfold U64.div; apply Z.mul_div_le; lia).
  split; [lia|]. split; [lia|]. intros _.
  split_all; try lia.
  pose proof (wrap_in_range (d * 1000)) as [HD0 HD1].
  pose proof (wrap_le (d * 1000) ltac:(lia)) as HDle.
  fold (U64.mul d 1000) in HD0, HD1, HDle.
  destruct (Z_lt_ge_dec (Time_timestamp env + U64.mul d 1000) U64.modulus) as [Hno|Hyes].
  - right. rewrite add_no_carry by lia.
    replace (Time_timestamp env + U64.mul d 1000 - Time_timestamp env)
      with (U64.mul d 1000) by ring.
    nia.
  - left. unfold U64.add. rewrite wrap_carry by lia. lia.
Qed.

(** ** The cap, whatever the clock does *)

Lemma exec_cap env op st id s :
  streams st !! id = Some s ->
  0 <= withdrawnAmount s <= totalAmount s ->
  op_target op = Some id ->
  exists s',
    streams (snd (fst (exec env op st))) !! id = Some s' /\
    totalAmount s' = totalAmount s /\
    0 <= withdrawnAmount s' <= totalAmount s'.
Proof.
  intros Hs Hw Ht.
  destruct op as [r d ty i|id'|id'|id'|id'|id'| |id']; cbn in Ht;
    try discriminate; injection Ht as ->; cbn [exec].
  - destruct (bind_ret_state (processStreamPayment env id) (fun _ => RetEmpty) st)
      as (-> & _ & _).
    rewrite (processStreamPayment_eq env id st s Hs).
    destruct (isCancelled s); [exists s; auto|].
    destruct (isPaused s); [exists s; auto|].
    destruct (endTime s <=? Time_timestamp env).
    + destruct (0 <? remaining s); cbn [fst snd];
        (eexists; split; [apply store_lookup|]); cbn; lia.
    + destruct (0 <? accrued (Time_timestamp env) s) eqn:Hpos; cbn [andb];
        [|exists s; auto].
      destruct (U64.add (withdrawnAmount s) (accrued (Time_timestamp env) s)
                <=? totalAmount s) eqn:Hcap; [|exists s; auto].
      apply Z.leb_le in Hcap. cbn [fst snd].
      eexists; split; [apply store_lookup|]. unfold paid_regular. cbn.
      pose proof (wrap_in_range
        (withdrawnAmount s + accrued (Time_timestamp env) s)) as [H0 _].
      fold (U64.add (withdrawnAmount s) (accrued (Time_timestamp env) s)) in H0.
      lia.
  - destruct (bind_ret_state (cancelStream env id) (fun _ => RetEmpty) st)
      as (-> & _ & _).
    rewrite (cancelStream_eq env id st s Hs).
    destruct (negb (Address_equals (sender s) (Context_caller env)));
      [exists s; auto|].
    destruct (isCancelled s); [exists s; auto|]. cbn [fst snd].
    eexists; split; [apply store_lookup|]. cbn. lia.
  - destruct (bind_ret_state (pauseStream env id) (fun _ => RetEmpty) st)
      as (-> & _ & _).
    rewrite (pauseStream_eq env id st s Hs).
    destruct (negb (Address_equals (sender s) (Context_caller env)));
      [exists s; auto|].
    destruct (isCancelled s); [exists s; auto|].
    destruct (isPaused s); [exists s; auto|]. cbn [fst snd].
    eexists; split; [apply store_lookup|]. cbn. lia.
  - destruct (bind_ret_state (resumeStream env id) (fun _ => RetEmpty) st)
      as (-> & _ & _).
    rewrite (resumeStream_eq env id st s Hs).
    destruct (negb (Address_equals (sender s) (Context_caller env)));
      [exists s; auto|].
    destruct (isCancelled s); [exists s; auto|].
    destruct (negb (isPaused s)); [exists s; auto|]. cbn [fst snd].
    eexists; split; [apply store_lookup|]. cbn. lia.
  - destruct (bind_ret_state (getStream env id) RetStream st) as (-> & _ & _).
    rewrite getStream_eq. exists s; auto.
  - destruct (bind_ret_state (getWithdrawableAmount env id) RetU64 st)
      as (-> & _ & _).
    destruct (getWithdrawableAmount_pure env id st) as [-> _]. exists s; auto.
Qed.

Lemma run_cap calls : forall st id s,
  streams st !! id = Some s ->
  0 <= withdrawnAmount s <= totalAmount s ->
  Forall (fun c : Env * Op => op_target (snd c) = Some id) calls ->
  exists s',
    streams (fst (run calls st)) !! id = Some s' /\
    totalAmount s' = totalAmount s /\
    0 <= withdrawnAmount s' <= totalAmount s'.
Proof.
  induction calls as [|[env op] rest IH]; intros st id s Hs Hw Hon.
  - exists s. cbn. auto.
  - inversion Hon as [|c l Hop Hon']; subst. cbn in Hop.
    destruct (exec_cap env op st id s Hs Hw Hop) as (s1 & Hs1 & Ht1 & Hw1).
    destruct (IH _ id s1 Hs1 Hw1 Hon') as (s2 & Hs2 & Ht2 & Hw2).
    exists s2. rewrite fst_run_cons. split_all; try assumption; lia.
Qed.

(** ** Conservation *)

Lemma transferred_to_split x y effs :
  x <> y ->
  Forall (fun a => a = x \/ a = y) (transfer_targets effs) ->
  transferred_to x effs + transferred_to y effs = total_transferred effs.
Proof.
  intros Hne. induction effs as [|[to amount|? ? ? ? ?|? ?] effs IH]; cbn; intros Hall.
  - reflexivity.
  - inversion Hall as [|a l Ha Hrest]; subst. specialize (IH Hrest).
    unfold Address_equals in *.
    destruct Ha as [-> | ->].
    + rewrite String.eqb_refl.
      assert (Hf : String.eqb x y = false) by (apply String.eqb_neq; exact Hne).
      rewrite Hf. lia.
    + rewrite String.eqb_refl.
      assert (Hf : String.eqb y x = false) by (apply String.eqb_neq; congruence).
      rewrite Hf. lia.
  - apply IH. exact Hall.
  - apply IH. exact Hall.
Qed.

(** C1. Take a stream that [createStream] has just persisted and any
    sequence of calls on it ([processStreamPayment] and [cancelStream], and
    also [pauseStream], [resumeStream] and the queries).  At every state
    the sequence goes through, [0 <= withdrawnAmount <= totalAmount], and
    [totalAmount] is the amount escrowed at creation.  Under a clock that
    never goes back, the coins the calls have moved so far are exactly
    [withdrawnAmount] while the stream is live and exactly [totalAmount]
    once it is cancelled or completed; every transfer goes to the
    recipient or to the sender, so that what the recipient received plus
    what the sender was refunded is [totalAmount] at a terminal state. *)
Theorem C1_conservation
    (env0 : Env) (r : Address) (d ty i : Z) (st_pre st0 : Storage)
    (eff0 : list Effect) (id : Z) (calls : list (Env * Op)) :
  createStream env0 r d ty i st_pre = (Ok id, st0, eff0) ->
  Forall (fun c : Env * Op => op_target (snd c) = Some id) calls ->
  forall pre post, calls = (pre ++ post)%list ->
  exists s,
    streams (fst (run pre st0)) !! id = Some s /\
    totalAmount s = Context_transferredCoins env0 /\
    0 <= withdrawnAmount s <= totalAmount s /\
    total_transferred eff0 = 0 /\
    (U64.in_range (Context_transferredCoins env0) ->
     U64.in_range (Time_timestamp env0) ->
     Forall (fun c : Env * Op => Time_timestamp (fst c) < U64.modulus) calls ->
     clock_monotone (Time_timestamp env0) calls ->
     let moved := log_effects (snd (run pre st0)) in
     (isCancelled s = false -> total_transferred moved = withdrawnAmount s) /\
     (isCancelled s = true -> total_transferred moved = totalAmount s) /\
     Forall (fun a => a = r \/ a = Context_caller env0) (transfer_targets moved) /\
     (r <> Context_caller env0 -> isCancelled s = true ->
      transferred_to r moved + transferred_to (Context_caller env0) moved
        = totalAmount s)).
Proof.
  intros Hcreate Hon pre post ->.
  apply Forall_app in Hon. destruct Hon as [Hon _].
  pose proof (createStream_ok_lookup _ _ _ _ _ _ _ _ _ Hcreate) as Hl0.
  destruct (createStream_ok _ _ _ _ _ _ _ _ _ Hcreate)
    as (Ha & Hd & Hi & Hr & Hid & Hst0 & Heff0).
  set (s0 := fresh_stream env0 r d ty i) in *.
  assert (Hw0 : 0 <= withdrawnAmount s0 <= totalAmount s0) by (cbn; lia).
  destruct (run_cap pre st0 id s0 Hl0 Hw0 Hon) as (s & Hs & Ht & Hw).
  exists s. split; [exact Hs|]. split; [exact Ht|]. split; [exact Hw|].
  split; [rewrite Heff0; reflexivity|].
  intros Hcoins Htime Hrng Hclk moved. subst moved.
  apply Forall_app in Hrng. destruct Hrng as [Hrng _].
  apply clock_monotone_app in Hclk. destruct Hclk as [Hclk _].
  pose proof (fresh_stream_Inv env0 r d ty i Hcoins Htime Hd) as Hinv0.
  fold s0 in Hinv0.
  destruct (run_on_stream pre st0 id s0 _ Hl0 Hinv0 Hclk Hrng Hon)
    as (s' & Hs' & Hinv' & Ht' & Hse' & Hre' & Hsum' & Htg').
  rewrite Hs in Hs'. injection Hs' as <-.
  unfold settled in Hsum'. cbn [isCancelled withdrawnAmount s0 fresh_stream] in Hsum'.
  cbn [recipient sender s0 fresh_stream] in Htg'.
  split_all.
  - intros Hc. rewrite Hc in Hsum'. lia.
  - intros Hc. rewrite Hc in Hsum'. lia.
  - exact Htg'.
  - intros Hne Hc. rewrite (transferred_to_split _ _ _ Hne Htg').
    rewrite Hc in Hsum'. lia.
Qed.

Lemma C1_conservation_witness :
  let st := mkStorage ∅ (Some 0) (Some "owner") in
  let env0 := mkEnv "alice" "contract" 3600 1000 in
  let calls :=
    [(mkEnv "scheduler" "contract" 0 61000, OpProcessStreamPayment 1);
     (mkEnv "alice" "contract" 0 121000, OpCancelStream 1)] in
  exists st0 eff0 s,
    createStream env0 "bob" 3600 0 60 st = (Ok 1, st0, eff0) /\
    streams (fst (run calls st0)) !! 1 = Some s /\
    0 <= withdrawnAmount s <= totalAmount s /\
    isCancelled s = true /\
    total_transferred (log_effects (snd (run calls st0))) = 3600 /\
    transferred_to "bob" (log_effects (snd (run calls st0)))
      + transferred_to "alice" (log_effects (snd (run calls st0))) = 3600.
Proof.
  intros st env0 calls.
  destruct (createStream env0 "bob" 3600 0 60 st) as [[res st0] eff0] eqn:Hcreate.
  assert (Hres : res = Ok 1) by (vm_compute in Hcreate; congruence).
  subst res.
  assert (Hon : Forall (fun c : Env * Op => op_target (snd c) = Some 1) calls)
    by (repeat constructor).
  destruct (C1_conservation env0 "bob" 3600 0 60 st st0 eff0 1 calls Hcreate Hon
              calls [] (eq_sym (app_nil_r calls)))
    as (s & Hs & Ht & Hw & _ & Hcons).
  assert (Hcanc : isCancelled s = true).
  { vm_compute in Hcreate. injection Hcreate as <- <-.
    vm_compute in Hs. injection Hs as <-. reflexivity. }
  destruct Hcons as (_ & Hterm & _ & Hsplit).
  - unfold U64.in_range, U64.modulus; cbn; lia.
  - unfold U64.in_range, U64.modulus; cbn; lia.
  - repeat constructor; unfold U64.modulus; cbn; lia.
  - cbn; lia.
  - exists st0, eff0, s. split; [reflexivity|]. split; [exact Hs|].
    split; [exact Hw|]. split; [exact Hcanc|].
    cbn in Ht. split.
    + rewrite (Hterm Hcanc). exact Ht.
    + specialize (Hsplit ltac:(discriminate) Hcanc).
      change (Context_caller env0) with "alice" in Hsplit.
      rewrite Hsplit. exact Ht.
Defined.

(** ** Terminal finality *)

Lemma exec_cancelled env op st id s :
  streams st !! id = Some s -> isCancelled s = true ->
  allocates_other id st op ->
  streams (snd (fst (exec env op st))) !! id = Some s /\
  (is_mutation_of id op ->
   isOk (fst (fst (exec env op st))) = false /\
   snd (fst (exec env op st)) = st /\ snd (exec env op st) = []) /\
  (op_target op = Some id ->
   total_transferred (snd (exec env op st)) = 0 /\
   transfer_targets (snd (exec env op st)) = []).
Proof.
  intros Hs Hc Hnc.
  destruct (decide (op_target op = Some id)) as [Ht|Ht].
  2:{ split_all.
      - rewrite exec_frame; [exact Hs|exact Ht|exact Hnc].
      - intros [->|[->|[->| ->]]]; cbn in Ht; congruence.
      - intros Ht'. congruence. }
  destruct op as [r d ty i|id'|id'|id'|id'|id'| |id']; cbn in Ht;
    try discriminate; injection Ht as ->; cbn [exec].
  - destruct (bind_ret_state (processStreamPayment env id) (fun _ => RetEmpty) st)
      as (-> & -> & ->).
    rewrite (processStreamPayment_eq env id st s Hs), Hc. cbn. auto.
  - destruct (bind_ret_state (cancelStream env id) (fun _ => RetEmpty) st)
      as (-> & -> & ->).
    rewrite (cancelStream_eq env id st s Hs), Hc.
    destruct (negb (Address_equals (sender s) (Context_caller env))); cbn; auto.
  - destruct (bind_ret_state (pauseStream env id) (fun _ => RetEmpty) st)
      as (-> & -> & ->).
    rewrite (pauseStream_eq env id st s Hs), Hc.
    destruct (negb (Address_equals (sender s) (Context_caller env))); cbn; auto.
  - destruct (bind_ret_state (resumeStream env id) (fun _ => RetEmpty) st)
      as (-> & -> & ->).
    rewrite (resumeStream_eq env id st s Hs), Hc.
    destruct (negb (Address_equals (sender s) (Context_caller env))); cbn; auto.
  - destruct (bind_ret_state (getStream env id) RetStream st) as (-> & -> & _).
    rewrite getStream_eq. cbn. split_all; auto.
    intros [H|[H|[H|H]]]; discriminate H.
  - destruct (bind_ret_state (getWithdrawableAmount env id) RetU64 st)
      as (-> & -> & _).
    destruct (getWithdrawableAmount_pure env id st) as [-> ->].
    cbn. split_all; auto.
    intros [H|[H|[H|H]]]; discriminate H.
Qed.

Lemma run_cancelled calls : forall st id s,
  streams st !! id = Some s -> isCancelled s = true ->
  never_reallocates id calls st ->
  streams (fst (run calls st)) !! id = Some s /\
  Forall (fun e =>
      (is_mutation_of id (entry_op e) ->
       isOk (entry_result e) = false /\ entry_effects e = []) /\
      (op_target (entry_op e) = Some id ->
       total_transferred (entry_effects e) = 0 /\
       transfer_targets (entry_effects e) = []))
    (snd (run calls st)).
Proof.
  induction calls as [|[env op] rest IH]; intros st id s Hs Hc Hnc.
  - cbn. split; [exact Hs|constructor].
  - cbn [never_reallocates] in Hnc. destruct Hnc as [Hop Hnc'].
    destruct (exec_cancelled env op st id s Hs Hc Hop) as (Hs1 & Hmut & Htr).
    destruct (IH _ id s Hs1 Hc Hnc') as [Hs2 Hlog].
    rewrite fst_run_cons, snd_run_cons. split; [exact Hs2|].
    constructor; [|exact Hlog]. cbn [entry_op entry_result entry_effects].
    split.
    + intros Hm. destruct (Hmut Hm) as (Hok & _ & Heff). auto.
    + exact Htr.
Qed.

(** A sequence without [createStream] hands out no id at all. *)
Lemma no_create_never_reallocates id calls : forall st,
  Forall (fun c : Env * Op => not_create (snd c)) calls ->
  never_reallocates id calls st.
Proof.
  induction calls as [|[env op] rest IH]; intros st Hnc; cbn.
  - exact I.
  - inversion Hnc as [|c l Hop Hnc']; subst. cbn in Hop. split.
    + destruct op; try exact I. exfalso. eapply Hop. reflexivity.
    + apply IH. exact Hnc'.
Qed.

(** C6. Once the record of a stream has [isCancelled = true], along any
    sequence of engine calls, [createStream] included (on this or any
    other stream, by any caller, at any time), the record stays exactly
    as it is at every state of the sequence, so [isCancelled] stays
    true; every [processStreamPayment], [pauseStream], [resumeStream]
    (and [cancelStream]) on that id throws and has no effect, and no call
    on that id transfers anything.  The one side condition is that
    [createStream] cannot hand out the id a second time: the id is at
    most the counter and the counter stays below [2^64] over the
    sequence, or the sequence has no [createStream]. *)
Theorem C6_terminal_finality
    (id : Z) (st : Storage) (s : StreamData) (calls : list (Env * Op)) :
  streams st !! id = Some s ->
  isCancelled s = true ->
  (0 <= id <= counter_value st /\
   counter_value st + Z.of_nat (length calls) < U64.modulus) \/
  Forall (fun c : Env * Op => forall r d ty i, snd c <> OpCreateStream r d ty i) calls ->
  (forall pre post, calls = (pre ++ post)%list ->
     exists s', streams (fst (run pre st)) !! id = Some s' /\
                s' = s /\ isCancelled s' = true) /\
  Forall (fun e =>
      (entry_op e = OpProcessStreamPayment id \/ entry_op e = OpPauseStream id \/
       entry_op e = OpResumeStream id \/ entry_op e = OpCancelStream id ->
       isOk (entry_result e) = false /\ entry_effects e = []) /\
      (op_target (entry_op e) = Some id ->
       total_transferred (entry_effects e) = 0 /\
       transfer_targets (entry_effects e) = []))
    (snd (run calls st)).
Proof.
  intros Hs Hc Hside.
  assert (Hsafe : never_reallocates id calls st).
  { destruct Hside as [[Hid Hlen]|Hnc].
    - apply counter_never_reallocates; assumption.
    - apply no_create_never_reallocates. exact Hnc. }
  split.
  - intros pre post ->. apply never_reallocates_app in Hsafe.
    destruct Hsafe as [Hsafe _].
    destruct (run_cancelled pre st id s Hs Hc Hsafe) as [Hs' _].
    exists s. auto.
  - destruct (run_cancelled calls st id s Hs Hc Hsafe) as [_ Hlog]. exact Hlog.
Qed.

Lemma C6_terminal_finality_witness :
  let s := mkStreamData "alice" "bob" 1000 3601000 1 61000 3600 60 false true 0 60 in
  let st := mkStorage (<[1 := s]> ∅) (Some 1) (Some "owner") in
  let calls :=
    [(mkEnv "scheduler" "contract" 0 121000, OpProcessStreamPayment 1);
     (mkEnv "carol" "contract" 500 121500, OpCreateStream "dave" 100 0 10);
     (mkEnv "alice" "contract" 0 122000, OpPauseStream 1);
     (mkEnv "alice" "contract" 0 123000, OpResumeStream 1);
     (mkEnv "scheduler" "contract" 0 124000, OpProcessStreamPayment 2)] in
  (0 <= 1 <= counter_value st /\
   counter_value st + Z.of_nat (length calls) < U64.modulus) /\
  counter_value (fst (run calls st)) = 2 /\
  (forall pre post, calls = (pre ++ post)%list ->
     exists s', streams (fst (run pre st)) !! 1 = Some s' /\
                s' = s /\ isCancelled s' = true) /\
  Forall (fun e =>
      (entry_op e = OpProcessStreamPayment 1 \/ entry_op e = OpPauseStream 1 \/
       entry_op e = OpResumeStream 1 \/ entry_op e = OpCancelStream 1 ->
       isOk (entry_result e) = false /\ entry_effects e = []) /\
      (op_target (entry_op e) = Some 1 ->
       total_transferred (entry_effects e) = 0 /\
       transfer_targets (entry_effects e) = []))
    (snd (run calls st)).
Proof.
  intros s st calls.
  assert (Hside : 0 <= 1 <= counter_value st /\
                  counter_value st + Z.of_nat (length calls) < U64.modulus)
    by (unfold U64.modulus; cbn; lia).
  split; [exact Hside|].
  split; [vm_compute; reflexivity|].
  apply (C6_terminal_finality 1 st s calls).
  - apply lookup_insert_eq.
  - reflexivity.
  - left. exact Hside.
Defined.

(** ** Monotonicity *)

(** C9, the claim as stated fails in its account of [lastPaymentTime]:
    not every successful payment sets it to the current time.  The final
    payment, here of the whole 3600 at 7201000 under a clock that only
    advanced, leaves [lastPaymentTime] at 1000. *)
Lemma C9_counterexample :
  let st := mkStorage ∅ (Some 0) (Some "owner") in
  let env0 := mkEnv "alice" "contract" 3600 1000 in
  let env1 := mkEnv "scheduler" "contract" 0 7201000 in
  exists st0 eff0 st1 eff1 s1,
    createStream env0 "bob" 3600 0 60 st = (Ok 1, st0, eff0) /\
    Time_timestamp env0 <= Time_timestamp env1 /\
    processStreamPayment env1 1 st0 = (Ok tt, st1, eff1) /\
    eff1 = [TransferCoins "bob" 3600;
            GenerateEvent "StreamPayment" [PNum 1; PStr "bob"; PNum 3600; PStr "final"]] /\
    streams st1 !! 1 = Some s1 /\
    lastPaymentTime s1 = 1000 /\
    lastPaymentTime s1 <> Time_timestamp env1.
Proof.
  intros st env0 env1.
  destruct (createStream env0 "bob" 3600 0 60 st) as [[res0 st0] eff0] eqn:Hcreate.
  destruct (processStreamPayment env1 1 st0) as [[res1 st1] eff1] eqn:Hpay.
  vm_compute in Hcreate. injection Hcreate as <- <- <-.
  vm_compute in Hpay. injection Hpay as <- <- <-.
  eexists _, _, _, _, _.
  split; [reflexivity|]. split; [cbn; lia|]. split; [reflexivity|].
  split; [reflexivity|]. split; [vm_compute; reflexivity|].
  split; [reflexivity|]. cbn. discriminate.
Qed.

(** C9, amended. Take a stream that [createStream] has just persisted and
    any sequence of engine calls (on this or other streams, creations
    included, while fewer than [2^64] ids have been handed out) under a
    clock that never goes back.  Between any two states of the sequence
    [withdrawnAmount] does not decrease and [lastPaymentTime] does not
    decrease.  A regular payment before [endTime] and a successful
    [resumeStream] set [lastPaymentTime] to the current time; the final
    payment at or after [endTime] leaves [lastPaymentTime] as it was. *)
Theorem C9_monotone_payout :
  (forall (env0 : Env) (r : Address) (d ty i : Z) (st_pre st0 : Storage)
          (eff0 : list Effect) (id : Z) (calls : list (Env * Op)),
     U64.in_range (Context_transferredCoins env0) ->
     U64.in_range (Time_timestamp env0) ->
     createStream env0 r d ty i st_pre = (Ok id, st0, eff0) ->
     0 <= counter_value st_pre ->
     counter_value st_pre + 1 + Z.of_nat (length calls) < U64.modulus ->
     Forall (fun c : Env * Op => Time_timestamp (fst c) < U64.modulus) calls ->
     clock_monotone (Time_timestamp env0) calls ->
     forall pre mid post, calls = (pre ++ mid ++ post)%list ->
     exists s1 s2,
       streams (fst (run pre st0)) !! id = Some s1 /\
       streams (fst (run (pre ++ mid) st0)) !! id = Some s2 /\
       withdrawnAmount s1 <= withdrawnAmount s2 /\
       lastPaymentTime s1 <= lastPaymentTime s2) /\
  (forall (env : Env) (id : Z) (st : Storage) (s : StreamData),
     streams st !! id = Some s ->
     isCancelled s = false -> isPaused s = false ->
     Time_timestamp env < endTime s ->
     0 < accrued (Time_timestamp env) s ->
     U64.add (withdrawnAmount s) (accrued (Time_timestamp env) s) <= totalAmount s ->
     exists s',
       streams (snd (fst (processStreamPayment env id st))) !! id = Some s' /\
       lastPaymentTime s' = Time_timestamp env) /\
  (forall (env : Env) (id : Z) (st : Storage) (s : StreamData),
     streams st !! id = Some s ->
     Context_caller env = sender s ->
     isCancelled s = false -> isPaused s = true ->
     exists s',
       isOk (fst (fst (resumeStream env id st))) = true /\
       streams (snd (fst (resumeStream env id st))) !! id = Some s' /\
       lastPaymentTime s' = Time_timestamp env) /\
  (forall (env : Env) (id : Z) (st : Storage) (s : StreamData),
     streams st !! id = Some s ->
     isCancelled s = false -> isPaused s = false ->
     endTime s <= Time_timestamp env ->
     exists s',
       isOk (fst (fst (processStreamPayment env id st))) = true /\
       streams (snd (fst (processStreamPayment env id st))) !! id = Some s' /\
       lastPaymentTime s' = lastPaymentTime s).
Proof.
  split; [|split; [|split]].
  - intros env0 r d ty i st_pre st0 eff0 id calls Hcoins Htime Hcreate Hcnt Hlen
      Hrng Hclk pre mid post ->.
    pose proof (createStream_ok_lookup _ _ _ _ _ _ _ _ _ Hcreate) as Hl0.
    destruct (createStream_ok _ _ _ _ _ _ _ _ _ Hcreate)
      as (Ha & Hd & Hi & Hr & Hid & Hst0 & Heff0).
    assert (Hidv : id = counter_value st_pre + 1)
      by (rewrite Hid; apply add_no_carry; lia).
    assert (Hc0 : counter_value st0 = id) by (rewrite Hst0; reflexivity).
    assert (Hsafe : never_reallocates id (pre ++ mid ++ post) st0)
      by (apply counter_never_reallocates; lia).
    rewrite app_assoc in Hsafe, Hrng, Hclk.
    apply never_reallocates_app in Hsafe. destruct Hsafe as [Hsafe _].
    apply Forall_app in Hrng. destruct Hrng as [Hrng _].
    apply clock_monotone_app in Hclk. destruct Hclk as [Hclk _].
    apply never_reallocates_app in Hsafe. destruct Hsafe as [Hsafe1 Hsafe2].
    apply Forall_app in Hrng. destruct Hrng as [Hrng1 Hrng2].
    apply clock_monotone_app in Hclk. destruct Hclk as [Hclk1 Hclk2].
    pose proof (fresh_stream_Inv env0 r d ty i Hcoins Htime Hd) as Hinv0.
    destruct (run_any pre st0 id _ _ Hl0 Hinv0 Hclk1 Hrng1 Hsafe1)
      as (s1 & Hs1 & Hinv1 & _).
    destruct (run_any mid _ id s1 _ Hs1 Hinv1 Hclk2 Hrng2 Hsafe2)
      as (s2 & Hs2 & _ & Hw & Hl & _).
    exists s1, s2. destruct (run_app pre mid st0) as [-> _].
    split_all; assumption.
  - intros env id st s Hs Hc Hp He Hpos Hcap.
    rewrite (processStreamPayment_eq env id st s Hs), Hc, Hp.
    apply Z.leb_gt in He. apply Z.ltb_lt in Hpos. apply Z.leb_le in Hcap.
    rewrite He, Hpos, Hcap. cbn [andb fst snd].
    eexists. split; [apply store_lookup|reflexivity].
  - intros env id st s Hs Hcaller Hc Hp.
    rewrite (resumeStream_eq env id st s Hs), Hc, Hp.
    assert (Heq : Address_equals (sender s) (Context_caller env) = true)
      by (unfold Address_equals; apply String.eqb_eq; congruence).
    rewrite Heq. cbn [negb fst snd isOk].
    eexists. split; [reflexivity|]. split; [apply store_lookup|reflexivity].
  - intros env id st s Hs Hc Hp He.
    rewrite (processStreamPayment_eq env id st s Hs), Hc, Hp.
    apply Z.leb_le in He. rewrite He.
    destruct (0 <? remaining s); cbn [fst snd isOk];
      (eexists; split; [reflexivity|]; split; [apply store_lookup|reflexivity]).
Qed.

Lemma C9_monotone_payout_witness :
  let st := mkStorage ∅ (Some 0) (Some "owner") in
  let env0 := mkEnv "alice" "contract" 3600 1000 in
  let pre := [(mkEnv "scheduler" "contract" 0 61000, OpProcessStreamPayment 1)] in
  let mid :=
    [(mkEnv "alice" "contract" 0 62000, OpPauseStream 1);
     (mkEnv "carol" "contract" 500 63000, OpCreateStream "dave" 100 0 10);
     (mkEnv "alice" "contract" 0 200000, OpResumeStream 1);
     (mkEnv "scheduler" "contract" 0 260000, OpProcessStreamPayment 1)] in
  exists st0 eff0 s1 s2,
    createStream env0 "bob" 3600 0 60 st = (Ok 1, st0, eff0) /\
    streams (fst (run pre st0)) !! 1 = Some s1 /\
    streams (fst (run (pre ++ mid) st0)) !! 1 = Some s2 /\
    withdrawnAmount s1 <= withdrawnAmount s2 /\
    lastPaymentTime s1 <= lastPaymentTime s2.
Proof.
  intros st env0 pre mid.
  destruct (createStream env0 "bob" 3600 0 60 st) as [[res st0] eff0] eqn:Hcreate.
  assert (Hres : res = Ok 1) by (vm_compute in Hcreate; congruence).
  subst res.
  destruct (proj1 C9_monotone_payout env0 "bob" 3600 0 60 st st0 eff0 1
              (pre ++ mid ++ [])%list) with (pre := pre) (mid := mid) (post := @nil (Env * Op))
    as (s1 & s2 & H1 & H2 & H3 & H4).
  - unfold U64.in_range, U64.modulus; cbn; lia.
  - unfold U64.in_range, U64.modulus; cbn; lia.
  - exact Hcreate.
  - cbn; lia.
  - unfold U64.modulus; cbn; lia.
  - repeat constructor; unfold U64.modulus; cbn; lia.
  - cbn; lia.
  - reflexivity.
  - exists st0, eff0, s1, s2. split; [reflexivity|]. split_all; assumption.
Defined.

(** * Further properties of StreamManager *)

(** ** Creation and the queries *)

(** X1. A successful [createStream] returns the counter plus one (modulo
    [2^64]); right after it [getStreamCount] returns that id and
    [getStream] returns the record just written: sender the caller, the
    window starting now and ending [duration * 1000] ms later, nothing
    withdrawn, both flags down.  Every other record and the owner are as
    before. *)
Theorem X1_create_then_query
    (env env' : Env) (r : Address) (d ty i : Z) (st st' : Storage)
    (eff : list Effect) (id : Z) :
  createStream env r d ty i st = (Ok id, st', eff) ->
  id = U64.add (counter_value st) 1 /\
  getStreamCount env' st' = (Ok id, st', []) /\
  getStream env' id st' =
    (Ok (Ok (mkStreamData (Context_caller env) r (Time_timestamp env)
               (U64.add (Time_timestamp env) (U64.mul d 1000))
               (Context_transferredCoins env / d) (Time_timestamp env)
               (Context_transferredCoins env) 0 false false ty i)), st', []) /\
  (forall id', id' <> id -> streams st' !! id' = streams st !! id') /\
  owner st' = owner st /\
  total_transferred eff = 0.
Proof.
  intros Hc.
  pose proof (createStream_ok_lookup _ _ _ _ _ _ _ _ _ Hc) as Hl.
  destruct (createStream_ok _ _ _ _ _ _ _ _ _ Hc)
    as (_ & _ & _ & _ & Hid & Hst & Heff).
  split; [exact Hid|].
  split; [rewrite getStreamCount_eq, Hst; reflexivity|].
  split; [rewrite getStream_eq, Hl; reflexivity|].
  split; [|split].
  - intros id' Hne. rewrite Hst. cbn. apply lookup_insert_ne. congruence.
  - rewrite Hst. reflexivity.
  - rewrite Heff. reflexivity.
Qed.

Lemma X1_create_then_query_witness :
  let st := mkStorage ∅ (Some 0) (Some "owner") in
  let env := mkEnv "alice" "contract" 1000 5000 in
  exists st' eff,
    createStream env "bob" 10 0 2 st = (Ok 1, st', eff) /\
    getStreamCount env st' = (Ok 1, st', []) /\
    getStream env 1 st' =
      (Ok (Ok (mkStreamData "alice" "bob" 5000 (U64.add 5000 (U64.mul 10 1000))
                 (1000 / 10) 5000 1000 0 false false 0 2)), st', []).
Proof.
  intros st env.
  destruct (createStream env "bob" 10 0 2 st) as [[res st'] eff] eqn:Hc.
  assert (Hres : res = Ok 1) by (vm_compute in Hc; congruence).
  subst res.
  destruct (X1_create_then_query env env "bob" 10 0 2 st st' eff 1 Hc)
    as (_ & Hcount & Hget & _).
  exists st', eff. split; [reflexivity|]. split; assumption.
Defined.

(** ** Unknown ids *)

(** X2. On an id with no record, [processStreamPayment], [cancelStream],
    [pauseStream], [resumeStream] and [getWithdrawableAmount] throw
    'Stream not found' before anything else (the caller is not even
    compared), leave the storage as it was and have no effect;
    [getStream] does not throw, it returns the error value. *)
Theorem X2_unknown_id (env : Env) (id : Z) (st : Storage) :
  streams st !! id = None ->
  processStreamPayment env id st = (Err "Stream not found", st, []) /\
  cancelStream env id st = (Err "Stream not found", st, []) /\
  pauseStream env id st = (Err "Stream not found", st, []) /\
  resumeStream env id st = (Err "Stream not found", st, []) /\
  getWithdrawableAmount env id st = (Err "Stream not found", st, []) /\
  getStream env id st = (Ok (Err "Stream not found"), st, []).
Proof.
  intros Hs. split_all.
  - apply processStreamPayment_missing; exact Hs.
  - apply cancelStream_missing; exact Hs.
  - apply pauseStream_missing; exact Hs.
  - apply resumeStream_missing; exact Hs.
  - apply getWithdrawableAmount_missing; exact Hs.
  - rewrite getStream_eq, Hs. reflexivity.
Qed.

Lemma X2_unknown_id_witness :
  let st := mkStorage ∅ (Some 0) (Some "owner") in
  let env := mkEnv "alice" "contract" 0 5000 in
  processStreamPayment env 7 st = (Err "Stream not found", st, []) /\
  cancelStream env 7 st = (Err "Stream not found", st, []) /\
  pauseStream env 7 st = (Err "Stream not found", st, []) /\
  resumeStream env 7 st = (Err "Stream not found", st, []) /\
  getWithdrawableAmount env 7 st = (Err "Stream not found", st, []) /\
  getStream env 7 st = (Ok (Err "Stream not found"), st, []).
Proof.
  intros st env. apply (X2_unknown_id env 7 st). apply lookup_empty.
Defined.

(** ** Cancellation *)

Lemma Address_equals_true a b : a = b -> Address_equals a b = true.
Proof. intros ->. unfold Address_equals. apply String.eqb_refl. Qed.

(** X3. [cancelStream] by the sender on a stream that is not cancelled
    succeeds at any time, paused or not, before or after [endTime]: it
    refunds exactly [totalAmount - withdrawnAmount] to the sender (no
    [transferCoins] when that is zero), whatever has accrued since the
    last payment; it raises [isCancelled], changes no other field, arms
    no deferred call and touches no other record. *)
Theorem X3_cancel_refunds_remainder
    (env : Env) (id : Z) (st : Storage) (s : StreamData) :
  streams st !! id = Some s ->
  Context_caller env = sender s ->
  isCancelled s = false ->
  0 <= withdrawnAmount s <= totalAmount s -> totalAmount s < U64.modulus ->
  exists st' eff,
    cancelStream env id st = (Ok tt, st', eff) /\
    streams st' !! id = Some (set_isCancelled true s) /\
    total_transferred eff = totalAmount s - withdrawnAmount s /\
    Forall (fun a => a = sender s) (transfer_targets eff) /\
    (withdrawnAmount s = totalAmount s -> transfer_targets eff = []) /\
    scheduled_calls eff = [] /\
    (forall id', id' <> id -> streams st' !! id' = streams st !! id') /\
    stream_counter st' = stream_counter st /\
    (exists s',
       streams st' !! id = Some s' /\
       isCancelled s' = true /\
       isPaused s' = isPaused s /\
       withdrawnAmount s' = withdrawnAmount s /\
       lastPaymentTime s' = lastPaymentTime s /\
       sender s' = sender s /\ recipient s' = recipient s /\
       startTime s' = startTime s /\ endTime s' = endTime s /\
       ratePerSecond s' = ratePerSecond s /\
       totalAmount s' = totalAmount s /\
       streamType s' = streamType s /\
       intervalSeconds s' = intervalSeconds s).
Proof.
  intros Hs Hcaller Hc Hw Ht.
  rewrite (cancelStream_eq env id st s Hs), Hc.
  rewrite (Address_equals_true (sender s) (Context_caller env)) by congruence.
  cbn [negb]. rewrite (remaining_plain s Hw Ht).
  eexists _, _. split; [reflexivity|].
  split; [apply store_lookup|].
  assert (Hrec : exists s',
            streams (store id (set_isCancelled true s) st) !! id = Some s' /\
            isCancelled s' = true /\
            isPaused s' = isPaused s /\
            withdrawnAmount s' = withdrawnAmount s /\
            lastPaymentTime s' = lastPaymentTime s /\
            sender s' = sender s /\ recipient s' = recipient s /\
            startTime s' = startTime s /\ endTime s' = endTime s /\
            ratePerSecond s' = ratePerSecond s /\
            totalAmount s' = totalAmount s /\
            streamType s' = streamType s /\
            intervalSeconds s' = intervalSeconds s).
  { eexists. split; [apply store_lookup|].
    destruct s; cbn. split_all; reflexivity. }
  destruct (0 <? totalAmount s - withdrawnAmount s) eqn:Hr;
    [apply Z.ltb_lt in Hr | apply Z.ltb_ge in Hr]; cbn.
  - split_all; try lia; try reflexivity; try exact Hrec.
    + repeat constructor.
    + intros id' Hne. apply lookup_insert_ne. congruence.
  - split_all; try lia; try reflexivity; try exact Hrec.
    + constructor.
    + intros id' Hne. apply lookup_insert_ne. congruence.
Qed.

Lemma X3_cancel_refunds_remainder_witness :
  let s := mkStreamData "alice" "bob" 1000 3601000 1 61000 3600 60 true false 0 60 in
  let st := mkStorage (<[1 := s]> ∅) (Some 1) (Some "owner") in
  let env := mkEnv "alice" "contract" 0 9000000 in
  exists st' eff,
    cancelStream env 1 st = (Ok tt, st', eff) /\
    streams st' !! 1 = Some (set_isCancelled true s) /\
    total_transferred eff = 3600 - 60 /\
    (exists s',
       streams st' !! 1 = Some s' /\
       isCancelled s' = true /\ isPaused s' = true /\
       withdrawnAmount s' = 60 /\ lastPaymentTime s' = 61000).
Proof.
  intros s st env.
  destruct (X3_cancel_refunds_remainder env 1 st s)
    as (st' & eff & H1 & H2 & H3 & _ & _ & _ & _ & _ & s' & H4 & H5 & H6 & H7 & H8 & _).
  - apply lookup_insert_eq.
  - reflexivity.
  - reflexivity.
  - cbn; lia.
  - unfold U64.modulus; cbn; lia.
  - exists st', eff. split; [exact H1|]. split; [exact H2|]. split; [exact H3|].
    exists s'. split; [exact H4|]. split; [exact H5|]. split; [exact H6|].
    split; [exact H7|exact H8].
Defined.

(** X4. Creating a stream and cancelling it at once, by the same caller,
    returns the whole escrow: the only transfer of the two calls is
    [totalAmount] to the creator, and the recipient receives nothing. *)
Theorem X4_create_then_cancel
    (env env' : Env) (r : Address) (d ty i : Z) (st st1 : Storage)
    (eff1 : list Effect) (id : Z) :
  U64.in_range (Context_transferredCoins env) ->
  createStream env r d ty i st = (Ok id, st1, eff1) ->
  Context_caller env' = Context_caller env ->
  exists st2 eff2 s2,
    cancelStream env' id st1 = (Ok tt, st2, eff2) /\
    transfers_of (eff1 ++ eff2)%list
      = [(Context_caller env, Context_transferredCoins env)] /\
    streams st2 !! id = Some s2 /\
    isCancelled s2 = true /\ withdrawnAmount s2 = 0.
Proof.
  intros [Hc0 Hc1] Hc Hcaller.
  pose proof (createStream_ok_lookup _ _ _ _ _ _ _ _ _ Hc) as Hl.
  destruct (createStream_ok _ _ _ _ _ _ _ _ _ Hc)
    as (Ha & _ & _ & _ & _ & _ & Heff).
  rewrite (cancelStream_eq env' id st1 _ Hl).
  cbn [sender isCancelled fresh_stream].
  rewrite (Address_equals_true (Context_caller env) (Context_caller env'))
    by congruence.
  cbn [negb]. unfold remaining. cbn [totalAmount withdrawnAmount fresh_stream].
  rewrite sub_no_borrow by lia. rewrite Z.sub_0_r.
  apply Z.ltb_lt in Ha. rewrite Ha.
  eexists _, _, _. split; [reflexivity|].
  split; [rewrite Heff; reflexivity|].
  split; [apply store_lookup|]. split; reflexivity.
Qed.

Lemma X4_create_then_cancel_witness :
  let st := mkStorage ∅ (Some 0) (Some "owner") in
  let env := mkEnv "alice" "contract" 1000 5000 in
  exists st1 eff1 st2 eff2,
    createStream env "bob" 10 0 2 st = (Ok 1, st1, eff1) /\
    cancelStream env 1 st1 = (Ok tt, st2, eff2) /\
    transfers_of (eff1 ++ eff2)%list = [("alice", 1000)].
Proof.
  intros st env.
  destruct (createStream env "bob" 10 0 2 st) as [[res st1] eff1] eqn:Hc.
  assert (Hres : res = Ok 1) by (vm_compute in Hc; congruence).
  subst res.
  destruct (X4_create_then_cancel env env "bob" 10 0 2 st st1 eff1 1)
    as (st2 & eff2 & s2 & H1 & H2 & _).
  - unfold U64.in_range, U64.modulus; cbn; lia.
  - exact Hc.
  - reflexivity.
  - exists st1, eff1, st2, eff2. split; [reflexivity|]. split; assumption.
Defined.

(** ** Pause and resume *)

(** X5. For the sender, the state of the stream decides the error:
    on a cancelled stream [cancelStream] throws 'Stream already cancelled'
    and [pauseStream] and [resumeStream] throw 'Stream is cancelled'; on a
    live stream pausing twice throws 'Stream already paused' and resuming
    what is not paused throws 'Stream is not paused'.  None of them
    changes the storage or has an effect. *)
Theorem X5_invalid_state (env : Env) (id : Z) (st : Storage) (s : StreamData) :
  streams st !! id = Some s ->
  Context_caller env = sender s ->
  (isCancelled s = true ->
   cancelStream env id st = (Err "Stream already cancelled", st, []) /\
   pauseStream env id st = (Err "Stream is cancelled", st, []) /\
   resumeStream env id st = (Err "Stream is cancelled", st, [])) /\
  (isCancelled s = false -> isPaused s = true ->
   pauseStream env id st = (Err "Stream already paused", st, [])) /\
  (isCancelled s = false -> isPaused s = false ->
   resumeStream env id st = (Err "Stream is not paused", st, [])).
Proof.
  intros Hs Hcaller.
  pose proof (Address_equals_true (sender s) (Context_caller env)
                ltac:(congruence)) as Heq.
  rewrite (cancelStream_eq env id st s Hs), (pauseStream_eq env id st s Hs),
    (resumeStream_eq env id st s Hs), Heq. cbn [negb].
  split; [|split].
  - intros Hc. rewrite Hc. auto.
  - intros Hc Hp. rewrite Hc, Hp. reflexivity.
  - intros Hc Hp. rewrite Hc, Hp. reflexivity.
Qed.

Lemma X5_invalid_state_witness :
  let s := mkStreamData "alice" "bob" 1000 3601000 1 1000 3600 0 true false 0 60 in
  let st := mkStorage (<[1 := s]> ∅) (Some 1) (Some "owner") in
  let env := mkEnv "alice" "contract" 0 61000 in
  pauseStream env 1 st = (Err "Stream already paused", st, []).
Proof.
  intros s st env.
  apply (proj1 (proj2 (X5_invalid_state env 1 st s (lookup_insert_eq _ _ _) eq_refl)));
    reflexivity.
Defined.

Lemma set_pause_resume now s :
  isPaused s = false ->
  set_lastPaymentTime now (set_isPaused false (set_isPaused true s))
    = set_lastPaymentTime now s.
Proof. destruct s; cbn. intros ->. reflexivity. Qed.

(** X6. Pausing a live stream and resuming it, both by the sender: while
    it is paused [processStreamPayment] throws 'Stream is paused'; after
    the resume the record is the one before the pause with
    [lastPaymentTime] moved to the time of the resume, so that
    [getWithdrawableAmount] at that time is 0 whatever had accrued before
    the pause.  The two calls transfer nothing and arm one deferred call,
    [intervalSeconds * 1000] ms after the resume. *)
Theorem X6_pause_then_resume
    (env1 env2 envp : Env) (id : Z) (st : Storage) (s : StreamData) :
  streams st !! id = Some s ->
  Context_caller env1 = sender s -> Context_caller env2 = sender s ->
  isCancelled s = false -> isPaused s = false ->
  exists st1 eff1 st2 eff2,
    pauseStream env1 id st = (Ok tt, st1, eff1) /\
    streams st1 !! id = Some (set_isPaused true s) /\
    processStreamPayment envp id st1 = (Err "Stream is paused", st1, []) /\
    resumeStream env2 id st1 = (Ok tt, st2, eff2) /\
    streams st2 !! id = Some (set_lastPaymentTime (Time_timestamp env2) s) /\
    getWithdrawableAmount env2 id st2 = (Ok 0, st2, []) /\
    transfers_of (eff1 ++ eff2)%list = [] /\
    scheduled_calls (eff1 ++ eff2)%list =
      [Call (Context_callee env2) "processStreamPayment" id 0
            (U64.mul (intervalSeconds s) 1000)].
Proof.
  intros Hs Hc1 Hc2 Hc Hp.
  pose proof (Address_equals_true (sender s) (Context_caller env1)
                ltac:(congruence)) as Heq1.
  pose proof (Address_equals_true (sender s) (Context_caller env2)
                ltac:(congruence)) as Heq2.
  set (s1 := set_isPaused true s).
  set (st1 := store id s1 st).
  assert (Hs1 : streams st1 !! id = Some s1) by apply store_lookup.
  set (s2 := set_lastPaymentTime (Time_timestamp env2) s).
  set (st2 := store id s2 st1).
  assert (Hs2 : streams st2 !! id = Some s2) by apply store_lookup.
  exists st1, [GenerateEvent STREAM_PAUSED_EVENT [PNum id]], st2,
    [rearm env2 id s1; GenerateEvent STREAM_RESUMED_EVENT [PNum id]].
  split_all.
  - rewrite (pauseStream_eq env1 id st s Hs), Heq1, Hc, Hp. reflexivity.
  - exact Hs1.
  - rewrite (processStreamPayment_eq envp id st1 s1 Hs1).
    subst s1. cbn [isCancelled isPaused set_isPaused]. rewrite Hc. reflexivity.
  - rewrite (resumeStream_eq env2 id st1 s1 Hs1).
    subst s1. cbn [sender isCancelled isPaused set_isPaused].
    rewrite Heq2, Hc. cbn [negb]. subst st2 s2.
    rewrite (set_pause_resume _ s Hp). reflexivity.
  - exact Hs2.
  - rewrite (getWithdrawableAmount_eq env2 id st2 s2 Hs2).
    subst s2. cbn [isCancelled isPaused set_lastPaymentTime]. rewrite Hc, Hp.
    cbn [orb]. unfold accrued. cbn [lastPaymentTime ratePerSecond set_lastPaymentTime].
    unfold U64.sub. rewrite Z.sub_diag.
    assert (Hz : U64.div (U64.mul (U64.wrap 0) (ratePerSecond s)) 1000 = 0)
      by reflexivity.
    rewrite Hz.
    pose proof (remaining_nonneg (set_lastPaymentTime (Time_timestamp env2) s)).
    rewrite Z.min_r by lia. reflexivity.
  - reflexivity.
  - reflexivity.
Qed.

Lemma X6_pause_then_resume_witness :
  let s := mkStreamData "alice" "bob" 1000 3601000 1 1000 3600 0 false false 0 60 in
  let st := mkStorage (<[1 := s]> ∅) (Some 1) (Some "owner") in
  let env1 := mkEnv "alice" "contract" 0 31000 in
  let env2 := mkEnv "alice" "contract" 0 91000 in
  exists st1 eff1 st2 eff2,
    pauseStream env1 1 st = (Ok tt, st1, eff1) /\
    resumeStream env2 1 st1 = (Ok tt, st2, eff2) /\
    streams st2 !! 1 = Some (set_lastPaymentTime 91000 s) /\
    getWithdrawableAmount env2 1 st2 = (Ok 0, st2, []).
Proof.
  intros s st env1 env2.
  destruct (X6_pause_then_resume env1 env2 env1 1 st s)
    as (st1 & eff1 & st2 & eff2 & H1 & _ & _ & H4 & H5 & H6 & _).
  - apply lookup_insert_eq.
  - reflexivity.
  - reflexivity.
  - reflexivity.
  - reflexivity.
  - exists st1, eff1, st2, eff2. split_all; assumption.
Defined.

(** ** Independence of streams *)

(** X7. A call about one stream never touches another: after
    [processStreamPayment], [cancelStream], [pauseStream], [resumeStream]
    or a query on [id'], the record of every other id is as before, and
    so are the counter and the owner.  The same holds along any sequence
    of such calls, none of which is about [id]. *)
Theorem X7_streams_independent :
  (forall (env : Env) (op : Op) (st : Storage) (id' id : Z),
     op_target op = Some id' -> id' <> id ->
     streams (snd (fst (exec env op st))) !! id = streams st !! id /\
     stream_counter (snd (fst (exec env op st))) = stream_counter st /\
     owner (snd (fst (exec env op st))) = owner st) /\
  (forall (calls : list (Env * Op)) (st : Storage) (id : Z),
     Forall (fun c : Env * Op =>
               exists id', op_target (snd c) = Some id' /\ id' <> id) calls ->
     streams (fst (run calls st)) !! id = streams st !! id /\
     stream_counter (fst (run calls st)) = stream_counter st).
Proof.
  assert (Hstep : forall env op st id' id,
     op_target op = Some id' -> id' <> id ->
     streams (snd (fst (exec env op st))) !! id = streams st !! id /\
     stream_counter (snd (fst (exec env op st))) = stream_counter st /\
     owner (snd (fst (exec env op st))) = owner st).
  { intros env op st id' id Ht Hne.
    destruct (exec_writes env op st)
      as [->|[(id2 & s' & Ht2 & _ & ->)|(r & d & ty & i & -> & _)]].
    - auto.
    - cbn. split; [|auto]. apply lookup_insert_ne. congruence.
    - discriminate Ht. }
  split; [exact Hstep|].
  induction calls as [|[env op] rest IH]; intros st id Hall.
  - auto.
  - inversion Hall as [|c l (id' & Ht & Hne) Hrest]; subst. cbn in Ht.
    destruct (Hstep env op st id' id Ht Hne) as (H1 & H2 & _).
    destruct (IH (snd (fst (exec env op st))) id Hrest) as [H3 H4].
    rewrite fst_run_cons. split; congruence.
Qed.

Lemma X7_streams_independent_witness :
  let s1 := mkStreamData "alice" "bob" 1000 3601000 1 1000 3600 0 false false 0 60 in
  let s2 := mkStreamData "alice" "bob" 1000 1801000 1 1000 1800 0 false false 0 30 in
  let st := mkStorage (<[1 := s1]> (<[2 := s2]> ∅)) (Some 2) (Some "owner") in
  let calls :=
    [(mkEnv "scheduler" "contract" 0 61000, OpProcessStreamPayment 1);
     (mkEnv "alice" "contract" 0 62000, OpCancelStream 1)] in
  streams (fst (run calls st)) !! 2 = streams st !! 2 /\
  stream_counter (fst (run calls st)) = stream_counter st.
Proof.
  intros s1 s2 st calls.
  apply (proj2 X7_streams_independent calls st 2).
  constructor; [exists 1; split; [reflexivity|lia]|].
  constructor; [exists 1; split; [reflexivity|lia]|].
  constructor.
Defined.

(** ** The terms of a stream *)

Lemma exec_terms env op st id s :
  streams st !! id = Some s ->
  allocates_other id st op ->
  exists s',
    streams (snd (fst (exec env op st))) !! id = Some s' /\
    terms_of s' = terms_of s.
Proof.
  intros Hs Halloc.
  destruct (decide (op_target op = Some id)) as [Ht|Ht].
  2:{ exists s. rewrite (exec_frame env op st id Ht Halloc). auto. }
  destruct op as [r d ty i|id'|id'|id'|id'|id'| |id']; cbn in Ht;
    try discriminate; injection Ht as ->; cbn [exec].
  - destruct (bind_ret_state (processStreamPayment env id) (fun _ => RetEmpty) st)
      as (-> & _ & _).
    rewrite (processStreamPayment_eq env id st s Hs).
    repeat match goal with
           | |- context [if ?b then _ else _] => destruct b
           end; cbn [fst snd]; try (exists s; auto; fail);
      (eexists; split; [apply store_lookup|reflexivity]).
  - destruct (bind_ret_state (cancelStream env id) (fun _ => RetEmpty) st)
      as (-> & _ & _).
    rewrite (cancelStream_eq env id st s Hs).
    destruct (negb (Address_equals (sender s) (Context_caller env)));
      [exists s; auto|].
    destruct (isCancelled s); [exists s; auto|]. cbn [fst snd].
    eexists; split; [apply store_lookup|reflexivity].
  - destruct (bind_ret_state (pauseStream env id) (fun _ => RetEmpty) st)
      as (-> & _ & _).
    rewrite (pauseStream_eq env id st s Hs).
    destruct (negb (Address_equals (sender s) (Context_caller env)));
      [exists s; auto|].
    destruct (isCancelled s); [exists s; auto|].
    destruct (isPaused s); [exists s; auto|]. cbn [fst snd].
    eexists; split; [apply store_lookup|reflexivity].
  - destruct (bind_ret_state (resumeStream env id) (fun _ => RetEmpty) st)
      as (-> & _ & _).
    rewrite (resumeStream_eq env id st s Hs).
    destruct (negb (Address_equals (sender s) (Context_caller env)));
      [exists s; auto|].
    destruct (isCancelled s); [exists s; auto|].
    destruct (negb (isPaused s)); [exists s; auto|]. cbn [fst snd].
    eexists; split; [apply store_lookup|reflexivity].
  - destruct (bind_ret_state (getStream env id) RetStream st) as (-> & _ & _).
    rewrite getStream_eq. exists s; auto.
  - destruct (bind_ret_state (getWithdrawableAmount env id) RetU64 st)
      as (-> & _ & _).
    destruct (getWithdrawableAmount_pure env id st) as [-> _]. exists s; auto.
Qed.

Lemma run_terms calls : forall st id s,
  streams st !! id = Some s ->
  never_reallocates id calls st ->
  exists s', streams (fst (run calls st)) !! id = Some s' /\
             terms_of s' = terms_of s.
Proof.
  induction calls as [|[env op] rest IH]; intros st id s Hs Hsafe.
  - exists s. auto.
  - cbn in Hsafe. destruct Hsafe as [Halloc Hsafe].
    destruct (exec_terms env op st id s Hs Halloc) as (s1 & Hs1 & Ht1).
    destruct (IH _ id s1 Hs1 Hsafe) as (s2 & Hs2 & Ht2).
    exists s2. rewrite fst_run_cons. split; [exact Hs2|congruence].
Qed.

(** X8. Records are never deleted and their terms never change: along
    any sequence of calls of any kind, by any caller and under any clock,
    while the counter stays below [2^64], a stream that exists keeps
    existing with the same sender, recipient, start and end time, rate,
    total amount, type and interval. *)
Theorem X8_terms_immutable
    (calls : list (Env * Op)) (st : Storage) (id : Z) (s : StreamData) :
  streams st !! id = Some s ->
  0 <= id <= counter_value st ->
  counter_value st + Z.of_nat (length calls) < U64.modulus ->
  forall pre post, calls = (pre ++ post)%list ->
  exists s',
    streams (fst (run pre st)) !! id = Some s' /\
    sender s' = sender s /\ recipient s' = recipient s /\
    startTime s' = startTime s /\ endTime s' = endTime s /\
    ratePerSecond s' = ratePerSecond s /\ totalAmount s' = totalAmount s /\
    streamType s' = streamType s /\ intervalSeconds s' = intervalSeconds s.
Proof.
  intros Hs Hid Hlen pre post ->.
  pose proof (counter_never_reallocates id _ st Hid Hlen) as Hsafe.
  apply never_reallocates_app in Hsafe. destruct Hsafe as [Hsafe _].
  destruct (run_terms pre st id s Hs Hsafe) as (s' & Hs' & Ht).
  exists s'. split; [exact Hs'|].
  unfold terms_of in Ht. injection Ht as H1 H2 H3 H4 H5 H6 H7 H8.
  split_all; assumption.
Qed.

Lemma X8_terms_immutable_witness :
  let s := mkStreamData "alice" "bob" 1000 3601000 1 1000 3600 0 false false 0 60 in
  let st := mkStorage (<[1 := s]> ∅) (Some 1) (Some "owner") in
  let calls :=
    [(mkEnv "scheduler" "contract" 0 61000, OpProcessStreamPayment 1);
     (mkEnv "carol" "contract" 500 63000, OpCreateStream "dave" 100 0 10);
     (mkEnv "alice" "contract" 0 62000, OpCancelStream 1)] in
  exists s',
    streams (fst (run calls st)) !! 1 = Some s' /\
    sender s' = "alice" /\ recipient s' = "bob" /\
    startTime s' = 1000 /\ endTime s' = 3601000 /\
    ratePerSecond s' = 1 /\ totalAmount s' = 3600 /\
    streamType s' = 0 /\ intervalSeconds s' = 60.
Proof.
  intros s st calls.
  apply (X8_terms_immutable calls st 1 s) with (post := @nil (Env * Op)).
  - apply lookup_insert_eq.
  - cbn; lia.
  - unfold U64.modulus; cbn; lia.
  - symmetry; apply app_nil_r.
Defined.

(** ** Accrual under a clock that never goes back *)

Lemma created_stream_run
    (env0 : Env) (r : Address) (d ty i : Z) (st_pre st0 : Storage)
    (eff0 : list Effect) (id : Z) (calls : list (Env * Op)) :
  U64.in_range (Context_transferredCoins env0) ->
  U64.in_range (Time_timestamp env0) ->
  createStream env0 r d ty i st_pre = (Ok id, st0, eff0) ->
  0 <= counter_value st_pre ->
  counter_value st_pre + 1 + Z.of_nat (length calls) < U64.modulus ->
  Forall (fun c : Env * Op => Time_timestamp (fst c) < U64.modulus) calls ->
  clock_monotone (Time_timestamp env0) calls ->
  exists s,
    streams (fst (run calls st0)) !! id = Some s /\
    Inv (last_time (Time_timestamp env0) calls) s /\
    terms_of s = terms_of (fresh_stream env0 r d ty i).
Proof.
  intros Hcoins Htime Hcreate Hcnt Hlen Hrng Hclk.
  pose proof (createStream_ok_lookup _ _ _ _ _ _ _ _ _ Hcreate) as Hl0.
  destruct (createStream_ok _ _ _ _ _ _ _ _ _ Hcreate)
    as (Ha & Hd & Hi & Hr & Hid & Hst0 & Heff0).
  assert (Hidv : id = counter_value st_pre + 1)
    by (rewrite Hid; apply add_no_carry; lia).
  assert (Hc0 : counter_value st0 = id) by (rewrite Hst0; reflexivity).
  assert (Hsafe : never_reallocates id calls st0)
    by (apply counter_never_reallocates; lia).
  pose proof (fresh_stream_Inv env0 r d ty i Hcoins Htime Hd) as Hinv0.
  destruct (run_any calls st0 id _ _ Hl0 Hinv0 Hclk Hrng Hsafe)
    as (s & Hs & Hinv & _).
  destruct (run_terms calls st0 id _ Hl0 Hsafe) as (s' & Hs' & Hterms).
  rewrite Hs in Hs'. injection Hs' as <-.
  exists s. auto.
Qed.

(** X9. The recipient is never paid ahead of schedule.  Take a stream
    that [createStream] has just persisted and any sequence of engine
    calls under a clock that never goes back.  At every state where the
    stream is not cancelled, [lastPaymentTime] lies between the creation
    time and the latest reading of the clock, and what has been withdrawn
    is at most what the rate yields over the time up to [lastPaymentTime]:
    [1000 * withdrawnAmount <= (lastPaymentTime - startTime) * ratePerSecond]. *)
Theorem X9_no_early_payout
    (env0 : Env) (r : Address) (d ty i : Z) (st_pre st0 : Storage)
    (eff0 : list Effect) (id : Z) (calls : list (Env * Op)) :
  U64.in_range (Context_transferredCoins env0) ->
  U64.in_range (Time_timestamp env0) ->
  createStream env0 r d ty i st_pre = (Ok id, st0, eff0) ->
  0 <= counter_value st_pre ->
  counter_value st_pre + 1 + Z.of_nat (length calls) < U64.modulus ->
  Forall (fun c : Env * Op => Time_timestamp (fst c) < U64.modulus) calls ->
  clock_monotone (Time_timestamp env0) calls ->
  forall pre post, calls = (pre ++ post)%list ->
  exists s,
    streams (fst (run pre st0)) !! id = Some s /\
    (isCancelled s = false ->
     Time_timestamp env0 <= lastPaymentTime s /\
     lastPaymentTime s <= last_time (Time_timestamp env0) pre /\
     1000 * withdrawnAmount s
       <= (lastPaymentTime s - Time_timestamp env0)
          * (Context_transferredCoins env0 / d)).
Proof.
  intros Hcoins Htime Hcreate Hcnt Hlen Hrng Hclk pre post ->.
  rewrite length_app in Hlen.
  apply Forall_app in Hrng. destruct Hrng as [Hrng _].
  apply clock_monotone_app in Hclk. destruct Hclk as [Hclk _].
  destruct (created_stream_run env0 r d ty i st_pre st0 eff0 id pre
              Hcoins Htime Hcreate Hcnt ltac:(lia) Hrng Hclk)
    as (s & Hs & (_ & _ & Hb) & Hterms).
  exists s. split; [exact Hs|]. intros Hc.
  destruct (Hb Hc) as (H1 & H2 & H3 & H4 & H5 & _).
  unfold terms_of in Hterms. cbn in Hterms.
  injection Hterms as _ _ Hstart _ Hrate _ _ _.
  unfold U64.div in Hrate. rewrite Hstart, Hrate in *.
  split_all; assumption.
Qed.

Lemma X9_no_early_payout_witness :
  let st := mkStorage ∅ (Some 0) (Some "owner") in
  let env0 := mkEnv "alice" "contract" 3600 1000 in
  let calls :=
    [(mkEnv "scheduler" "contract" 0 61000, OpProcessStreamPayment 1);
     (mkEnv "scheduler" "contract" 0 121500, OpProcessStreamPayment 1)] in
  exists st0 eff0 s,
    createStream env0 "bob" 3600 0 60 st = (Ok 1, st0, eff0) /\
    streams (fst (run calls st0)) !! 1 = Some s /\
    (isCancelled s = false ->
     1000 <= lastPaymentTime s /\
     lastPaymentTime s <= 121500 /\
     1000 * withdrawnAmount s <= (lastPaymentTime s - 1000) * (3600 / 3600)).
Proof.
  intros st env0 calls.
  destruct (createStream env0 "bob" 3600 0 60 st) as [[res st0] eff0] eqn:Hcreate.
  assert (Hres : res = Ok 1) by (vm_compute in Hcreate; congruence).
  subst res.
  destruct (X9_no_early_payout env0 "bob" 3600 0 60 st st0 eff0 1 calls)
    with (pre := calls) (post := @nil (Env * Op)) as (s & Hs & Hb).
  - unfold U64.in_range, U64.modulus; cbn; lia.
  - unfold U64.in_range, U64.modulus; cbn; lia.
  - exact Hcreate.
  - cbn; lia.
  - unfold U64.modulus; cbn; lia.
  - repeat constructor; unfold U64.modulus; cbn; lia.
  - cbn; lia.
  - symmetry; apply app_nil_r.
  - exists st0, eff0, s. split; [reflexivity|]. split; [exact Hs|exact Hb].
Defined.

(** X10. Under a clock that never goes back the cap of a regular payment
    never rejects anything.  For a stream that [createStream] has
    persisted, whenever [processStreamPayment] runs before [endTime] on
    the stream, live and not paused, [withdrawnAmount] plus the computed
    amount does not wrap around and stays within [totalAmount]; the call
    transfers exactly the computed amount (nothing when it is zero) and
    re-arms itself. *)
Theorem X10_cap_never_rejects
    (env0 : Env) (r : Address) (d ty i : Z) (st_pre st0 : Storage)
    (eff0 : list Effect) (id : Z) (calls : list (Env * Op)) :
  U64.in_range (Context_transferredCoins env0) ->
  U64.in_range (Time_timestamp env0) ->
  createStream env0 r d ty i st_pre = (Ok id, st0, eff0) ->
  0 <= counter_value st_pre ->
  counter_value st_pre + 1 + Z.of_nat (length calls) < U64.modulus ->
  Forall (fun c : Env * Op => Time_timestamp (fst c) < U64.modulus) calls ->
  clock_monotone (Time_timestamp env0) calls ->
  forall pre env post,
    calls = (pre ++ (env, OpProcessStreamPayment id) :: post)%list ->
  exists s,
    streams (fst (run pre st0)) !! id = Some s /\
    (isCancelled s = false -> isPaused s = false ->
     Time_timestamp env < endTime s ->
     let amount :=
       U64.div (U64.mul (U64.sub (Time_timestamp env) (lastPaymentTime s))
                        (ratePerSecond s)) 1000 in
     U64.add (withdrawnAmount s) amount = withdrawnAmount s + amount /\
     withdrawnAmount s + amount <= totalAmount s /\
     transfers_of (snd (processStreamPayment env id (fst (run pre st0))))
       = (if 0 <? amount then [(recipient s, amount)] else []) /\
     scheduled_calls (snd (processStreamPayment env id (fst (run pre st0))))
       = [Call (Context_callee env) "processStreamPayment" id 0
               (U64.mul (intervalSeconds s) 1000)]).
Proof.
  intros Hcoins Htime Hcreate Hcnt Hlen Hrng Hclk pre env post ->.
  rewrite length_app in Hlen.
  apply Forall_app in Hrng. destruct Hrng as [Hrng Hrng2].
  apply clock_monotone_app in Hclk. destruct Hclk as [Hclk Hclk2].
  inversion Hrng2 as [|c l Hn _]; subst. cbn in Hn.
  cbn in Hclk2. destruct Hclk2 as [Hle _].
  destruct (created_stream_run env0 r d ty i st_pre st0 eff0 id pre
              Hcoins Htime Hcreate Hcnt ltac:(lia) Hrng Hclk)
    as (s & Hs & Hinv & _).
  exists s. split; [exact Hs|]. intros Hc Hp He amount.
  fold (accrued (Time_timestamp env) s) in amount. subst amount.
  destruct (regular_within_cap _ _ s Hinv Hc Hle Hn He)
    as (Ha0 & Hcap & Hadd & _).
  split; [exact Hadd|]. split; [exact Hcap|].
  rewrite (processStreamPayment_eq env id _ s Hs), Hc, Hp.
  apply Z.leb_gt in He. rewrite He, Hadd.
  apply Z.leb_le in Hcap. rewrite Hcap, andb_true_r.
  destruct (0 <? accrued (Time_timestamp env) s); split; reflexivity.
Qed.

Lemma X10_cap_never_rejects_witness :
  let st := mkStorage ∅ (Some 0) (Some "owner") in
  let env0 := mkEnv "alice" "contract" 3600 1000 in
  let env := mkEnv "scheduler" "contract" 0 121500 in
  let pre := [(mkEnv "scheduler" "contract" 0 61000, OpProcessStreamPayment 1)] in
  exists st0 eff0 s,
    createStream env0 "bob" 3600 0 60 st = (Ok 1, st0, eff0) /\
    streams (fst (run pre st0)) !! 1 = Some s /\
    transfers_of (snd (processStreamPayment env 1 (fst (run pre st0))))
      = [("bob", 60)].
Proof.
  intros st env0 env pre.
  destruct (createStream env0 "bob" 3600 0 60 st) as [[res st0] eff0] eqn:Hcreate.
  assert (Hres : res = Ok 1) by (vm_compute in Hcreate; congruence).
  subst res.
  destruct (X10_cap_never_rejects env0 "bob" 3600 0 60 st st0 eff0 1
              (pre ++ [(env, OpProcessStreamPayment 1)])%list)
    with (pre := pre) (env := env) (post := @nil (Env * Op))
    as (s & Hs & Hb).
  - unfold U64.in_range, U64.modulus; cbn; lia.
  - unfold U64.in_range, U64.modulus; cbn; lia.
  - exact Hcreate.
  - cbn; lia.
  - unfold U64.modulus; cbn; lia.
  - repeat constructor; unfold U64.modulus; cbn; lia.
  - cbn; lia.
  - reflexivity.
  - exists st0, eff0, s. split; [reflexivity|]. split; [exact Hs|].
    assert (Hsv : s = mkStreamData "alice" "bob" 1000 3601000 1 61000 3600 60
                        false false 0 60).
    { vm_compute in Hcreate. injection Hcreate as <- <-.
      vm_compute in Hs. injection Hs as <-. reflexivity. }
    destruct Hb as (_ & _ & Htr & _).
    + rewrite Hsv; reflexivity.
    + rewrite Hsv; reflexivity.
    + rewrite Hsv; cbn; lia.
    + rewrite Htr, Hsv. reflexivity.
Defined.

(** ** The trigger chain *)

(** X11. Which calls arm the deferred call.  On an existing stream,
    [processStreamPayment] arms exactly one when the stream is live, not
    paused and [now < endTime] (paid or not), and none otherwise;
    [resumeStream] arms exactly one when it succeeds and none when it
    throws; [cancelStream], [pauseStream] and [getWithdrawableAmount] never
    arm one; a successful [createStream] arms exactly one for the new id.
    The armed call is always [processStreamPayment] of this contract on
    the stream's id, with no coins and a delay of
    [intervalSeconds * 1000] ms. *)
Theorem X11_trigger_chain :
  (forall (env : Env) (id : Z) (st : Storage) (s : StreamData),
     streams st !! id = Some s ->
     let armed :=
       [Call (Context_callee env) "processStreamPayment" id 0
             (U64.mul (intervalSeconds s) 1000)] in
     scheduled_calls (snd (processStreamPayment env id st)) =
       (if negb (isCancelled s) && negb (isPaused s)
           && (Time_timestamp env <? endTime s) then armed else []) /\
     scheduled_calls (snd (resumeStream env id st)) =
       (if isOk (fst (fst (resumeStream env id st))) then armed else []) /\
     scheduled_calls (snd (cancelStream env id st)) = [] /\
     scheduled_calls (snd (pauseStream env id st)) = [] /\
     scheduled_calls (snd (getWithdrawableAmount env id st)) = []) /\
  (forall (env : Env) (r : Address) (d ty i : Z) (st st' : Storage)
          (eff : list Effect) (id : Z),
     createStream env r d ty i st = (Ok id, st', eff) ->
     scheduled_calls eff =
       [Call (Context_callee env) "processStreamPayment" id 0 (U64.mul i 1000)]).
Proof.
  split.
  - intros env id st s Hs armed. subst armed. split_all.
    + rewrite (processStreamPayment_eq env id st s Hs).
      destruct (isCancelled s); [reflexivity|].
      destruct (isPaused s); [reflexivity|]. cbn [negb andb].
      destruct (endTime s <=? Time_timestamp env) eqn:He.
      * apply Z.leb_le in He.
        assert (Hlt : (Time_timestamp env <? endTime s) = false)
          by (apply Z.ltb_ge; lia).
        rewrite Hlt. destruct (0 <? remaining s); reflexivity.
      * apply Z.leb_gt in He.
        assert (Hlt : (Time_timestamp env <? endTime s) = true)
          by (apply Z.ltb_lt; lia).
        rewrite Hlt.
        destruct ((0 <? accrued (Time_timestamp env) s)
                  && (U64.add (withdrawnAmount s) (accrued (Time_timestamp env) s)
                      <=? totalAmount s)); reflexivity.
    + rewrite (resumeStream_eq env id st s Hs).
      destruct (negb (Address_equals (sender s) (Context_caller env)));
        [reflexivity|].
      destruct (isCancelled s); [reflexivity|].
      destruct (negb (isPaused s)); reflexivity.
    + rewrite (cancelStream_eq env id st s Hs).
      destruct (negb (Address_equals (sender s) (Context_caller env)));
        [reflexivity|].
      destruct (isCancelled s); [reflexivity|].
      destruct (0 <? remaining s); reflexivity.
    + rewrite (pauseStream_eq env id st s Hs).
      destruct (negb (Address_equals (sender s) (Context_caller env)));
        [reflexivity|].
      destruct (isCancelled s); [reflexivity|].
      destruct (isPaused s); reflexivity.
    + rewrite (getWithdrawableAmount_eq env id st s Hs). reflexivity.
  - intros env r d ty i st st' eff id Hc.
    destruct (createStream_ok _ _ _ _ _ _ _ _ _ Hc)
      as (_ & _ & _ & _ & _ & _ & ->).
    reflexivity.
Qed.

Lemma X11_trigger_chain_witness :
  let s := mkStreamData "alice" "bob" 1000 3601000 1 1000 3600 0 false false 0 60 in
  let st := mkStorage (<[1 := s]> ∅) (Some 1) (Some "owner") in
  scheduled_calls
    (snd (processStreamPayment (mkEnv "scheduler" "contract" 0 61000) 1 st))
    = [Call "contract" "processStreamPayment" 1 0 (U64.mul 60 1000)] /\
  scheduled_calls
    (snd (processStreamPayment (mkEnv "scheduler" "contract" 0 3601000) 1 st)) = [].
Proof.
  intros s st. split.
  - apply (proj1 (proj1 X11_trigger_chain
             (mkEnv "scheduler" "contract" 0 61000) 1 st s (lookup_insert_eq _ _ _))).
  - apply (proj1 (proj1 X11_trigger_chain
             (mkEnv "scheduler" "contract" 0 3601000) 1 st s (lookup_insert_eq _ _ _))).
Defined.

(** ** The sequence of ids *)

Lemma exec_create_counter env r d ty i st :
  match fst (fst (exec env (OpCreateStream r d ty i) st)) with
  | Ok v =>
      v = RetU64 (U64.add (counter_value st) 1) /\
      counter_value (snd (fst (exec env (OpCreateStream r d ty i) st)))
        = U64.add (counter_value st) 1
  | Err _ =>
      counter_value (snd (fst (exec env (OpCreateStream r d ty i) st)))
        = counter_value st
  end.
Proof.
  cbn [exec]. unfold bind. rewrite createStream_eq.
  destruct (negb (0 <? Context_transferredCoins env)); [reflexivity|].
  destruct (negb (0 <? d)); [reflexivity|].
  destruct (negb (0 <? i)); [reflexivity|].
  destruct (negb (0 <? U64.div (Context_transferredCoins env) d)); [reflexivity|].
  cbn. auto.
Qed.

Lemma exec_other_counter env op st :
  (forall r d ty i, op <> OpCreateStream r d ty i) ->
  counter_value (snd (fst (exec env op st))) = counter_value st.
Proof.
  intros Hnc.
  destruct (exec_writes env op st)
    as [->|[(id' & s' & _ & _ & ->)|(r & d & ty & i & -> & _)]].
  - reflexivity.
  - reflexivity.
  - exfalso. eapply Hnc. reflexivity.
Qed.

Lemma successful_creates_nonneg log : 0 <= successful_creates log.
Proof.
  induction log as [|e log IH]; cbn; [lia|].
  destruct (entry_op e); try exact IH.
  destruct (entry_result e); lia.
Qed.

Lemma created_ids_cons e log :
  created_ids (e :: log) =
    match entry_op e, entry_result e with
    | OpCreateStream _ _ _ _, Ok (RetU64 n) => n :: created_ids log
    | _, _ => created_ids log
    end.
Proof.
  unfold created_ids. destruct e as [env op res eff].
  destruct op; try reflexivity.
  destruct res as [[]|]; reflexivity.
Qed.

(** X12. Ids are handed out in order and never twice.  Along any sequence
    of engine calls that keeps the counter below [2^64], the ids returned
    by the successful [createStream] calls are, in order, the integers
    following the initial counter, and [getStreamCount] afterwards returns
    the initial counter plus the number of streams created; failed
    creations and all other calls consume no id. *)
Theorem X12_ids_sequential (calls : list (Env * Op)) (st : Storage) (env : Env) :
  0 <= counter_value st ->
  counter_value st + Z.of_nat (length calls) < U64.modulus ->
  created_ids (snd (run calls st))
    = seqZ (counter_value st + 1) (successful_creates (snd (run calls st))) /\
  getStreamCount env (fst (run calls st))
    = (Ok (counter_value st + successful_creates (snd (run calls st))),
       fst (run calls st), []).
Proof.
  intros Hc Hlen. rewrite getStreamCount_eq.
  enough (H : created_ids (snd (run calls st))
              = seqZ (counter_value st + 1) (successful_creates (snd (run calls st)))
              /\ counter_value (fst (run calls st))
                 = counter_value st + successful_creates (snd (run calls st))).
  { destruct H as [H1 H2]. rewrite H2. auto. }
  revert st Hc Hlen.
  induction calls as [|[env1 op] rest IH]; intros st Hc Hlen.
  - cbn. split; [reflexivity|lia].
  - cbn [length] in Hlen. rewrite fst_run_cons, snd_run_cons, created_ids_cons.
    cbn [successful_creates entry_op entry_result].
    assert (Hnext : U64.add (counter_value st) 1 = counter_value st + 1)
      by (apply add_no_carry; lia).
    pose proof (successful_creates_nonneg
                  (snd (run rest (snd (fst (exec env1 op st)))))) as Hn.
    destruct op as [r d ty i|id|id|id|id|id| |id].
    2-8: match goal with
         | |- context [exec ?e ?o ?s] =>
             assert (Hsame : counter_value (snd (fst (exec e o s)))
                             = counter_value s)
               by (apply exec_other_counter; intros; discriminate);
             destruct (IH (snd (fst (exec e o s))) ltac:(lia) ltac:(lia))
               as [IH1 IH2];
             rewrite IH1, IH2, Hsame; split; reflexivity
         end.
    pose proof (exec_create_counter env1 r d ty i st) as Hcr.
    destruct (IH (snd (fst (exec env1 (OpCreateStream r d ty i) st))))
      as [IH1 IH2].
    { destruct (fst (fst (exec env1 (OpCreateStream r d ty i) st)));
        [destruct Hcr as [_ Hcr]|]; rewrite Hcr; lia. }
    { destruct (fst (fst (exec env1 (OpCreateStream r d ty i) st)));
        [destruct Hcr as [_ Hcr]|]; rewrite Hcr; lia. }
    destruct (fst (fst (exec env1 (OpCreateStream r d ty i) st))) as [v|msg].
    + destruct Hcr as [-> Hcnt]. rewrite IH1, IH2, Hcnt, Hnext. split; [|lia].
      rewrite (seqZ_cons (counter_value st + 1)) by lia.
      f_equal. f_equal; lia.
    + rewrite IH1, IH2, Hcr. split; reflexivity.
Qed.

Lemma X12_ids_sequential_witness :
  let st := mkStorage ∅ (Some 0) (Some "owner") in
  let calls :=
    [(mkEnv "alice" "contract" 3600 1000, OpCreateStream "bob" 3600 0 60);
     (mkEnv "alice" "contract" 10 1000, OpCreateStream "bob" 3600 0 60);
     (mkEnv "scheduler" "contract" 0 61000, OpProcessStreamPayment 1);
     (mkEnv "carol" "contract" 500 63000, OpCreateStream "dave" 100 0 10)] in
  created_ids (snd (run calls st)) = [1; 2] /\
  getStreamCount (mkEnv "anyone" "contract" 0 64000) (fst (run calls st))
    = (Ok 2, fst (run calls st), []).
Proof.
  intros st calls.
  destruct (X12_ids_sequential calls st (mkEnv "anyone" "contract" 0 64000))
    as [Hids Hcount].
  - cbn; lia.
  - unfold U64.modulus; cbn; lia.
  - assert (Hn : successful_creates (snd (run calls st)) = 2)
      by (vm_compute; reflexivity).
    rewrite Hn in Hids, Hcount. split; [exact Hids|exact Hcount].
Defined.

(** ** The quote and the payment *)

(** X13. What [getWithdrawableAmount] quotes against what
    [processStreamPayment] pays at the same state and time, on a live
    stream that is not paused with [withdrawnAmount <= totalAmount].
    Before [endTime]: when the accrued amount fits the remainder the call
    pays exactly the quote; when it exceeds the remainder (and the sum
    does not wrap around) the quote is the remainder but the call pays
    nothing.  At or after [endTime] the call pays the whole remainder,
    which is at least the quote. *)
Theorem X13_quote_and_payment (env : Env) (id : Z) (st : Storage) (s : StreamData) :
  streams st !! id = Some s ->
  isCancelled s = false -> isPaused s = false ->
  0 <= withdrawnAmount s <= totalAmount s -> totalAmount s < U64.modulus ->
  exists quote,
    getWithdrawableAmount env id st = (Ok quote, st, []) /\
    let paid := total_transferred (snd (processStreamPayment env id st)) in
    let amount := accrued (Time_timestamp env) s in
    (Time_timestamp env < endTime s ->
     amount <= totalAmount s - withdrawnAmount s -> paid = quote) /\
    (Time_timestamp env < endTime s ->
     totalAmount s - withdrawnAmount s < amount ->
     withdrawnAmount s + amount < U64.modulus ->
     quote = totalAmount s - withdrawnAmount s /\ paid = 0) /\
    (endTime s <= Time_timestamp env ->
     paid = totalAmount s - withdrawnAmount s /\ quote <= paid).
Proof.
  intros Hs Hc Hp Hw Ht.
  rewrite (getWithdrawableAmount_eq env id st s Hs), Hc, Hp. cbn [orb].
  eexists. split; [reflexivity|]. cbn zeta.
  rewrite (processStreamPayment_eq env id st s Hs), Hc, Hp.
  rewrite (remaining_plain s Hw Ht).
  assert (Ha0 : 0 <= accrued (Time_timestamp env) s).
  { unfold accrued.
    pose proof (wrap_in_range
      (U64.sub (Time_timestamp env) (lastPaymentTime s) * ratePerSecond s)) as [H0 _].
    apply (proj1 (div_1000_bound _ H0)). }
  split; [|split].
  - intros He Hfit. apply Z.leb_gt in He. rewrite He.
    rewrite add_no_carry by lia.
    assert (Hcap : (withdrawnAmount s + accrued (Time_timestamp env) s
                    <=? totalAmount s) = true) by (apply Z.leb_le; lia).
    rewrite Hcap, andb_true_r, Z.min_r by lia.
    destruct (0 <? accrued (Time_timestamp env) s) eqn:Hpos; cbn.
    + lia.
    + apply Z.ltb_ge in Hpos. lia.
  - intros He Hover Hnowrap. apply Z.leb_gt in He. rewrite He.
    rewrite add_no_carry by lia.
    assert (Hcap : (withdrawnAmount s + accrued (Time_timestamp env) s
                    <=? totalAmount s) = false) by (apply Z.leb_gt; lia).
    rewrite Hcap, andb_false_r, Z.min_l by lia. cbn. auto.
  - intros He. apply Z.leb_le in He. rewrite He.
    destruct (0 <? totalAmount s - withdrawnAmount s) eqn:Hr;
      [apply Z.ltb_lt in Hr | apply Z.ltb_ge in Hr]; cbn; lia.
Qed.

Lemma X13_quote_and_payment_witness :
  let s := mkStreamData "alice" "bob" 1000 3601000 1 1000 3600 0 false false 0 60 in
  let st := mkStorage (<[1 := s]> ∅) (Some 1) (Some "owner") in
  let env := mkEnv "scheduler" "contract" 0 61000 in
  getWithdrawableAmount env 1 st = (Ok 60, st, []) /\
  total_transferred (snd (processStreamPayment env 1 st)) = 60.
Proof.
  intros s st env.
  destruct (X13_quote_and_payment env 1 st s) as (quote & Hq & Hfit & _).
  - apply lookup_insert_eq.
  - reflexivity.
  - reflexivity.
  - cbn; lia.
  - unfold U64.modulus; cbn; lia.
  - assert (Hv : quote = 60).
    { assert (Hq' : getWithdrawableAmount env 1 st = (Ok 60, st, []))
        by (vm_compute; reflexivity).
      rewrite Hq' in Hq. congruence. }
    subst quote. split; [exact Hq|].
    apply Hfit; [cbn; lia|vm_compute; discriminate].
Defined.

(** ** The constructor *)

(** X14. [constructor] has no guard: whatever the storage holds, it sets
    the owner, resets the counter to 0 and keeps every stream record, so
    that [getStreamCount] returns 0 and the next successful
    [createStream] returns id 1 and writes the record of id 1, replacing
    the one that may exist. *)
Theorem X14_constructor_resets_counter
    (env0 env : Env) (o r : Address) (d ty i : Z) (st : Storage) :
  0 < Context_transferredCoins env -> 0 < d -> 0 < i ->
  0 < Context_transferredCoins env / d ->
  exists st0 st1 eff1,
    constructor env0 o st =
      (Ok tt, st0, [GenerateEvent "StreamManagerInitialized" [PStr o]]) /\
    streams st0 = streams st /\ owner st0 = Some o /\
    getStreamCount env st0 = (Ok 0, st0, []) /\
    createStream env r d ty i st0 = (Ok 1, st1, eff1) /\
    streams st1 !! 1 = Some (fresh_stream env r d ty i) /\
    (forall id, id <> 1 -> streams st1 !! id = streams st !! id).
Proof.
  intros Ha Hd Hi Hr.
  exists (mkStorage (streams st) (Some 0) (Some o)).
  eexists _, _. split; [reflexivity|]. split; [reflexivity|].
  split; [reflexivity|]. split; [reflexivity|].
  rewrite createStream_eq.
  apply Z.ltb_lt in Ha, Hd, Hi, Hr. unfold U64.div. rewrite Ha, Hd, Hi, Hr.
  cbn [negb]. cbn zeta.
  change (U64.add (counter_value (mkStorage (streams st) (Some 0) (Some o))) 1)
    with 1.
  split; [reflexivity|]. cbn [streams]. split.
  - apply lookup_insert_eq.
  - intros id Hne. apply lookup_insert_ne. congruence.
Qed.

Lemma X14_constructor_resets_counter_witness :
  let old := mkStreamData "alice" "bob" 1000 3601000 1 61000 3600 60 false false 0 60 in
  let st := mkStorage (<[1 := old]> ∅) (Some 1) (Some "owner") in
  let env := mkEnv "carol" "contract" 500 70000 in
  exists st0 st1 eff1,
    constructor env "carol" st =
      (Ok tt, st0, [GenerateEvent "StreamManagerInitialized" [PStr "carol"]]) /\
    createStream env "dave" 100 0 10 st0 = (Ok 1, st1, eff1) /\
    streams st1 !! 1 = Some (fresh_stream env "dave" 100 0 10).
Proof.
  intros old st env.
  destruct (X14_constructor_resets_counter env env "carol" "dave" 100 0 10 st)
    as (st0 & st1 & eff1 & H1 & _ & _ & _ & H5 & H6 & _).
  - cbn; lia.
  - lia.
  - lia.
  - cbn. reflexivity.
  - exists st0, st1, eff1. split_all; assumption.
Defined.

(** * The demonstration contracts

    SimpleStreamManager and StreamManagerClean, for any arithmetic of
    their numbers: the parameters of the section. *)

Section Siblings.

Context {number : Type} `{Countable number}.
Variables (zero thousand one : number).
Variables (num_add num_sub num_mul num_div num_min : number -> number -> number).
Variables (num_ltb num_leb : number -> number -> bool).

Local Abbreviation Globals := (@SimpleStreamManager.Globals number _ _).
Local Abbreviation Simple_process :=
  (SimpleStreamManager.processStreamPayment zero thousand
     num_add num_sub num_mul num_div num_ltb num_leb).
Local Abbreviation Simple_cancel :=
  (SimpleStreamManager.cancelStream zero num_sub num_ltb).
Local Abbreviation Simple_pause := (@SimpleStreamManager.pauseStream number _ _).
Local Abbreviation Simple_resume := (SimpleStreamManager.resumeStream thousand num_mul).
Local Abbreviation Simple_withdrawable :=
  (SimpleStreamManager.getWithdrawableAmount zero thousand
     num_sub num_mul num_div num_min).
Local Abbreviation Simple_create :=
  (SimpleStreamManager.createStream zero thousand
     num_add num_mul num_div num_leb one).
Local Abbreviation Clean_process :=
  (StreamManagerClean.processStreamPayment zero thousand
     num_add num_sub num_mul num_div num_ltb num_leb).
Local Abbreviation Clean_cancel :=
  (StreamManagerClean.cancelStream zero num_sub num_ltb).
Local Abbreviation Clean_pause := (@StreamManagerClean.pauseStream number _ _).
Local Abbreviation Clean_resume := (@StreamManagerClean.resumeStream number _ _).

(** X15. The guards of SimpleStreamManager.  On an id with no record
    every lifecycle call and [getWithdrawableAmount] throw 'Stream not
    found' and [getStream] returns null.  On a cancelled stream
    [cancelStream] throws 'Stream already cancelled', [pauseStream] and
    [resumeStream] throw 'Stream is cancelled' and
    [getWithdrawableAmount] returns 0; pausing a paused stream and
    resuming one that is not paused throw too.  No throwing call changes
    the module variables or writes anything. *)
Theorem X15_simple_guards (now id : number) (g : Globals) :
  (SimpleStreamManager.streams g !! id = None ->
   Simple_process now id g = (Err "Stream not found", g, []) /\
   Simple_cancel id g = (Err "Stream not found", g, []) /\
   Simple_pause id g = (Err "Stream not found", g, []) /\
   Simple_resume now id g = (Err "Stream not found", g, []) /\
   Simple_withdrawable now id g = Err "Stream not found" /\
   SimpleStreamManager.getStream id g = None) /\
  (forall s, SimpleStreamManager.streams g !! id = Some s ->
   (SimpleStreamManager.isCancelled s = true ->
    Simple_cancel id g = (Err "Stream already cancelled", g, []) /\
    Simple_pause id g = (Err "Stream is cancelled", g, []) /\
    Simple_resume now id g = (Err "Stream is cancelled", g, []) /\
    Simple_withdrawable now id g = Ok zero) /\
   (SimpleStreamManager.isCancelled s = false ->
    SimpleStreamManager.isPaused s = true ->
    Simple_pause id g = (Err "Stream already paused", g, []) /\
    Simple_withdrawable now id g = Ok zero) /\
   (SimpleStreamManager.isCancelled s = false ->
    SimpleStreamManager.isPaused s = false ->
    Simple_resume now id g = (Err "Stream is not paused", g, []))).
Proof.
  split.
  - intros Hs.
    unfold SimpleStreamManager.processStreamPayment,
      SimpleStreamManager.cancelStream, SimpleStreamManager.pauseStream,
      SimpleStreamManager.resumeStream, SimpleStreamManager.getWithdrawableAmount,
      SimpleStreamManager.getStream.
    rewrite Hs. auto 10.
  - intros s Hs.
    unfold SimpleStreamManager.cancelStream, SimpleStreamManager.pauseStream,
      SimpleStreamManager.resumeStream, SimpleStreamManager.getWithdrawableAmount.
    rewrite Hs. split; [|split].
    + intros Hc. rewrite Hc. auto.
    + intros Hc Hp. rewrite Hc, Hp. auto.
    + intros Hc Hp. rewrite Hc, Hp. auto.
Qed.

(** X16. SimpleStreamManager compares no caller: any invoker can pause
    and resume a live stream.  After [pauseStream] and then
    [resumeStream] at [now] the record is the original one with
    [lastPaymentTime] set to [now]; the resume schedules exactly one
    timeout, [intervalSeconds * 1000] later, and every other record and
    the counter are untouched. *)
Theorem X16_simple_pause_resume
    (now id : number) (g : Globals) (s : SimpleStreamManager.StreamData) :
  SimpleStreamManager.streams g !! id = Some s ->
  SimpleStreamManager.isCancelled s = false ->
  SimpleStreamManager.isPaused s = false ->
  exists g1 eff1 g2 eff2,
    Simple_pause id g = (Ok tt, g1, eff1) /\
    SimpleStreamManager.streams g1 !! id
      = Some (SimpleStreamManager.set_isPaused true s) /\
    Simple_resume now id g1 = (Ok tt, g2, eff2) /\
    SimpleStreamManager.streams g2 !! id
      = Some (SimpleStreamManager.set_lastPaymentTime now s) /\
    (forall id', id' <> id ->
       SimpleStreamManager.streams g2 !! id' = SimpleStreamManager.streams g !! id') /\
    SimpleStreamManager.streamCounter g2 = SimpleStreamManager.streamCounter g /\
    omap (fun e => match e with
                   | SimpleStreamManager.SetTimeout i d => Some (i, d)
                   | _ => None
                   end) (eff1 ++ eff2)%list
      = [(id, num_mul (SimpleStreamManager.intervalSeconds s) thousand)] /\
    (exists s1 s2,
       SimpleStreamManager.streams g1 !! id = Some s1 /\
       SimpleStreamManager.streams g2 !! id = Some s2 /\
       SimpleStreamManager.isPaused s1 = true /\
       SimpleStreamManager.lastPaymentTime s1 = SimpleStreamManager.lastPaymentTime s /\
       SimpleStreamManager.isPaused s2 = false /\
       SimpleStreamManager.lastPaymentTime s2 = now /\
       SimpleStreamManager.isCancelled s2 = false /\
       SimpleStreamManager.withdrawnAmount s2 = SimpleStreamManager.withdrawnAmount s /\
       SimpleStreamManager.sender s2 = SimpleStreamManager.sender s /\
       SimpleStreamManager.recipient s2 = SimpleStreamManager.recipient s /\
       SimpleStreamManager.startTime s2 = SimpleStreamManager.startTime s /\
       SimpleStreamManager.endTime s2 = SimpleStreamManager.endTime s /\
       SimpleStreamManager.ratePerSecond s2 = SimpleStreamManager.ratePerSecond s /\
       SimpleStreamManager.totalAmount s2 = SimpleStreamManager.totalAmount s /\
       SimpleStreamManager.streamType s2 = SimpleStreamManager.streamType s /\
       SimpleStreamManager.intervalSeconds s2 = SimpleStreamManager.intervalSeconds s).
Proof.
  intros Hs Hc Hp.
  unfold SimpleStreamManager.pauseStream. rewrite Hs, Hc, Hp.
  eexists _, _. eexists _, _. split; [reflexivity|].
  unfold SimpleStreamManager.set_streams. cbn [SimpleStreamManager.streams].
  split; [apply lookup_insert_eq|].
  unfold SimpleStreamManager.resumeStream. cbn [SimpleStreamManager.streams].
  rewrite lookup_insert_eq.
  cbn [SimpleStreamManager.isCancelled SimpleStreamManager.isPaused
       SimpleStreamManager.set_isPaused negb].
  rewrite Hc. cbn zeta. split; [reflexivity|].
  unfold SimpleStreamManager.set_streams, SimpleStreamManager.scheduleNextPayment.
  cbn [SimpleStreamManager.streams SimpleStreamManager.streamCounter].
  rewrite !lookup_insert_eq. split_all.
  - f_equal. destruct s; cbn in *. subst. reflexivity.
  - intros id' Hne. rewrite !lookup_insert_ne by congruence. reflexivity.
  - reflexivity.
  - reflexivity.
  - eexists _, _. split; [reflexivity|]. split; [reflexivity|].
    destruct s; cbn in *. subst. split_all; reflexivity.
Qed.

(** X17. [createStream] of SimpleStreamManager rejects, in this order, a
    total, a duration and an interval that are not positive, leaving the
    module variables as they were; it has no check on the rate, so every
    other call succeeds: it returns the incremented counter, stores the
    record under it, keeps the other records and schedules one timeout
    for the new id. *)
Theorem X17_simple_createStream
    (now : number) (r : string) (d ty i total : number) (g : Globals) :
  (num_leb total zero = true ->
   Simple_create now r d ty i total g = (Err "Total amount must be positive", g, [])) /\
  (num_leb total zero = false -> num_leb d zero = true ->
   Simple_create now r d ty i total g = (Err "Duration must be positive", g, [])) /\
  (num_leb total zero = false -> num_leb d zero = false ->
   num_leb i zero = true ->
   Simple_create now r d ty i total g = (Err "Interval must be positive", g, [])) /\
  (num_leb total zero = false -> num_leb d zero = false ->
   num_leb i zero = false ->
   let id := num_add (SimpleStreamManager.streamCounter g) one in
   exists g' eff,
     Simple_create now r d ty i total g = (Ok id, g', eff) /\
     SimpleStreamManager.getStreamCount g' = id /\
     SimpleStreamManager.getStream id g' =
       Some (SimpleStreamManager.mkStreamData "mock_sender" r now
               (num_add now (num_mul d thousand)) (num_div total d) now
               total zero false false ty i) /\
     (forall id', id' <> id ->
        SimpleStreamManager.streams g' !! id' = SimpleStreamManager.streams g !! id') /\
     omap (fun e => match e with
                    | SimpleStreamManager.SetTimeout j dl => Some (j, dl)
                    | _ => None
                    end) eff
       = [(id, num_mul i thousand)]).
Proof.
  unfold SimpleStreamManager.createStream. split_all.
  - intros ->. reflexivity.
  - intros -> ->. reflexivity.
  - intros -> -> ->. reflexivity.
  - intros -> -> ->. cbn zeta.
    eexists _, _. split; [reflexivity|].
    unfold SimpleStreamManager.getStreamCount, SimpleStreamManager.getStream,
      SimpleStreamManager.set_streams, SimpleStreamManager.scheduleNextPayment.
    cbn [SimpleStreamManager.streams SimpleStreamManager.streamCounter].
    rewrite !lookup_insert_eq. split_all.
    + reflexivity.
    + reflexivity.
    + intros id' Hne. apply lookup_insert_ne. congruence.
    + reflexivity.
Qed.

(** X18. No lifecycle call of StreamManagerClean throws and none
    schedules anything: [processStreamPayment], [cancelStream],
    [pauseStream] and [resumeStream] return normally on every id and
    every state, and no effect of theirs is a timeout; on an id with no
    record they leave the module variables as they were. *)
Theorem X18_clean_never_throws (now id : number) (g : Globals) :
  let outs :=
    [Clean_process now id g; Clean_cancel id g;
     Clean_pause id g; Clean_resume now id g] in
  Forall (fun out =>
            fst (fst out) = Ok tt /\
            Forall (fun e => forall j dl, e <> SimpleStreamManager.SetTimeout j dl)
                   (snd out) /\
            (SimpleStreamManager.streams g !! id = None -> snd (fst out) = g))
         outs.
Proof.
  assert (Hlog : forall parts,
            Forall (fun e => forall j dl, e <> SimpleStreamManager.SetTimeout j dl)
                   [@SimpleStreamManager.ConsoleLog number parts])
    by (intros parts; constructor; [discriminate|constructor]).
  cbn zeta.
  unfold StreamManagerClean.processStreamPayment, StreamManagerClean.cancelStream,
    StreamManagerClean.pauseStream, StreamManagerClean.resumeStream,
    StreamManagerClean.logEvent, StreamManagerClean.mockTransfer,
    StreamManagerClean.not_found.
  destruct (SimpleStreamManager.streams g !! id) as [s|].
  2:{ repeat (constructor; [split_all; [reflexivity|apply Hlog|reflexivity]|]).
      constructor. }
  repeat (apply Forall_cons_2 || apply Forall_nil_2).
  - repeat match goal with
           | |- context [if ?b then _ else _] => destruct b
           end; cbn [fst snd app]; split_all; try reflexivity; try discriminate;
      repeat (constructor; [discriminate|]); constructor.
  - repeat match goal with
           | |- context [if ?b then _ else _] => destruct b
           end; cbn [fst snd app]; split_all; try reflexivity; try discriminate;
      repeat (constructor; [discriminate|]); constructor.
  - repeat match goal with
           | |- context [if ?b then _ else _] => destruct b
           end; cbn [fst snd app]; split_all; try reflexivity; try discriminate;
      repeat (constructor; [discriminate|]); constructor.
  - repeat match goal with
           | |- context [if ?b then _ else _] => destruct b
           end; cbn [fst snd app]; split_all; try reflexivity; try discriminate;
      repeat (constructor; [discriminate|]); constructor.
Qed.

(** X19. The two demonstration contracts keep the same ledger: on every
    id, state and time, [processStreamPayment], [cancelStream],
    [pauseStream] and [resumeStream] of StreamManagerClean leave exactly
    the module variables that the call of SimpleStreamManager leaves;
    where SimpleStreamManager throws, StreamManagerClean returns and
    changes nothing. *)
Theorem X19_clean_agrees_with_simple (now id : number) (g : Globals) :
  snd (fst (Clean_process now id g)) = snd (fst (Simple_process now id g)) /\
  snd (fst (Clean_cancel id g)) = snd (fst (Simple_cancel id g)) /\
  snd (fst (Clean_pause id g)) = snd (fst (Simple_pause id g)) /\
  snd (fst (Clean_resume now id g)) = snd (fst (Simple_resume now id g)) /\
  (isOk (fst (fst (Simple_process now id g))) = false ->
   snd (fst (Clean_process now id g)) = g) /\
  (isOk (fst (fst (Simple_cancel id g))) = false ->
   snd (fst (Clean_cancel id g)) = g) /\
  (isOk (fst (fst (Simple_pause id g))) = false ->
   snd (fst (Clean_pause id g)) = g) /\
  (isOk (fst (fst (Simple_resume now id g))) = false ->
   snd (fst (Clean_resume now id g)) = g).
Proof.
  unfold StreamManagerClean.processStreamPayment, StreamManagerClean.cancelStream,
    StreamManagerClean.pauseStream, StreamManagerClean.resumeStream,
    SimpleStreamManager.processStreamPayment, SimpleStreamManager.cancelStream,
    SimpleStreamManager.pauseStream, SimpleStreamManager.resumeStream.
  destruct (SimpleStreamManager.streams g !! id) as [s|];
    [|split_all; reflexivity].
  split_all;
    repeat match goal with
           | |- context [if ?b then _ else _] => destruct b
           end; cbn [fst snd isOk]; try reflexivity; try discriminate.
Qed.

End Siblings.

Lemma X15_simple_guards_witness :
  let s := SimpleStreamManager.mkStreamData
             "mock_sender" "bob" 1000 3601000 1 1000 3600 0 false true 0 60 in
  let g := SimpleStreamManager.mkGlobals (<[1 := s]> ∅) 1 "owner" in
  SimpleStreamManager.cancelStream 0 Z.sub Z.ltb 7 g = (Err "Stream not found", g, []) /\
  SimpleStreamManager.cancelStream 0 Z.sub Z.ltb 1 g
    = (Err "Stream already cancelled", g, []) /\
  SimpleStreamManager.pauseStream 1 g = (Err "Stream is cancelled", g, []).
Proof.
  intros s g.
  pose proof (X15_simple_guards 0 1000 Z.add Z.sub Z.mul Z.div Z.min Z.ltb Z.leb
                61000 7 g) as [Hmiss _].
  pose proof (X15_simple_guards 0 1000 Z.add Z.sub Z.mul Z.div Z.min Z.ltb Z.leb
                61000 1 g) as [_ Hguard].
  destruct (Hmiss ltac:(reflexivity)) as (_ & H7 & _).
  destruct (Hguard s (lookup_insert_eq _ _ _)) as (Hc & _).
  destruct (Hc eq_refl) as (H1 & H2 & _).
  split; [exact H7|]. split; [exact H1|exact H2].
Defined.

Lemma X16_simple_pause_resume_witness :
  let s := SimpleStreamManager.mkStreamData
             "mock_sender" "bob" 1000 3601000 1 1000 3600 0 false false 0 60 in
  let g := SimpleStreamManager.mkGlobals (<[1 := s]> ∅) 1 "owner" in
  exists g1 eff1 g2 eff2,
    SimpleStreamManager.pauseStream 1 g = (Ok tt, g1, eff1) /\
    SimpleStreamManager.resumeStream 1000 Z.mul 91000 1 g1 = (Ok tt, g2, eff2) /\
    SimpleStreamManager.streams g2 !! 1
      = Some (SimpleStreamManager.set_lastPaymentTime 91000 s) /\
    (exists s1 s2,
       SimpleStreamManager.streams g1 !! 1 = Some s1 /\
       SimpleStreamManager.streams g2 !! 1 = Some s2 /\
       SimpleStreamManager.isPaused s1 = true /\
       SimpleStreamManager.lastPaymentTime s1 = 1000 /\
       SimpleStreamManager.isPaused s2 = false /\
       SimpleStreamManager.lastPaymentTime s2 = 91000).
Proof.
  intros s g.
  destruct (X16_simple_pause_resume 1000 Z.mul 91000 1 g s)
    as (g1 & eff1 & g2 & eff2 & H1 & _ & H3 & H4 & _ & _ & _ &
        s1 & s2 & K1 & K2 & K3 & K4 & K5 & K6 & _).
  - apply lookup_insert_eq.
  - reflexivity.
  - reflexivity.
  - exists g1, eff1, g2, eff2. split; [exact H1|]. split; [exact H3|].
    split; [exact H4|]. exists s1, s2.
    split; [exact K1|]. split; [exact K2|]. split; [exact K3|].
    split; [exact K4|]. split; [exact K5|exact K6].
Defined.

Lemma X17_simple_createStream_witness :
  let g := SimpleStreamManager.mkGlobals (∅ : gmap Z _) 0 "owner" in
  SimpleStreamManager.createStream 0 1000 Z.add Z.mul Z.div Z.leb 1
    5000 "bob" 0 0 60 3600 g = (Err "Duration must be positive", g, []) /\
  exists g' eff,
    SimpleStreamManager.createStream 0 1000 Z.add Z.mul Z.div Z.leb 1
      5000 "bob" 3600 0 60 100 g = (Ok 1, g', eff) /\
    SimpleStreamManager.getStreamCount g' = 1.
Proof.
  intros g. split.
  - apply (proj1 (proj2 (X17_simple_createStream 0 1000 1 Z.add Z.mul Z.div Z.leb
                           5000 "bob" 0 0 60 3600 g))); reflexivity.
  - destruct (proj2 (proj2 (proj2 (X17_simple_createStream 0 1000 1
                 Z.add Z.mul Z.div Z.leb 5000 "bob" 3600 0 60 100 g))))
      as (g' & eff & H1 & H2 & _); try reflexivity.
    exists g', eff. split; assumption.
Defined.

Lemma X18_clean_never_throws_witness :
  let g := SimpleStreamManager.mkGlobals (∅ : gmap Z _) 0 "owner" in
  let out := StreamManagerClean.processStreamPayment 0 1000
               Z.add Z.sub Z.mul Z.div Z.ltb Z.leb 61000 7 g in
  fst (fst out) = Ok tt /\ snd (fst out) = g.
Proof.
  intros g out.
  pose proof (X18_clean_never_throws 0 1000 Z.add Z.sub Z.mul Z.div Z.ltb Z.leb
                61000 7 g) as Hall.
  cbn zeta in Hall. apply Forall_cons_1 in Hall.
  destruct Hall as [(Hok & _ & Hg) _].
  split; [exact Hok|]. apply Hg. reflexivity.
Defined.

Lemma X19_clean_agrees_with_simple_witness :
  let s := SimpleStreamManager.mkStreamData
             "mock_sender" "bob" 1000 3601000 1 1000 3600 0 false false 0 60 in
  let g := SimpleStreamManager.mkGlobals (<[1 := s]> ∅) 1 "owner" in
  snd (fst (StreamManagerClean.processStreamPayment 0 1000
              Z.add Z.sub Z.mul Z.div Z.ltb Z.leb 61000 1 g))
  = snd (fst (SimpleStreamManager.processStreamPayment 0 1000
                Z.add Z.sub Z.mul Z.div Z.ltb Z.leb 61000 1 g)) /\
  snd (fst (StreamManagerClean.resumeStream 61000 1 g)) = g.
Proof.
  intros s g.
  destruct (X19_clean_agrees_with_simple 0 1000 Z.add Z.sub Z.mul Z.div Z.ltb Z.leb
              61000 1 g) as (H1 & _ & _ & _ & _ & _ & _ & H8).
  split; [exact H1|]. apply H8. reflexivity.
Defined.

(** * Bounds of the 64-bit arithmetic in StreamManager *)

(** X20. The vesting window of a created stream.  When
    [now + duration * 1000] fits 64 bits the window ends exactly
    [duration * 1000] ms after it starts.  When the end wraps around
    ([duration * 1000] reduced modulo [2^64], added to [now], reaches
    [2^64]) the stream is born with [endTime < startTime], and the first
    [processStreamPayment] at or after the creation time pays the whole
    escrow to the recipient and completes the stream. *)
Theorem X20_vesting_window
    (env env1 : Env) (r : Address) (d ty i : Z) (st st' : Storage)
    (eff : list Effect) (id : Z) :
  U64.in_range (Context_transferredCoins env) ->
  U64.in_range (Time_timestamp env) ->
  createStream env r d ty i st = (Ok id, st', eff) ->
  exists s,
    streams st' !! id = Some s /\
    startTime s = Time_timestamp env /\
    (Time_timestamp env + d * 1000 < U64.modulus ->
     endTime s = startTime s + d * 1000) /\
    (U64.modulus <= Time_timestamp env + U64.mul d 1000 ->
     endTime s < startTime s /\
     (Time_timestamp env <= Time_timestamp env1 ->
      exists st1 eff1 s1,
        processStreamPayment env1 id st' = (Ok tt, st1, eff1) /\
        transfers_of eff1 = [(r, Context_transferredCoins env)] /\
        streams st1 !! id = Some s1 /\
        isCancelled s1 = true /\ withdrawnAmount s1 = totalAmount s)).
Proof.
  intros [Hc0 Hc1] [Ht0 Ht1] Hc.
  pose proof (createStream_ok_lookup _ _ _ _ _ _ _ _ _ Hc) as Hl.
  destruct (createStream_ok _ _ _ _ _ _ _ _ _ Hc) as (Ha & Hd & _).
  exists (fresh_stream env r d ty i). split; [exact Hl|].
  split; [reflexivity|]. cbn [endTime startTime fresh_stream]. split.
  - intros Hfit. rewrite mul_no_overflow by lia.
    apply add_no_carry; lia.
  - intros Hwrap.
    pose proof (wrap_in_range (d * 1000)) as [HD0 HD1].
    fold (U64.mul d 1000) in HD0, HD1.
    assert (Hend : U64.add (Time_timestamp env) (U64.mul d 1000)
                   < Time_timestamp env)
      by (unfold U64.add; rewrite wrap_carry by lia; lia).
    split; [exact Hend|]. intros Hnow.
    rewrite (processStreamPayment_eq env1 id st' _ Hl).
    cbn [isCancelled isPaused endTime fresh_stream].
    assert (He : (U64.add (Time_timestamp env) (U64.mul d 1000)
                  <=? Time_timestamp env1) = true) by (apply Z.leb_le; lia).
    rewrite He. unfold remaining.
    cbn [totalAmount withdrawnAmount fresh_stream].
    rewrite sub_no_borrow by lia. rewrite Z.sub_0_r.
    apply Z.ltb_lt in Ha. rewrite Ha.
    eexists _, _, _. split; [reflexivity|]. split; [reflexivity|].
    split; [apply store_lookup|]. split; reflexivity.
Qed.

Lemma X20_vesting_window_witness :
  let st := mkStorage ∅ (Some 0) (Some "owner") in
  let env := mkEnv "alice" "contract" 3600 18446744073709550616 in
  let env1 := mkEnv "scheduler" "contract" 0 18446744073709550617 in
  exists st' eff st1 eff1,
    createStream env "bob" 3600 0 60 st = (Ok 1, st', eff) /\
    processStreamPayment env1 1 st' = (Ok tt, st1, eff1) /\
    transfers_of eff1 = [("bob", 3600)].
Proof.
  intros st env env1.
  destruct (createStream env "bob" 3600 0 60 st) as [[res st'] eff] eqn:Hc.
  assert (Hres : res = Ok 1) by (vm_compute in Hc; congruence).
  subst res.
  destruct (X20_vesting_window env env1 "bob" 3600 0 60 st st' eff 1)
    as (s & _ & _ & _ & Hwrap).
  - unfold U64.in_range, U64.modulus; cbn; lia.
  - unfold U64.in_range, U64.modulus; cbn; lia.
  - exact Hc.
  - destruct Hwrap as [_ Hpay].
    + vm_compute. discriminate.
    + destruct Hpay as (st1 & eff1 & s1 & H1 & H2 & _).
      * unfold U64.modulus; cbn; lia.
      * exists st', eff, st1, eff1. split; [reflexivity|]. split; assumption.
Defined.

(** X21. Wrap-around of the product can only reduce a payment.  With
    [lastPaymentTime <= now], the amount the contract computes,
    [(now - lastPaymentTime) * ratePerSecond / 1000] in 64-bit
    arithmetic, is never negative and never more than the plain quotient;
    it is the plain quotient when the product fits 64 bits, and it is 0
    when no time has passed. *)
Theorem X21_overflow_underpays (now : Z) (s : StreamData) :
  0 <= lastPaymentTime s <= now -> now < U64.modulus ->
  0 <= ratePerSecond s ->
  let amount :=
    U64.div (U64.mul (U64.sub now (lastPaymentTime s)) (ratePerSecond s)) 1000 in
  let plain := (now - lastPaymentTime s) * ratePerSecond s / 1000 in
  0 <= amount <= plain /\
  ((now - lastPaymentTime s) * ratePerSecond s < U64.modulus -> amount = plain) /\
  (now = lastPaymentTime s -> amount = 0).
Proof.
  intros Hl Hn Hr amount plain. subst amount plain.
  fold (accrued now s).
  destruct (accrued_bound now s Hl Hn Hr) as [H0 Hb].
  split; [|split].
  - split; [exact H0|]. apply Z.div_le_lower_bound; lia.
  - intros Hfit. apply accrued_plain; assumption.
  - intros ->. unfold accrued, U64.sub. rewrite Z.sub_diag. reflexivity.
Qed.

Lemma X21_overflow_underpays_witness :
  let s := mkStreamData "alice" "bob" 0 2000 (2 ^ 63 - 1) 0 (2 ^ 64 - 1) 0
             false false 0 1 in
  let amount := U64.div (U64.mul (U64.sub 3 0) (2 ^ 63 - 1)) 1000 in
  0 <= amount <= (3 - 0) * (2 ^ 63 - 1) / 1000 /\
  amount < (3 - 0) * (2 ^ 63 - 1) / 1000.
Proof.
  intros s amount.
  destruct (X21_overflow_underpays 3 s) as (Hb & _ & _).
  - cbn; lia.
  - unfold U64.modulus; lia.
  - cbn; lia.
  - split; [exact Hb|]. vm_compute. reflexivity.
Defined.
